(** * rag_legislacion: ingestion pipeline and chat front end

    A shallow embedding of [src/populate_database.py] and [app.py].

    Python [str] values are sequences of Unicode code points, objects
    that the code mutates in place (documents, metadata dictionaries, the
    Streamlit session) live in an explicit store, and every call to an
    outside service (Pinecone, the embedding model, the semantic chunker,
    [uuid4], the file system) is an argument of the function that makes
    it. *)

From Stdlib Require Import NArith ZArith List String Ascii Lia.
From stdpp Require Import base option list gmap sets strings numbers pretty.

Local Open Scope N_scope.

(** ** Python strings *)

(** A [str] is a sequence of code points. *)
Definition pystr : Type := list N.

(** A literal of the source whose characters are all ASCII. *)
Definition lit (s : string) : pystr :=
  List.map N_of_ascii (list_ascii_of_string s).
Arguments lit : simpl never.

Definition is_ascii (c : N) : bool := c <? 128.

Definition ascii_alnum (c : N) : bool :=
  ((48 <=? c) && (c <=? 57)) || ((65 <=? c) && (c <=? 90))
  || ((97 <=? c) && (c <=? 122)).

(** [str.isspace] below 128: tab, LF, VT, FF, CR, the four separators
    0x1c-0x1f and the space. *)
Definition ascii_space (c : N) : bool :=
  ((9 <=? c) && (c <=? 13)) || ((28 <=? c) && (c <=? 32)).

Definition is_bracket (c : N) : bool :=
  (c =? 40) || (c =? 41) || (c =? 91) || (c =? 93) || (c =? 123) || (c =? 125).

Definition underscore : N := 95.
Definition hyphen : N := 45.

(** The characters an id component is made of: [[A-Za-z0-9_-]]. *)
Definition id_char (c : N) : bool :=
  ascii_alnum c || (c =? underscore) || (c =? hyphen).

(** ** The two shapes of [re.sub] the source uses *)

(** [re.sub('[cls]', repl, s)]: every character of the class is a match. *)
Definition re_sub_class (cls : N → bool) (repl s : pystr) : pystr :=
  flat_map (λ c, if cls c then repl else [c]) s.

(** [re.sub('[cls]+', repl, s)]: every maximal run of characters of the
    class is one match. [in_run] tells that the previous character
    belonged to the match being consumed. *)
Fixpoint re_sub_runs_from (cls : N → bool) (repl : pystr) (in_run : bool)
    (s : pystr) : pystr :=
  match s with
  | [] => []
  | c :: s' =>
      if cls c
      then (if in_run then [] else repl) ++ re_sub_runs_from cls repl true s'
      else c :: re_sub_runs_from cls repl false s'
  end.

Definition re_sub_runs (cls : N → bool) (repl s : pystr) : pystr :=
  re_sub_runs_from cls repl false s.

(** ** What Python takes from the Unicode database

    [unicodedata.normalize('NFKD', _)] and the behaviour of [\w] and [\s]
    (and of [str.strip]) on code points above 127 come from the Unicode
    tables of the interpreter; they are parameters here. *)
Section Unicode.

Variable nfkd : pystr → pystr.
Variable uni_word : N → bool.
Variable uni_space : N → bool.

(** [\w] of a [str] pattern. *)
Definition is_word (c : N) : bool :=
  if is_ascii c then ascii_alnum c || (c =? underscore) else uni_word c.

(** [\s] of a [str] pattern, which is also what [str.strip()] strips. *)
Definition is_space (c : N) : bool :=
  if is_ascii c then ascii_space c else uni_space c.

(** [populate_database.to_ascii_id]. *)
Definition to_ascii_id (text : pystr) : pystr :=
  let text := nfkd text in
  let text := re_sub_runs (λ c, negb (is_ascii c)) [] text in
  let text :=
    re_sub_class (λ c, negb (is_word c || is_space c || (c =? hyphen))) [] text in
  let text := re_sub_class is_bracket [] text in
  let text := re_sub_runs is_space [underscore] text in
  text.

(** [str.strip()] with no argument. *)
Fixpoint lstrip (s : pystr) : pystr :=
  match s with
  | [] => []
  | c :: s' => if is_space c then lstrip s' else s
  end.

Definition rstrip (s : pystr) : pystr := rev (lstrip (rev s)).

Definition strip (s : pystr) : pystr := rstrip (lstrip s).

End Unicode.

(** A few rows of the tables, enough to run the definitions: the
    decomposition of the accented Spanish vowels, of n-tilde and of
    u-diaeresis, the word characters of Latin-1 and the Unicode spaces. *)
Definition nfkd_char_sample (c : N) : pystr :=
  if c =? 225 then [97; 769] else if c =? 233 then [101; 769]
  else if c =? 237 then [105; 769] else if c =? 243 then [111; 769]
  else if c =? 250 then [117; 769] else if c =? 241 then [110; 771]
  else if c =? 252 then [117; 776] else [c].

Definition nfkd_sample (s : pystr) : pystr := flat_map nfkd_char_sample s.

Definition uni_word_sample (c : N) : bool :=
  (192 <=? c) && (c <=? 255) && negb (c =? 215) && negb (c =? 247).

Definition uni_space_sample (c : N) : bool :=
  (c =? 133) || (c =? 160) || (c =? 5760) || ((8192 <=? c) && (c <=? 8202))
  || (c =? 8232) || (c =? 8233) || (c =? 8239) || (c =? 8287) || (c =? 12288).

(** ** Values, exceptions, results *)

(** What a metadata dictionary holds: text, or a number (the loader's
    [page] and [total_pages]). *)
Inductive pyval : Type :=
  | VStr (s : pystr)
  | VInt (z : Z).

#[global] Instance pyval_eq_dec : EqDecision pyval.
Proof. solve_decision. Defined.

#[global] Instance pyval_countable : Countable pyval.
Proof.
  refine (inj_countable'
    (λ v, match v with VStr s => inl s | VInt z => inr z end)
    (λ x, match x with inl s => VStr s | inr z => VInt z end) _).
  by intros [].
Defined.

#[global] Instance pyval_inhabited : Inhabited pyval := populate (VInt 0).

(** [str(v)], which is also what an f-string field [{v}] renders. *)
Definition py_str (v : pyval) : pystr :=
  match v with
  | VStr s => s
  | VInt z => lit (pretty z)
  end.

(** A raised exception: its class and [str(e)]. *)
Record exn : Type := Exn { exn_type : string; exn_msg : pystr }.

Inductive result (A : Type) : Type :=
  | Ok (a : A)
  | Raise (e : exn).
Arguments Ok {A} a.
Arguments Raise {A} e.

Definition type_error {A} (msg : string) : result A :=
  Raise (Exn "TypeError" (lit msg)).

(** Where the source needs a [str] and would raise on anything else. *)
Definition as_str (v : pyval) : result pystr :=
  match v with
  | VStr s => Ok s
  | VInt _ => type_error "expected str"
  end.

(** ** [os.path] (POSIX flavour) *)

Definition slash : N := 47.
Definition backslash : N := 92.

(** [posixpath.basename]: what follows the last slash. *)
Fixpoint basename_from (acc p : pystr) : pystr :=
  match p with
  | [] => acc
  | c :: p' =>
      if c =? slash then basename_from [] p' else basename_from (acc ++ [c]) p'
  end.

Definition basename (p : pystr) : pystr := basename_from [] p.

(** One step of [posixpath.join]: an absolute component replaces what
    came before, otherwise it is appended after exactly one separator. *)
Definition join2 (path b : pystr) : pystr :=
  if bool_decide (head b = Some slash) then b
  else match last path with
       | None => b
       | Some d => if d =? slash then path ++ b else path ++ slash :: b
       end.

Definition path_join (a : pystr) (ps : list pystr) : pystr :=
  foldl join2 a ps.
Arguments path_join : simpl never.

(** [s.replace(old, new)] for a one-character [old]. *)
Definition replace_char (old : N) (new : pystr) (s : pystr) : pystr :=
  flat_map (λ c, if c =? old then new else [c]) s.

Local Close Scope N_scope.

(** ** The object store

    A [Document] and a metadata [dict] are mutable objects; a variable
    holds a reference to one. [next_loc] is the next free address, and
    [stdout] the lines printed so far. *)
Record Document : Type := mkDocument { page_content : pystr; metadata : nat }.

#[global] Instance Document_inhabited : Inhabited Document :=
  populate (mkDocument [] 0).

Record store : Type := mkStore {
  st_docs : gmap nat Document;
  st_dicts : gmap nat (gmap string pyval);
  next_loc : nat;
  stdout : list pystr
}.

(** A computation over a state [S] reads and updates it and returns or
    raises; what it did to the state before raising stays done. *)
Definition stateful (S A : Type) : Type := S → S * result A.

#[global] Instance stateful_ret {S} : MRet (stateful S) := λ A a st, (st, Ok a).

#[global] Instance stateful_bind {S} : MBind (stateful S) := λ A B f c st,
  match c st with
  | (st', Ok a) => f a st'
  | (st', Raise e) => (st', Raise e)
  end.

Definition lift {S A} (r : result A) : stateful S A := λ st, (st, r).

(** [for x in l: acc = body(acc, x)], with the local variables the loop
    updates gathered in [acc]. *)
Fixpoint for_fold {St A S} (body : S → A → stateful St S) (acc : S)
    (l : list A) : stateful St S :=
  match l with
  | [] => mret acc
  | x :: l' => acc' ← body acc x; for_fold body acc' l'
  end.

Definition for_each {St A} (body : A → stateful St ()) (l : list A)
    : stateful St () :=
  for_fold (λ _ x, body x) () l.

(** The computations of the ingestion script. *)
Abbreviation py := (stateful store).

Definition doc_at (st : store) (l : nat) : Document := st_docs st !!! l.
Definition dict_at (st : store) (d : nat) : gmap string pyval := st_dicts st !!! d.

(** The dictionary a document's [metadata] attribute refers to. *)
Definition metadata_of (st : store) (l : nat) : gmap string pyval :=
  dict_at st (metadata (doc_at st l)).

(** The store after [doc.page_content = s], [doc.metadata = d],
    [d[k] = v], the creation of a dictionary or of a document at the next
    free address, and a [print]. *)
Definition with_page_content (st : store) (l : nat) (s : pystr) : store :=
  mkStore (<[l := mkDocument s (metadata (doc_at st l))]> (st_docs st))
          (st_dicts st) (next_loc st) (stdout st).

Definition with_metadata (st : store) (l d : nat) : store :=
  mkStore (<[l := mkDocument (page_content (doc_at st l)) d]> (st_docs st))
          (st_dicts st) (next_loc st) (stdout st).

Definition with_item (st : store) (d : nat) (k : string) (v : pyval) : store :=
  mkStore (st_docs st) (<[d := <[k := v]> (dict_at st d)]> (st_dicts st))
          (next_loc st) (stdout st).

Definition with_new_dict (st : store) (m : gmap string pyval) : store :=
  mkStore (st_docs st) (<[next_loc st := m]> (st_dicts st))
          (S (next_loc st)) (stdout st).

Definition with_new_document (st : store) (s : pystr) (d : nat) : store :=
  mkStore (<[next_loc st := mkDocument s d]> (st_docs st)) (st_dicts st)
          (S (next_loc st)) (stdout st).

Definition with_line (st : store) (line : pystr) : store :=
  mkStore (st_docs st) (st_dicts st) (next_loc st) (stdout st ++ [line]).

Definition get_page_content (l : nat) : py pystr :=
  λ st, (st, Ok (page_content (doc_at st l))).

Definition get_metadata (l : nat) : py nat :=
  λ st, (st, Ok (metadata (doc_at st l))).

(** [doc.page_content = s] *)
Definition set_page_content (l : nat) (s : pystr) : py () :=
  λ st, (with_page_content st l s, Ok ()).

(** [doc.metadata = d] *)
Definition set_metadata (l d : nat) : py () :=
  λ st, (with_metadata st l d, Ok ()).

(** The entries a dictionary holds at this moment. *)
Definition dict_entries (d : nat) : py (gmap string pyval) :=
  λ st, (st, Ok (dict_at st d)).

(** [d.get(k, default)] *)
Definition dict_get (d : nat) (k : string) (dflt : pyval) : py pyval :=
  λ st, (st, Ok (default dflt (dict_at st d !! k))).

(** [d[k] = v] *)
Definition dict_setitem (d : nat) (k : string) (v : pyval) : py () :=
  λ st, (with_item st d k v, Ok ()).

(** A new dictionary object holding the entries [m]: [{}] when [m] is
    empty, [other.copy()] when [m] is what [other] holds. *)
Definition new_dict (m : gmap string pyval) : py nat :=
  λ st, (with_new_dict st m, Ok (next_loc st)).

(** [Document(page_content=s, metadata=d)] *)
Definition new_document (s : pystr) (d : nat) : py nat :=
  λ st, (with_new_document st s d, Ok (next_loc st)).

Definition print (line : pystr) : py () :=
  λ st, (with_line st line, Ok ()).

(** [str(n)] for a length. *)
Definition str_of_nat (n : nat) : pystr := lit (pretty n).

(** ** Deduplication: [get_existing_files] and [load_new_documents] *)

(** A match of an index query; the score plays no part here. *)
Record scored_vector : Type := mkMatch {
  match_id : pystr;
  match_metadata : gmap string pyval
}.

(** One iteration of the loop over [query_response.matches]. *)
Definition add_existing (existing_files : gset pyval) (m : scored_vector)
    : gset pyval :=
  match match_metadata m !! "filename"%string, match_metadata m !! "source"%string with
  | Some _, Some src => existing_files ∪ {[ src ]}
  | _, _ => existing_files
  end.

(** The body of the [try]: [query] is the outcome of [pc.Index(index_name)]
    followed by the probe query (zero vector, [top_k=10000], metadata
    included). *)
Definition get_existing_files_try (query : result (list scored_vector))
    : result (gset pyval) :=
  match query with
  | Ok matches => Ok (foldl add_existing ∅ matches)
  | Raise e => Raise e
  end.

(** [get_existing_files]: [except Exception] prints and returns [set()]. *)
Definition get_existing_files (query : result (list scored_vector))
    : py (gset pyval) :=
  match get_existing_files_try query with
  | Ok existing_files => mret existing_files
  | Raise e =>
      print (lit "Error al obtener archivos existentes: " ++ exn_msg e);;
      mret ∅
  end.

Section Loader.

(** [utils.normalize_filename.normalize_filename], from another module of
    the repository: any function from names to names. *)
Variable normalize_filename : pystr → pystr.

(** The body of the loop of [load_new_documents]. *)
Definition load_new_document (doc_type : pystr) (existing_files : gset pyval)
    (new_documents : list nat) (doc : nat) : py (list nat) :=
  md ← get_metadata doc;
  source_path ← dict_get md "source" (VStr []);
  if bool_decide (source_path ∉ existing_files) then
    path ← lift (as_str source_path);
    let original_filename := basename path in
    dict_setitem md "filename" (VStr (normalize_filename original_filename));;
    dict_setitem md "doc_type" (VStr doc_type);;
    mret (new_documents ++ [doc])
  else mret new_documents.

(** [load_new_documents]; [documents] is what
    [PyPDFDirectoryLoader(directory_path).load()] returned. *)
Definition load_new_documents (documents : list nat)
    (directory_path doc_type : pystr) (existing_files : gset pyval)
    : py (list nat) :=
  new_documents ← for_fold (load_new_document doc_type existing_files) [] documents;
  (if bool_decide (new_documents = []) then mret ()
   else print (lit "Encontrados " ++ str_of_nat (length new_documents)
               ++ lit " documentos nuevos en " ++ directory_path));;
  mret new_documents.

End Loader.

(** ** Chunking: [split_documents] *)

Section Chunker.

(** [SemanticChunker.split_text] with the embedding model it was built
    on: where it cuts is decided outside the program, and the call to
    the model can fail. *)
Variable split_text : pystr → result (list pystr).

(** [text_splitter.create_documents([text])]: one new [Document] per
    piece, each with a new empty metadata dictionary. *)
Definition create_documents (text : pystr) : py (list nat) :=
  pieces ← lift (split_text text);
  for_fold (λ documents piece,
              md ← new_dict ∅;
              d ← new_document piece md;
              mret (documents ++ [d])) [] pieces.

(** [d.copy()]: a new dictionary with the entries of [d]. *)
Definition dict_copy (d : nat) : py nat :=
  entries ← dict_entries d; new_dict entries.

(** The body of the outer loop of [split_documents]. *)
Definition split_document (chunks : list nat) (doc : nat) : py (list nat) :=
  content ← get_page_content doc;
  doc_chunks ← create_documents content;
  for_each (λ chunk,
              md ← get_metadata doc;
              md' ← dict_copy md;
              set_metadata chunk md') doc_chunks;;
  mret (chunks ++ doc_chunks).

Definition split_documents (documents : list nat) : py (list nat) :=
  chunks ← for_fold split_document [] documents;
  print (lit "Total de chunks generados: " ++ str_of_nat (length chunks));;
  mret chunks.

End Chunker.

(** ** [uuid.uuid4] and its text *)

Definition hex_digit (d : N) : N :=
  (if d <? 10 then 48 + d else 87 + d)%N.

(** ['%0wx' % n] for an [n] below [16^w]. *)
Fixpoint hex_fixed (w : nat) (n : N) : pystr :=
  match w with
  | O => []
  | S w' => hex_fixed w' (n / 16)%N ++ [hex_digit (n mod 16)%N]
  end.

(** [UUID(bytes=os.urandom(16), version=4).int] from the 128 random bits. *)
Definition uuid4_int (random : N) : N :=
  let i := N.ldiff random (N.shiftl 0xc000 48) in
  let i := N.lor i (N.shiftl 0x8000 48) in
  let i := N.ldiff i (N.shiftl 0xf000 64) in
  N.lor i (N.shiftl 4 76).

(** [str(u)]: the 32 hex digits in groups of 8-4-4-4-12. *)
Definition uuid_str (u : N) : pystr :=
  let hex := hex_fixed 32 u in
  take 8 hex ++ lit "-" ++ take 4 (drop 8 hex) ++ lit "-"
  ++ take 4 (drop 12 hex) ++ lit "-" ++ take 4 (drop 16 hex) ++ lit "-"
  ++ drop 20 hex.

(** [str(uuid.uuid4())[:8]] *)
Definition short_uuid (random : N) : pystr := take 8 (uuid_str (uuid4_int random)).

(** ** Python [range] and slices *)

Fixpoint range_from (fuel i stop step : nat) : list nat :=
  match fuel with
  | O => []
  | S fuel' => if (i <? stop)%nat then i :: range_from fuel' (i + step) stop step else []
  end.

(** [range(start, stop, step)] for a positive [step]: fewer than [stop]
    values are ever produced. *)
Definition py_range (start stop step : nat) : list nat :=
  range_from stop start stop step.

(** [l[i:j]] for [0 <= i <= j]. *)
Definition slice {A} (l : list A) (i j : nat) : list A := take (j - i) (drop i l).

(** ** [add_to_pinecone] *)

(** [d[k]] *)
Definition dict_getitem (d : nat) (k : string) : py pyval := λ st,
  match dict_at st d !! k with
  | Some v => (st, Ok v)
  | None => (st, Raise (Exn "KeyError" (lit k)))
  end.

(** [l[i]] *)
Definition list_getitem {A} (l : list A) (i : nat) : result A :=
  match l !! i with
  | Some x => Ok x
  | None => Raise (Exn "IndexError" (lit "list index out of range"))
  end.

Definition a_acute : N := 225.

(** The f-string of line 193. *)
Definition chunk_id_of (ascii_doc_type ascii_source : pystr) (page : pyval)
    (unique_id : pystr) : pystr :=
  ascii_doc_type ++ lit ":" ++ ascii_source ++ lit ":" ++ py_str page
  ++ lit ":" ++ unique_id.

(** The f-string of line 201. *)
Definition full_text_of (doc_type source page : pyval) (content : pystr) : pystr :=
  lit "Tipo: " ++ py_str doc_type ++ lit ". Archivo: " ++ py_str source
  ++ lit ". P" ++ [a_acute] ++ lit "gina: " ++ py_str page ++ lit ". " ++ content.

Definition batch_size : nat := 100.
Arguments batch_size : simpl never.

Section Pinecone.

Variable nfkd : pystr → pystr.
Variable uni_word uni_space : N → bool.

(** An embedding, the embedding model, and the index service: [Index] is
    the state of the remote index, [upsert] one [index.upsert] call. *)
Variable vector : Type.
Variable embed_documents : list pyval → result (list vector).

(** An element of [vectors_with_ids]. Its ["metadata"] is the chunk's
    dictionary itself; nothing writes to it between the moment the
    element is built and the moment its batch is sent, so the element
    holds the entries. *)
Record vector_record : Type := mkRecord {
  rec_id : pyval;
  rec_values : vector;
  rec_metadata : gmap string pyval
}.

Variable Index : Type.
Variable upsert : Index → list vector_record → result Index.

(** The body of the first loop (lines 181-214); [random] is what this
    iteration's [uuid4()] drew. *)
Definition annotate_chunk (timestamp : pystr) (random : N) (chunk : nat) : py () :=
  md ← get_metadata chunk;
  source ← dict_get md "filename" (VStr (lit "unknown"));
  page ← dict_get md "page_label" (VStr (lit "0"));
  doc_type ← dict_get md "doc_type" (VStr (lit "unknown"));
  let unique_id := short_uuid random in
  ascii_doc_type ← lift (as_str doc_type);
  let ascii_doc_type := to_ascii_id nfkd uni_word uni_space ascii_doc_type in
  ascii_source ← lift (as_str source);
  let ascii_source := to_ascii_id nfkd uni_word uni_space ascii_source in
  let chunk_id := chunk_id_of ascii_doc_type ascii_source page unique_id in
  dict_setitem md "id" (VStr chunk_id);;
  dict_setitem md "created_at" (VStr timestamp);;
  dict_setitem md "original_filename" source;;
  content ← get_page_content chunk;
  let full_text := full_text_of doc_type source page content in
  dict_setitem md "text" (VStr full_text);;
  set_page_content chunk full_text.

(** The first loop; the [i]-th iteration consumes the [i]-th draw. *)
Definition annotate_chunks (timestamp : pystr) (randoms : nat → N)
    (chunks : list nat) : py () :=
  for_fold (λ i chunk, annotate_chunk timestamp (randoms i) chunk;; mret (S i))
           O chunks;;
  mret ().

(** [[chunk.metadata["text"] for chunk in chunks]] *)
Definition chunk_texts (chunks : list nat) : py (list pyval) :=
  for_fold (λ texts chunk,
              md ← get_metadata chunk;
              text ← dict_getitem md "text";
              mret (texts ++ [text])) [] chunks.

(** The loop of lines 221-226. *)
Definition build_vectors (embeddings : list vector) (chunks : list nat)
    : py (list vector_record) :=
  r ← for_fold (λ '(i, vectors_with_ids) chunk,
              md ← get_metadata chunk;
              id ← dict_getitem md "id";
              values ← lift (list_getitem embeddings i);
              m ← dict_entries md;
              mret (S i, vectors_with_ids ++ [mkRecord id values m]))
           (O, []) chunks;
  mret (snd r).

(** What one run of the upsert loop did: the batches it sent, in order,
    the index it left, and the exception that ended it, if any. *)
Record upsert_run : Type := mkRun {
  upsert_calls : list (list vector_record);
  upsert_index : Index;
  upsert_raised : option exn
}.

(** The loop of lines 231-233 over the start offsets [starts]. *)
Fixpoint upsert_from (vectors_with_ids : list vector_record)
    (calls : list (list vector_record)) (index : Index) (starts : list nat)
    : upsert_run :=
  match starts with
  | [] => mkRun calls index None
  | i :: starts' =>
      let batch := slice vectors_with_ids i (i + batch_size) in
      match upsert index batch with
      | Ok index' => upsert_from vectors_with_ids (calls ++ [batch]) index' starts'
      | Raise e => mkRun (calls ++ [batch]) index (Some e)
      end
  end.

Definition upsert_batches (vectors_with_ids : list vector_record)
    (index : Index) : upsert_run :=
  upsert_from vectors_with_ids [] index
              (py_range 0 (length vectors_with_ids) batch_size).

(** The batches the loop cuts [vectors_with_ids] into. *)
Definition batches (vectors_with_ids : list vector_record)
    : list (list vector_record) :=
  (λ i, slice vectors_with_ids i (i + batch_size))
    <$> py_range 0 (length vectors_with_ids) batch_size.

(** [upserted index bs index']: sending the batches [bs] one after the
    other, starting from [index], succeeds each time and leaves [index']. *)
Inductive upserted : Index → list (list vector_record) → Index → Prop :=
  | upserted_nil index : upserted index [] index
  | upserted_cons index b index1 bs index' :
      upsert index b = Ok index1 →
      upserted index1 bs index' →
      upserted index (b :: bs) index'.

(** Lines 178-226: everything before the index is written to. *)
Definition prepare_vectors (timestamp : pystr) (randoms : nat → N)
    (chunks : list nat) : py (list vector_record) :=
  annotate_chunks timestamp randoms chunks;;
  texts ← chunk_texts chunks;
  embeddings ← lift (embed_documents texts);
  build_vectors embeddings chunks.

(** [add_to_pinecone]; [timestamp] is [datetime.now().isoformat()]. *)
Definition add_to_pinecone (timestamp : pystr) (randoms : nat → N)
    (chunks : list nat) (index : Index) (st : store) : store * upsert_run :=
  match prepare_vectors timestamp randoms chunks st with
  | (st', Raise e) => (st', mkRun [] index (Some e))
  | (st', Ok vectors_with_ids) =>
      let run := upsert_batches vectors_with_ids index in
      match upsert_raised run with
      | Some _ => (st', run)
      | None =>
          (with_line st' (lit "Documentos a" ++ [241%N]
                          ++ lit "adidos a Pinecone exitosamente"), run)
      end
  end.

End Pinecone.

Arguments mkRecord {vector} rec_id rec_values rec_metadata.
Arguments rec_id {vector} v.
Arguments rec_values {vector} v.
Arguments rec_metadata {vector} v.
Arguments mkRun {vector Index} upsert_calls upsert_index upsert_raised.
Arguments upsert_calls {vector Index} u.
Arguments upsert_index {vector Index} u.
Arguments upsert_raised {vector Index} u.
Arguments batches {vector} vectors_with_ids.

(** ** [app.py]: the chat page *)

(** What the page asks of Streamlit and of the conversation service, in
    the order the calls are made. *)
Inductive ui_event : Type :=
  | Title (text : pystr)
  | Caption (text : pystr)
  | Checkbox (label : pystr)
  | Expander (label : pystr)
  | Multiselect (label : pystr) (options : list pystr)
  | Warning (text : pystr)
  | Spinner (text : pystr)
  | Subheader (text : pystr)
  | Markdown (text : pystr)
  | DownloadButton (label data file_name key : pystr)
  | CreateChain (sources : list pystr)
  | Invoke (question : pystr) (chat_history : list (pystr * pystr))
           (sources : list pystr).

(** [st.session_state] once [setup] has run, with the calls made so far. *)
Record session : Type := mkSession {
  chat_history : list (pystr * pystr);
  selected_sources : list pystr;
  ui : list ui_event
}.

Abbreviation app := (stateful session).

Definition with_event (s : session) (e : ui_event) : session :=
  mkSession (chat_history s) (selected_sources s) (ui s ++ [e]).

Definition with_turn (s : session) (turn : pystr * pystr) : session :=
  mkSession (chat_history s ++ [turn]) (selected_sources s) (ui s).

Definition with_sources (s : session) (l : list pystr) : session :=
  mkSession (chat_history s) l (ui s).

Definition emit (e : ui_event) : app () := λ s, (with_event s e, Ok ()).

Definition get_chat_history : app (list (pystr * pystr)) :=
  λ s, (s, Ok (chat_history s)).

Definition get_selected_sources : app (list pystr) :=
  λ s, (s, Ok (selected_sources s)).

(** [st.session_state.chat_history.append(turn)] *)
Definition append_chat_history (turn : pystr * pystr) : app () :=
  λ s, (with_turn s turn, Ok ()).

(** [st.session_state.selected_sources = l] *)
Definition set_selected_sources (l : list pystr) : app () :=
  λ s, (with_sources s l, Ok ()).

(** A retrieved chunk as the chain hands it back. *)
Record source_document : Type := mkSource {
  source_content : pystr;
  source_metadata : gmap string pyval
}.

(** [response_data]: the keys ["response"] and ["context"]. *)
Record response_data : Type := mkResponse {
  response : pystr;
  context : list source_document
}.

(** [str(x)] of the result of a [d.get(k)], [None] when the key is missing. *)
Definition py_str_opt (o : option pyval) : pystr :=
  match o with
  | Some v => py_str v
  | None => lit "None"
  end.

(** [s.endswith(suffix)] *)
Definition endswith (s suffix : pystr) : bool :=
  bool_decide (length suffix ≤ length s
               ∧ drop (length s - length suffix) s = suffix).

(** [d[k] = v] on a dictionary whose iteration order matters: a new key
    goes last, an old one keeps its place. *)
Fixpoint odict_set {V} (d : list (pystr * V)) (k : pystr) (v : V)
    : list (pystr * V) :=
  match d with
  | [] => [(k, v)]
  | (k', v') :: d' =>
      if bool_decide (k' = k) then (k, v) :: d' else (k', v') :: odict_set d' k v
  end.

Definition todos : list pystr := [lit "todos"].

Section App.

Variable uni_space : N → bool.

(** The conversation chain of [utils.chains]: building it over the
    cached vector store and the active filter, and invoking it. *)
Variable Chain : Type.
Variable create_conversation_chain : list pystr → result Chain.
Variable chain_invoke :
  Chain → pystr → list (pystr * pystr) → list pystr → result response_data.

(** The file system: [os.path.exists], reading a file, [os.listdir],
    [os.path.isdir]; and [str.lower]. *)
Variable path_exists : pyval → bool.
Variable read_file : pyval → result pystr.
Variable listdir : pystr → list pystr.
Variable isdir : pystr → bool.
Variable lower : pystr → pystr.

(** The widgets' values: the checkbox, and each folder's multiselect
    given its options. *)
Variable select_all : bool.
Variable multiselect : pystr → list pystr → list pystr.

(** The body of the loop over [response_data["context"]]. *)
Definition show_source (idx : nat) (fuente : source_document) : app nat :=
  source ← lift (match source_metadata fuente !! "source"%string with
                 | Some v => Ok v
                 | None => Raise (Exn "KeyError" (lit "source"))
                 end);
  emit (Expander (lit "Fuente " ++ str_of_nat (idx + 1) ++ lit ": " ++ py_str source));;
  emit (Markdown (source_content fuente));;
  file_path ← lift (match source_metadata fuente !! "file_path"%string with
                    | Some v => Ok v
                    | None => type_error "stat: path should be string, bytes, os.PathLike or integer, not NoneType"
                    end);
  (if path_exists file_path then
     pdf_bytes ← lift (read_file file_path);
     emit (DownloadButton (lit "Descargar PDF") pdf_bytes
             (py_str (default (VStr (lit "documento.pdf"))
                              (source_metadata fuente !! "original_filename"%string)))
             (lit "download_" ++ py_str_opt (source_metadata fuente !! "id"%string)))
   else emit (Warning (lit "Archivo no encontrado")));;
  mret (S idx).

(** [handle_question] *)
Definition handle_question (question : pystr) : app () :=
  if bool_decide (strip uni_space question = []) then
    emit (Warning (lit "Por favor, ingresa una pregunta v" ++ [a_acute] ++ lit "lida."))
  else
    emit (Spinner (lit "Analizando tu consulta..."));;
    sources ← get_selected_sources;
    emit (CreateChain sources);;
    chain ← lift (create_conversation_chain sources);
    history ← get_chat_history;
    sources ← get_selected_sources;
    emit (Invoke question history sources);;
    response_data ← lift (chain_invoke chain question history sources);
    let respuesta := response response_data in
    append_chat_history (lit "user", question);;
    append_chat_history (lit "bot", respuesta);;
    emit (Subheader ([128218%N; 32%N] ++ lit "Fuentes utilizadas:"));;
    for_fold show_source O (context response_data);;
    mret ().

(** [get_documents]: the PDF files of each folder under [data]. *)
Definition get_documents : list (pystr * list pystr) :=
  let base_dir := lit "data" in
  if path_exists (VStr base_dir) then
    foldl (λ docs folder,
             let folder_path := path_join base_dir [folder] in
             if isdir folder_path then
               let pdf_files :=
                 filter (λ f, endswith (lower f) (lit ".pdf") = true)
                        (listdir folder_path) in
               odict_set docs folder pdf_files
             else docs)
          [] (listdir base_dir)
  else [].

(** The body of the loop over [docs.items()]. *)
Definition select_in_folder (selected_docs : list pystr)
    (item : pystr * list pystr) : app (list pystr) :=
  let '(folder, files) := item in
  emit (Expander (lit "Documentos en " ++ folder));;
  emit (Multiselect (lit "Selecciona documentos:") files);;
  let selected := multiselect folder files in
  mret (foldl (λ selected_docs doc,
                 let full_path := path_join (lit "data") [folder; doc] in
                 let full_path := replace_char backslash [slash] full_path in
                 selected_docs ++ [full_path])
              selected_docs selected).

(** The paths of the documents picked in the multiselects, folder by
    folder: what [selected_docs] holds after the loop. *)
Definition selected_paths (docs : list (pystr * list pystr)) : list pystr :=
  flat_map (λ '(folder, files),
              (λ doc, replace_char backslash [slash]
                        (path_join (lit "data") [folder; doc]))
                <$> multiselect folder files) docs.

(** [build_sidebar] *)
Definition build_sidebar : app () :=
  emit (Title (lit "Filtros de b" ++ [250%N] ++ lit "squeda"));;
  emit (Caption (lit "Selecciona los documentos legales para tu consulta:"));;
  emit (Checkbox (lit "Seleccionar todos los documentos"));;
  selected_docs ←
    (if negb select_all
     then for_fold select_in_folder [] get_documents
     else mret []);
  if select_all || bool_decide (selected_docs = [])
  then set_selected_sources todos
  else set_selected_sources selected_docs.

End App.

(** ** Observations the properties are stated with *)

(** The least number of groups of [d] that hold [n] things. *)
Definition ceil_div (n d : nat) : nat := (n + d - 1) / d.

(** [doc.metadata.get("source", "")] *)
Definition source_of (st : store) (doc : nat) : pyval :=
  default (VStr []) (metadata_of st doc !! "source"%string).

Definition is_str (v : pyval) : bool :=
  match v with
  | VStr _ => true
  | VInt _ => false
  end.

(** The three entries [add_to_pinecone] reads from a chunk's metadata,
    with the defaults it falls back on. *)
Definition filename_of (st : store) (chunk : nat) : pyval :=
  default (VStr (lit "unknown")) (metadata_of st chunk !! "filename"%string).

Definition page_label_of (st : store) (chunk : nat) : pyval :=
  default (VStr (lit "0")) (metadata_of st chunk !! "page_label"%string).

Definition doc_type_of (st : store) (chunk : nat) : pyval :=
  default (VStr (lit "unknown")) (metadata_of st chunk !! "doc_type"%string).

(** The chunk's file name and category are text, as the loader sets them. *)
Definition well_typed_chunk (st : store) (chunk : nat) : bool :=
  is_str (filename_of st chunk) && is_str (doc_type_of st chunk).

(** The address of the dictionary a chunk's [metadata] refers to. *)
Definition metadata_ref (st : store) (chunk : nat) : nat :=
  metadata (doc_at st chunk).

(** The id, the composite text and the entries [annotate_chunk] computes
    for a chunk from what the store holds when its iteration starts. *)
Definition text_in (st : store) (chunk : nat) : pystr :=
  full_text_of (doc_type_of st chunk) (filename_of st chunk)
               (page_label_of st chunk) (page_content (doc_at st chunk)).

Section Annotation.

Variable nfkd : pystr → pystr.
Variable uni_word uni_space : N → bool.
Variable timestamp : pystr.

Definition id_in (st : store) (random : N) (chunk : nat) : pystr :=
  chunk_id_of (to_ascii_id nfkd uni_word uni_space (py_str (doc_type_of st chunk)))
              (to_ascii_id nfkd uni_word uni_space (py_str (filename_of st chunk)))
              (page_label_of st chunk) (short_uuid random).

Definition entries_in (st : store) (random : N) (chunk : nat)
    : gmap string pyval :=
  <["text" := VStr (text_in st chunk)]>
    (<["original_filename" := filename_of st chunk]>
      (<["created_at" := VStr timestamp]>
        (<["id" := VStr (id_in st random chunk)]> (metadata_of st chunk)))).

End Annotation.

(** The composite text in the specification's words. *)
Definition spec_composite_text (category filename page : pyval)
    (content : pystr) : pystr :=
  lit "Type: " ++ py_str category ++ lit ". File: " ++ py_str filename
  ++ lit ". Page: " ++ py_str page ++ lit ". " ++ content.

(** ** A small run to execute the definitions on

    The loader returns three pages from [data/03_leyes]: two of a law
    that is new and one of a law that is already indexed. The chunker
    cuts every page in two, the embedding model returns the length of
    each text, and the index records the batches it receives. *)
Definition page_metadata (source label : string) (page : Z) : gmap string pyval :=
  <["source" := VStr (lit source)]>
    (<["page_label" := VStr (lit label)]> (<["page" := VInt page]> ∅)).

Definition loaded_store : store :=
  mkStore (<[1 := mkDocument (lit "Art. 1") 11]>
            (<[2 := mkDocument (lit "Art. 2") 12]>
              (<[3 := mkDocument (lit "Art. 9") 13]> ∅)))
          (<[11 := page_metadata "data/03_leyes/Ley 1.pdf" "1" 0]>
            (<[12 := page_metadata "data/03_leyes/Ley 1.pdf" "2" 1]>
              (<[13 := page_metadata "data/03_leyes/Ley 2.pdf" "1" 0]> ∅)))
          20 [].

Definition sample_existing : gset pyval := {[ VStr (lit "data/03_leyes/Ley 2.pdf") ]}.

Definition sample_load : store * result (list nat) :=
  load_new_documents (λ name, name) [1; 2; 3] (lit "data/03_leyes") (lit "ley")
                     sample_existing loaded_store.

Definition sample_split_text (text : pystr) : result (list pystr) :=
  Ok [take 3 text; drop 3 text].

Definition sample_split : store * result (list nat) :=
  split_documents sample_split_text [1; 2] sample_load.1.

(** The store and the chunks [add_to_pinecone] starts from. *)
Definition sample_store : store := sample_split.1.
Definition sample_chunks : list nat := [21; 23; 27; 29].

Definition sample_timestamp : pystr := lit "2025-01-01T00:00:00".

(** Draws of [uuid4] that differ in their first 32 bits, and draws that
    differ only further down. *)
Definition distinct_randoms (i : nat) : N := N.shiftl (N.of_nat i) 96.
Definition colliding_randoms (i : nat) : N := N.of_nat i.

Definition sample_embed (texts : list pyval) : result (list nat) :=
  Ok ((λ v, length (py_str v)) <$> texts).

Definition sample_upsert (index : list (list (vector_record nat)))
    (batch : list (vector_record nat)) : result (list (list (vector_record nat))) :=
  Ok (index ++ [batch]).

Definition sample_add_to_pinecone (randoms : nat → N)
    : store * upsert_run nat (list (list (vector_record nat))) :=
  add_to_pinecone nfkd_sample uni_word_sample uni_space_sample nat sample_embed
                  (list (list (vector_record nat))) sample_upsert
                  sample_timestamp randoms sample_chunks [] sample_store.

(** What the probe query returns: a record written by this pipeline and a
    record without ["filename"]. *)
Definition sample_matches : list scored_vector :=
  [mkMatch (lit "ley:Ley_2pdf:1:0a1b2c3d")
           (<["filename" := VStr (lit "Ley 2.pdf")]>
              (page_metadata "data/03_leyes/Ley 2.pdf" "1" 0));
   mkMatch (lit "legacy-1") (page_metadata "data/03_leyes/Ley 1.pdf" "1" 0)].

Definition sample_prepare : store * result (list (vector_record nat)) :=
  prepare_vectors nfkd_sample uni_word_sample uni_space_sample nat sample_embed
                  sample_timestamp distinct_randoms sample_chunks sample_store.

Definition sample_vectors : list (vector_record nat) :=
  match sample_prepare.2 with
  | Ok vectors => vectors
  | Raise _ => []
  end.

(** Two hundred and fifty records, and an index service that fails on
    the second call it receives. *)
Definition many_vectors : list (vector_record nat) :=
  (λ i, mkRecord (VInt (Z.of_nat i)) i ∅) <$> seq 0 250.

Definition failing_upsert (index : list (list (vector_record nat)))
    (batch : list (vector_record nat)) : result (list (list (vector_record nat))) :=
  match index with
  | [_] => Raise (Exn "PineconeException" (lit "unavailable"))
  | _ => Ok (index ++ [batch])
  end.

(** An empty chat session, a conversation service that answers, and a
    [data] directory with one folder. *)
Definition sample_session : session := mkSession [] [lit "todos"] [].

Definition sample_chain (sources : list pystr) : result () := Ok ().

Definition sample_invoke (chain : ()) (question : pystr)
    (history : list (pystr * pystr)) (sources : list pystr) : result response_data :=
  Ok (mkResponse (lit "Respuesta") []).

Definition sample_handle_question (question : pystr) : session * result () :=
  handle_question uni_space_sample () sample_chain sample_invoke
                  (λ _, false) (λ _, Ok []) question sample_session.

Definition sample_listdir (path : pystr) : list pystr :=
  if bool_decide (path = lit "data") then [lit "03_leyes"]
  else [lit "Ley 1.pdf"; lit "Ley 2.PDF"; lit "notas.txt"].

(** [str.lower] on the ASCII letters. *)
Definition ascii_lower (s : pystr) : pystr :=
  (λ c, if ((65 <=? c) && (c <=? 90))%N then (c + 32)%N else c) <$> s.

Definition sample_build_sidebar (select_all : bool)
    (multiselect : pystr → list pystr → list pystr) : session * result () :=
  build_sidebar (λ _, true) sample_listdir (λ _, true) ascii_lower
                select_all multiselect sample_session.

(** ** More observations *)

Definition colon : N := 58%N.

(** A lowercase hexadecimal digit. *)
Definition is_hex_digit (c : N) : bool :=
  (((48 <=? c) && (c <=? 57)) || ((97 <=? c) && (c <=? 102)))%N.

Section Tagging.

Variable normalize_filename : pystr → pystr.
Variable doc_type : pystr.

(** What [load_new_documents] makes of the metadata of a document it
    keeps: the two entries it writes, computed from the ["source"] entry. *)
Definition tagged (m : gmap string pyval) : gmap string pyval :=
  <["doc_type" := VStr doc_type]>
    (<["filename" :=
         VStr (normalize_filename
                 (basename (py_str (default (VStr []) (m !! "source"%string)))))]> m).

Variable existing_files : gset pyval.

(** The state of the store while the loop of [load_new_documents] runs,
    against the store [st0] it started from: the documents are the same
    objects with the same [metadata] references, and every dictionary is
    either as it was or tagged, the latter only for a source that is not
    in the set. *)
Definition loading (st0 st : store) : Prop :=
  (∀ l, doc_at st l = doc_at st0 l)
  ∧ next_loc st = next_loc st0
  ∧ stdout st = stdout st0
  ∧ ∀ r, dict_at st r = dict_at st0 r
         ∨ (dict_at st r = tagged (dict_at st0 r)
            ∧ default (VStr []) (dict_at st0 r !! "source"%string) ∉ existing_files).

End Tagging.

(** A computation of the page that leaves the history and the filter
    alone, whether it returns or raises. *)
Definition page_only {A} (c : app A) : Prop :=
  ∀ s, chat_history (c s).1 = chat_history s
       ∧ selected_sources (c s).1 = selected_sources s.

(** ** [app.py]: [setup] *)

Definition MEMORY_K : nat := 5.

(** The scales of [page_icon] and of the header. *)
Definition scales : pystr := [9878%N; 65039%N].

(** What [setup] puts on the page. *)
Inductive page_event : Type :=
  | SetPageConfig (page_title page_icon : pystr)
  | WriteHtml (html : pystr)
  | Header (text : pystr).

Section Setup.

(** The vector store [load_pinecone] returns and the conversation
    memory, both built by libraries; building either can fail. [css] is
    [htmlTemplates.css]. *)
Variables Vectorstore Memory : Type.
Variable load_pinecone : result Vectorstore.
Variable ConversationBufferMemory : nat → result Memory.
Variable css : pystr.

(** [st.session_state] as [setup] finds it: each of its four keys may be
    missing. *)
Record raw_session : Type := mkRaw {
  raw_vectorstore : option Vectorstore;
  raw_chat_history : option (list (pystr * pystr));
  raw_memory : option Memory;
  raw_selected_sources : option (list pystr);
  raw_page : list page_event
}.

Definition page_emit (e : page_event) : stateful raw_session () :=
  λ s, (mkRaw (raw_vectorstore s) (raw_chat_history s) (raw_memory s)
              (raw_selected_sources s) (raw_page s ++ [e]), Ok ()).

Definition read_session {A} (field : raw_session → A) : stateful raw_session A :=
  λ s, (s, Ok (field s)).

Definition set_vectorstore (v : Vectorstore) : stateful raw_session () :=
  λ s, (mkRaw (Some v) (raw_chat_history s) (raw_memory s)
              (raw_selected_sources s) (raw_page s), Ok ()).

Definition set_chat_history (h : list (pystr * pystr)) : stateful raw_session () :=
  λ s, (mkRaw (raw_vectorstore s) (Some h) (raw_memory s)
              (raw_selected_sources s) (raw_page s), Ok ()).

Definition set_memory (m : Memory) : stateful raw_session () :=
  λ s, (mkRaw (raw_vectorstore s) (raw_chat_history s) (Some m)
              (raw_selected_sources s) (raw_page s), Ok ()).

Definition set_raw_selected_sources (l : list pystr) : stateful raw_session () :=
  λ s, (mkRaw (raw_vectorstore s) (raw_chat_history s) (raw_memory s)
              (Some l) (raw_page s), Ok ()).

(** [setup] *)
Definition setup : stateful raw_session () :=
  page_emit (SetPageConfig (lit "ISOChat") scales);;
  page_emit (WriteHtml css);;
  page_emit (Header (lit "Chat con normas ISO " ++ scales));;
  vectorstore ← read_session raw_vectorstore;
  (if vectorstore is None
   then v ← lift load_pinecone; set_vectorstore v
   else mret ());;
  history ← read_session raw_chat_history;
  (if history is None then set_chat_history [] else mret ());;
  memory ← read_session raw_memory;
  (if memory is None
   then m ← lift (ConversationBufferMemory MEMORY_K); set_memory m
   else mret ());;
  sources ← read_session raw_selected_sources;
  (if sources is None then set_raw_selected_sources todos else mret ()).

End Setup.

Arguments mkRaw {Vectorstore Memory} _ _ _ _ _.
Arguments raw_vectorstore {Vectorstore Memory} _.
Arguments raw_chat_history {Vectorstore Memory} _.
Arguments raw_memory {Vectorstore Memory} _.
Arguments raw_selected_sources {Vectorstore Memory} _.
Arguments raw_page {Vectorstore Memory} _.

(** ** The script: [clear_database], [ensure_index_exists], [main] *)

Definition ROOT_DATA_PATH : pystr := lit "data".

Definition DOCUMENT_TYPES : list (pystr * pystr) :=
  [(lit "01_constitucion", lit "constitucion");
   (lit "02_convenios_internacionales", lit "convenio_internacional");
   (lit "03_leyes", lit "ley");
   (lit "04_codigos", lit "codigo")].

(** [str(x)] of what [os.getenv] returned. *)
Definition str_of_env (o : option pystr) : pystr :=
  match o with
  | Some s => s
  | None => lit "None"
  end.

(** [name in names], for a name that is [None] when the variable is not
    set. *)
Definition name_in (name : option pystr) (names : list pystr) : bool :=
  match name with
  | Some n => bool_decide (n ∈ names)
  | None => false
  end.

Section Script.

Variable normalize_filename : pystr → pystr.
Variable split_text : pystr → result (list pystr).
Variable nfkd : pystr → pystr.
Variable uni_word uni_space : N → bool.
Variable vector : Type.
Variable embed_documents : list pyval → result (list vector).

(** The Pinecone service as the client reaches it: [Cloud] is what the
    service holds, a call that changes it returns what it holds
    afterwards, a call that raises leaves it as it was. *)
Variable Cloud : Type.
Variable new_client : option pystr → result ().
Variable list_indexes : Cloud → result (list pystr).
Variable delete_all : Cloud → option pystr → result Cloud.
Variable create_index :
  Cloud → option pystr → nat → pystr → pystr → pystr → result Cloud.
Variable query : Cloud → option pystr → result (list scored_vector).
Variable upsert :
  option pystr → Cloud → list (vector_record vector) → result Cloud.

(** The environment, the file system, [PyPDFDirectoryLoader(dir).load()],
    the clock and the draws of [uuid4]. *)
Variable getenv : pystr → option pystr.
Variable path_exists : pystr → bool.
Variable loader : pystr → py (list nat).
Variable timestamp : pystr.
Variable randoms : nat → N.

(** The objects of the script, the service, and the waits asked of
    [time.sleep], in seconds. *)
Record world : Type := mkWorld {
  w_store : store;
  w_cloud : Cloud;
  w_sleeps : list nat
}.

Definition on_store {A} (c : py A) : stateful world A :=
  λ w, (mkWorld (c (w_store w)).1 (w_cloud w) (w_sleeps w), (c (w_store w)).2).

Definition the_cloud : stateful world Cloud := λ w, (w, Ok (w_cloud w)).

Definition set_cloud (pc : Cloud) : stateful world () :=
  λ w, (mkWorld (w_store w) pc (w_sleeps w), Ok ()).

Definition sleep (seconds : nat) : stateful world () :=
  λ w, (mkWorld (w_store w) (w_cloud w) (w_sleeps w ++ [seconds]), Ok ()).

(** The body of the [try] of [clear_database]. *)
Definition clear_database_try (index_name : option pystr) : stateful world () :=
  pc ← the_cloud;
  names ← lift (list_indexes pc);
  if name_in index_name names then
    pc' ← lift (delete_all pc index_name);
    set_cloud pc';;
    on_store (print ([205%N] ++ lit "ndice " ++ str_of_env index_name
                     ++ lit " vaciado correctamente"));;
    sleep 5
  else mret ().

(** [clear_database]: [except Exception] prints and goes on. *)
Definition clear_database (index_name : option pystr) : stateful world () :=
  λ w, match clear_database_try index_name w with
       | (w', Ok _) => (w', Ok ())
       | (w', Raise e) =>
           on_store (print (lit "Error al vaciar la base de datos: " ++ exn_msg e)) w'
       end.

(** [ensure_index_exists] *)
Definition ensure_index_exists (index_name : option pystr) : stateful world () :=
  pc ← the_cloud;
  names ← lift (list_indexes pc);
  if negb (name_in index_name names) then
    let region := default (lit "us-east-1") (getenv (lit "PINECONE_REGION")) in
    let cloud := default (lit "aws") (getenv (lit "PINECONE_CLOUD")) in
    pc' ← lift (create_index pc index_name 3072 (lit "cosine") cloud region);
    set_cloud pc';;
    sleep 60
  else mret ().

(** The body of the loop of [main] over [DOCUMENT_TYPES.items()]. *)
Definition load_directory (existing_files : gset pyval)
    (new_documents : list nat) (item : pystr * pystr) : stateful world (list nat) :=
  let '(subdir, doc_type) := item in
  let dir_path := path_join ROOT_DATA_PATH [subdir] in
  if path_exists dir_path then
    loaded ← on_store (loader dir_path);
    documents ← on_store (load_new_documents normalize_filename loaded dir_path
                                              doc_type existing_files);
    mret (new_documents ++ documents)
  else mret new_documents.

(** The call of [add_to_pinecone] by [main]: an exception that ended the
    run is raised to the caller. *)
Definition call_add_to_pinecone (chunks : list nat) (index_name : option pystr)
    : stateful world () :=
  λ w,
    let r := add_to_pinecone nfkd uni_word uni_space vector embed_documents
                             Cloud (upsert index_name) timestamp randoms
                             chunks (w_cloud w) (w_store w) in
    (mkWorld r.1 (upsert_index r.2) (w_sleeps w),
     match upsert_raised r.2 with
     | Some e => Raise e
     | None => Ok ()
     end).

(** Lines 56-69 of [main]: loading, chunking and storing, once the set
    of indexed sources is known. *)
Definition ingest (existing_files : gset pyval) (index_name : option pystr)
    : stateful world () :=
  new_documents ← for_fold (load_directory existing_files) [] DOCUMENT_TYPES;
  if bool_decide (new_documents = []) then
    on_store (print (lit "No se encontraron nuevos documentos para procesar."))
  else
    chunks ← on_store (split_documents split_text new_documents);
    call_add_to_pinecone chunks index_name.

(** [main]; [reset] is the flag of the command line. *)
Definition main (reset : bool) : stateful world () :=
  lift (new_client (getenv (lit "PINECONE_API_KEY")));;
  let index_name := getenv (lit "PINECONE_INDEX_NAME") in
  (if reset then clear_database index_name else mret ());;
  ensure_index_exists index_name;;
  existing_files ←
    (if negb reset
     then pc ← the_cloud; on_store (get_existing_files (query pc index_name))
     else mret ∅);
  ingest existing_files index_name.

End Script.

Arguments mkWorld {Cloud} _ _ _.
Arguments w_store {Cloud} _.
Arguments w_cloud {Cloud} _.
Arguments w_sleeps {Cloud} _.

(** ** More of the small run

    A page whose metadata holds numbers where text is expected; a chunker,
    an embedding model and a conversation service that are out of reach;
    a conversation service that cites a chunk as the script stores it,
    with a source and without a ["file_path"]. *)
Definition untyped_store : store :=
  mkStore (<[1 := mkDocument (lit "Art. 1") 11]> ∅)
          (<[11 := <["source" := VInt 7]> (<["filename" := VInt 7]> ∅)]> ∅)
          20 [].

Definition failing_split_text (text : pystr) : result (list pystr) :=
  Raise (Exn "APIConnectionError" (lit "unreachable")).

Definition failing_embed (texts : list pyval) : result (list nat) :=
  Raise (Exn "APIConnectionError" (lit "unreachable")).

Definition failing_chain (sources : list pystr) : result () :=
  Raise (Exn "AuthenticationError" (lit "no key")).

Definition sample_invoke_cited (chain : ()) (question : pystr)
    (history : list (pystr * pystr)) (sources : list pystr) : result response_data :=
  Ok (mkResponse (lit "Respuesta")
        [mkSource (lit "Art. 1") (page_metadata "data/03_leyes/Ley 1.pdf" "1" 0)]).

(** A session that holds a history and nothing else. *)
Definition sample_raw : raw_session () () :=
  mkRaw None (Some [(lit "user", lit "Hola")]) None None [].

Definition sample_setup : raw_session () () * result () :=
  setup () () (Ok ()) (λ _, Ok ()) (lit "<style></style>") sample_raw.

(** A small Pinecone: the names of its indexes with the records each
    holds. The index [leyes] holds the two records of [sample_matches]. *)
Definition sample_cloud : Type := list (pystr * list (vector_record nat)).

Definition sample_list_indexes (pc : sample_cloud) : result (list pystr) :=
  Ok pc.*1.

Definition sample_delete_all (pc : sample_cloud) (name : option pystr)
    : result sample_cloud :=
  Ok ((λ '(k, records), if bool_decide (Some k = name) then (k, []) else (k, records))
        <$> pc).

Definition sample_create_index (pc : sample_cloud) (name : option pystr)
    (dimension : nat) (metric cloud region : pystr) : result sample_cloud :=
  match name with
  | Some n => Ok (pc ++ [(n, [])])
  | None => Raise (Exn "ValueError" (lit "name"))
  end.

Definition sample_query (pc : sample_cloud) (name : option pystr)
    : result (list scored_vector) :=
  Ok (flat_map (λ '(k, records),
                  if bool_decide (Some k = name)
                  then (λ r, mkMatch (py_str (rec_id r)) (rec_metadata r)) <$> records
                  else []) pc).

Definition failing_query (pc : sample_cloud) (name : option pystr)
    : result (list scored_vector) :=
  Raise (Exn "PineconeException" (lit "timeout")).

Definition sample_cloud_upsert (name : option pystr) (pc : sample_cloud)
    (batch : list (vector_record nat)) : result sample_cloud :=
  Ok ((λ '(k, records),
         if bool_decide (Some k = name) then (k, records ++ batch) else (k, records))
        <$> pc).

Definition sample_getenv (key : pystr) : option pystr :=
  if bool_decide (key = lit "PINECONE_INDEX_NAME") then Some (lit "leyes")
  else if bool_decide (key = lit "PINECONE_API_KEY") then Some (lit "secret")
  else None.

Definition sample_path_exists (path : pystr) : bool :=
  bool_decide (path = lit "data/03_leyes").

(** A loader that finds one page, of the law that is indexed. *)
Definition sample_loader (dir : pystr) : py (list nat) :=
  md ← new_dict (page_metadata "data/03_leyes/Ley 2.pdf" "1" 0);
  d ← new_document (lit "Art. 9") md;
  mret [d].

Definition sample_world : world sample_cloud :=
  mkWorld (mkStore ∅ ∅ 0 [])
          [(lit "leyes",
            [mkRecord (VStr (lit "ley:Ley_2pdf:1:0a1b2c3d")) 0
                      (<["filename" := VStr (lit "Ley 2.pdf")]>
                         (page_metadata "data/03_leyes/Ley 2.pdf" "1" 0));
             mkRecord (VStr (lit "legacy-1")) 0
                      (page_metadata "data/03_leyes/Ley 1.pdf" "1" 0)])]
          [].

Definition sample_clear_database (index_name : option pystr)
    : world sample_cloud * result () :=
  clear_database sample_cloud sample_list_indexes sample_delete_all
                 index_name sample_world.

Definition sample_ensure_index_exists (index_name : option pystr)
    : stateful (world sample_cloud) () :=
  ensure_index_exists sample_cloud sample_list_indexes sample_create_index
                      sample_getenv index_name.

Definition sample_ingest (existing_files : gset pyval) (index_name : option pystr)
    : stateful (world sample_cloud) () :=
  ingest (λ name, name) sample_split_text nfkd_sample uni_word_sample
         uni_space_sample nat sample_embed sample_cloud sample_cloud_upsert
         sample_path_exists sample_loader sample_timestamp distinct_randoms
         existing_files index_name.

Definition sample_main
    (query : sample_cloud → option pystr → result (list scored_vector))
    (reset : bool) : world sample_cloud * result () :=
  main (λ name, name) sample_split_text nfkd_sample uni_word_sample
       uni_space_sample nat sample_embed sample_cloud (λ _, Ok ())
       sample_list_indexes sample_delete_all sample_create_index query
       sample_cloud_upsert sample_getenv sample_path_exists sample_loader
       sample_timestamp distinct_randoms reset sample_world.

(** * Properties *)

(** ** The sanitizer *)

Ltac char_cases :=
  repeat match goal with
    | |- context [N.leb ?a ?b] => destruct (N.leb_spec a b); try lia
    | |- context [N.ltb ?a ?b] => destruct (N.ltb_spec a b); try lia
    | |- context [N.eqb ?a ?b] => destruct (N.eqb_spec a b); try lia
    end; simpl; try (reflexivity || discriminate || lia).

Lemma id_char_is_ascii c : id_char c = true → is_ascii c = true.
Proof. unfold id_char, is_ascii, ascii_alnum, underscore, hyphen. char_cases. Qed.

Lemma id_char_not_bracket c : id_char c = true → is_bracket c = false.
Proof. unfold id_char, is_bracket, ascii_alnum, underscore, hyphen. char_cases. Qed.

Lemma id_char_not_ascii_space c : id_char c = true → ascii_space c = false.
Proof. unfold id_char, ascii_space, ascii_alnum, underscore, hyphen. char_cases. Qed.

Lemma re_sub_class_keeps (Q : N → Prop) cls repl s :
  Forall Q repl →
  Forall (λ c, cls c = false → Q c) s →
  Forall Q (re_sub_class cls repl s).
Proof.
  intros Hr Hs. unfold re_sub_class.
  induction Hs as [|c s Hc _ IH]; simpl; [constructor|].
  apply Forall_app. split; [|exact IH].
  destruct (cls c); [exact Hr | constructor; auto].
Qed.

Lemma re_sub_runs_from_keeps (Q : N → Prop) cls repl b s :
  Forall Q repl →
  Forall (λ c, cls c = false → Q c) s →
  Forall Q (re_sub_runs_from cls repl b s).
Proof.
  intros Hr Hs. revert b.
  induction Hs as [|c s Hc _ IH]; intros b; simpl; [constructor|].
  destruct (cls c).
  - apply Forall_app. split; [destruct b; [constructor | exact Hr] | apply IH].
  - constructor; auto.
Qed.

Lemma re_sub_class_fixed cls repl s :
  Forall (λ c, cls c = false) s → re_sub_class cls repl s = s.
Proof.
  unfold re_sub_class. induction 1 as [|c s Hc _ IH]; simpl; [done|].
  by rewrite Hc, IH.
Qed.

Lemma re_sub_runs_from_fixed cls repl b s :
  Forall (λ c, cls c = false) s → re_sub_runs_from cls repl b s = s.
Proof.
  intros Hs. revert b. induction Hs as [|c s Hc _ IH]; intros b; simpl; [done|].
  by rewrite Hc, IH.
Qed.

Section Sanitizer.

Variable nfkd : pystr → pystr.
Variable uni_word uni_space : N → bool.

Abbreviation sanitize := (to_ascii_id nfkd uni_word uni_space).

(** Every character the sanitizer lets through is one of
    [[A-Za-z0-9_-]]. *)
Lemma to_ascii_id_chars s : Forall (λ c, id_char c = true) (sanitize s).
Proof.
  unfold to_ascii_id, re_sub_runs.
  set (t1 := nfkd s).
  set (t2 := re_sub_runs_from _ [] false t1).
  set (t3 := re_sub_class _ [] t2).
  set (t4 := re_sub_class is_bracket [] t3).
  pose (keep c := is_word uni_word c || is_space uni_space c || (c =? hyphen)%N).
  assert (H2 : Forall (λ c, is_ascii c = true) t2).
  { apply re_sub_runs_from_keeps; [constructor|].
    apply Forall_forall. intros c _ Hc. by apply negb_false_iff in Hc. }
  assert (H3 : Forall (λ c, is_ascii c = true ∧ keep c = true) t3).
  { apply re_sub_class_keeps; [constructor|].
    eapply Forall_impl; [exact H2|]. simpl. intros c Ha Hk.
    split; [done|]. by apply negb_false_iff in Hk. }
  assert (H4 : Forall (λ c, is_ascii c = true ∧ keep c = true) t4).
  { apply re_sub_class_keeps; [constructor|].
    eapply Forall_impl; [exact H3|]. auto. }
  apply re_sub_runs_from_keeps; [repeat constructor|].
  eapply Forall_impl; [exact H4|]. simpl. intros c [Ha Hk] Hsp.
  unfold keep, is_word, is_space in *. rewrite Ha in *.
  unfold id_char. by rewrite Hsp, orb_false_r in Hk.
Qed.

(** A string over [[A-Za-z0-9_-]] goes through the four substitutions
    unchanged. *)
Lemma substitutions_fixed s :
  Forall (λ c, id_char c = true) s →
  re_sub_runs (is_space uni_space) [underscore]
    (re_sub_class is_bracket []
      (re_sub_class
         (λ c, negb (is_word uni_word c || is_space uni_space c || (c =? hyphen)%N)) []
         (re_sub_runs (λ c, negb (is_ascii c)) [] s))) = s.
Proof.
  intros Hs. unfold re_sub_runs.
  rewrite (re_sub_runs_from_fixed _ _ _ s).
  2:{ eapply Forall_impl; [exact Hs|]. simpl. intros c Hc.
      by rewrite (id_char_is_ascii c Hc). }
  rewrite (re_sub_class_fixed _ _ s).
  2:{ eapply Forall_impl; [exact Hs|]. simpl. intros c Hc.
      apply negb_false_iff. unfold is_word, is_space.
      rewrite (id_char_is_ascii c Hc), (id_char_not_ascii_space c Hc).
      by rewrite orb_false_r. }
  rewrite (re_sub_class_fixed _ _ s).
  2:{ eapply Forall_impl; [exact Hs|]. apply id_char_not_bracket. }
  apply re_sub_runs_from_fixed.
  eapply Forall_impl; [exact Hs|]. simpl. intros c Hc.
  unfold is_space. by rewrite (id_char_is_ascii c Hc), (id_char_not_ascii_space c Hc).
Qed.

(** NFKD leaves a string of ASCII characters as it is: no ASCII
    character has a decomposition. *)
Hypothesis nfkd_ascii : ∀ s, forallb is_ascii s = true → nfkd s = s.

(** C2. [to_ascii_id] is idempotent, and no character of its output is
    white space, a bracket or outside ASCII (each is a letter, a digit,
    an underscore or a hyphen). *)
Theorem to_ascii_id_idempotent_ascii s :
  sanitize (sanitize s) = sanitize s
  ∧ Forall (λ c, is_space uni_space c = false
                 ∧ is_bracket c = false
                 ∧ is_ascii c = true
                 ∧ id_char c = true) (sanitize s).
Proof.
  pose proof (to_ascii_id_chars s) as Hs. split.
  - unfold to_ascii_id at 1. rewrite nfkd_ascii.
    + by apply substitutions_fixed.
    + apply forallb_forall. intros c Hc%list_elem_of_In.
      apply id_char_is_ascii. by eapply Forall_forall in Hs.
  - eapply Forall_impl; [exact Hs|]. simpl. intros c Hc.
    unfold is_space.
    rewrite (id_char_is_ascii c Hc), (id_char_not_ascii_space c Hc),
      (id_char_not_bracket c Hc). done.
Qed.

End Sanitizer.

(** ** Running a computation *)

Lemma run_bind {S A B} (c : stateful S A) (f : A → stateful S B) st :
  (c ≫= f) st = match c st with
                | (st', Ok a) => f a st'
                | (st', Raise e) => (st', Raise e)
                end.
Proof. reflexivity. Qed.

Lemma run_ret {S A} (a : A) (st : S) :
  (mret a : stateful S A) st = (st, Ok a).
Proof. reflexivity. Qed.

Lemma run_get_metadata l st : get_metadata l st = (st, Ok (metadata_ref st l)).
Proof. reflexivity. Qed.

Lemma run_dict_getitem l k v st :
  metadata_of st l !! k = Some v →
  dict_getitem (metadata_ref st l) k st = (st, Ok v).
Proof. unfold dict_getitem, metadata_of, metadata_ref. by intros ->. Qed.

Lemma run_dict_entries l st :
  dict_entries (metadata_ref st l) st = (st, Ok (metadata_of st l)).
Proof. reflexivity. Qed.

Lemma for_fold_cons {St A S} (body : S → A → stateful St S) acc x l st :
  for_fold body acc (x :: l) st
  = match body acc x st with
    | (st', Ok acc') => for_fold body acc' l st'
    | (st', Raise e) => (st', Raise e)
    end.
Proof. reflexivity. Qed.

Lemma for_fold_app {St A S} (body : S → A → stateful St S) acc l1 l2 st :
  for_fold body acc (l1 ++ l2) st
  = match for_fold body acc l1 st with
    | (st', Ok acc') => for_fold body acc' l2 st'
    | (st', Raise e) => (st', Raise e)
    end.
Proof.
  revert acc st. induction l1 as [|x l1 IH]; intros acc st; simpl; [done|].
  rewrite !run_bind. destruct (body acc x st) as [st1 [acc1|e]]; [apply IH|done].
Qed.

(** ** The store under a write to a dictionary *)

Lemma doc_at_with_item st d k v l : doc_at (with_item st d k v) l = doc_at st l.
Proof. reflexivity. Qed.

Lemma dict_at_with_item st d k v m :
  dict_at (with_item st d k v) m
  = if decide (d = m) then <[k := v]> (dict_at st d) else dict_at st m.
Proof.
  unfold dict_at, with_item. simpl. destruct (decide (d = m)) as [->|Hne].
  - apply lookup_total_insert_eq.
  - by apply lookup_total_insert_ne.
Qed.

Lemma metadata_of_with_item_other_key st d k v l k' :
  k ≠ k' →
  metadata_of (with_item st d k v) l !! k' = metadata_of st l !! k'.
Proof.
  intros Hk. unfold metadata_of. rewrite doc_at_with_item, dict_at_with_item.
  destruct (decide _) as [->|]; [|done]. by rewrite lookup_insert_ne.
Qed.

(** ** The deduplication filter *)

Section LoaderProperties.

Variable normalize_filename : pystr → pystr.
Variables (doc_type : pystr) (existing_files : gset pyval).

Abbreviation step := (load_new_document normalize_filename doc_type existing_files).

(** One iteration keeps the document exactly when its source is not in
    the set, and writes no ["source"] entry. *)
Lemma load_new_document_spec new_documents doc st :
  is_str (source_of st doc) = true →
  ∃ st',
    step new_documents doc st
    = (st', Ok (if decide (source_of st doc ∉ existing_files)
                then new_documents ++ [doc] else new_documents))
    ∧ (∀ d, doc_at st' d = doc_at st d)
    ∧ (∀ d, source_of st' d = source_of st d).
Proof.
  intros Hstr. unfold load_new_document, get_metadata, dict_get.
  rewrite !run_bind. fold (metadata_of st doc). fold (source_of st doc).
  destruct (decide (source_of st doc ∉ existing_files)) as [Hnew|Hold].
  - rewrite bool_decide_eq_true_2 by done.
    destruct (source_of st doc) as [path|] eqn:Hsrc; [|done].
    rewrite !run_bind. unfold lift, as_str, dict_setitem. rewrite !run_bind, run_ret.
    eexists. split; [reflexivity|]. split; [done|].
    intros d. unfold source_of.
    by rewrite !metadata_of_with_item_other_key.
  - rewrite bool_decide_eq_false_2 by done.
    eexists. split; [reflexivity|]. done.
Qed.

Lemma load_loop_spec documents : ∀ new_documents st,
  forallb (λ d, is_str (source_of st d)) documents = true →
  ∃ st',
    for_fold step new_documents documents st
    = (st', Ok (new_documents
                ++ filter (λ d, source_of st d ∉ existing_files) documents))
    ∧ (∀ d, doc_at st' d = doc_at st d)
    ∧ (∀ d, source_of st' d = source_of st d).
Proof.
  induction documents as [|doc documents IH]; intros acc st Hstr; simpl.
  - exists st. by rewrite app_nil_r.
  - apply andb_true_iff in Hstr as [Hdoc Hrest].
    destruct (load_new_document_spec acc doc st Hdoc) as (st1 & Hrun & Hdocs & Hsrc).
    rewrite run_bind, Hrun.
    destruct (IH (if decide (source_of st doc ∉ existing_files)
                  then acc ++ [doc] else acc) st1) as (st2 & Hrun2 & Hdocs2 & Hsrc2).
    { apply forallb_forall. intros d Hd. rewrite Hsrc.
      by apply (proj1 (forallb_forall _ _) Hrest). }
    exists st2. split; [|split].
    + rewrite Hrun2. f_equal. f_equal.
      rewrite (list_filter_iff _ (λ d, source_of st d ∉ existing_files))
        by (intros d; by rewrite Hsrc).
      rewrite filter_cons. destruct (decide _); [|done].
      by rewrite <- app_assoc.
    + intros d. by rewrite Hdocs2.
    + intros d. by rewrite Hsrc2.
Qed.

(** C1. When every loaded document's source is text (or missing),
    [load_new_documents] returns exactly the documents whose source is
    not in [existing_files], in the loader's order, and leaves every
    document's source as it was. *)
Theorem load_new_documents_set_difference documents directory_path st :
  forallb (λ d, is_str (source_of st d)) documents = true →
  ∃ st',
    load_new_documents normalize_filename documents directory_path
                       doc_type existing_files st
    = (st', Ok (filter (λ d, source_of st d ∉ existing_files) documents))
    ∧ (∀ d, doc_at st' d = doc_at st d)
    ∧ (∀ d, source_of st' d = source_of st d).
Proof.
  intros Hstr. unfold load_new_documents.
  destruct (load_loop_spec documents [] st Hstr) as (st1 & Hrun & Hdocs & Hsrc).
  simpl in Hrun. rewrite run_bind, Hrun, run_bind.
  case_bool_decide.
  - exists st1. by rewrite run_ret.
  - eexists. split; [reflexivity|]. done.
Qed.

End LoaderProperties.

(** ** The lookup of the sources already in the index *)

Lemma elem_of_existing v matches : ∀ acc : gset pyval,
  v ∈ foldl add_existing acc matches
  ↔ v ∈ acc
    ∨ ∃ m, m ∈ matches
           ∧ is_Some (match_metadata m !! "filename"%string)
           ∧ match_metadata m !! "source"%string = Some v.
Proof.
  induction matches as [|m matches IH]; intros acc; simpl.
  - split; [auto|]. intros [?|(m & Hm & _)]; [done|]. by apply not_elem_of_nil in Hm.
  - rewrite IH. unfold add_existing.
    destruct (match_metadata m !! "filename"%string) as [f|] eqn:Hf,
             (match_metadata m !! "source"%string) as [src|] eqn:Hs.
    + rewrite elem_of_union, elem_of_singleton. split.
      * intros [[?| ->]|(m' & Hm' & H')]; [by left| |].
        -- right. exists m. rewrite Hf, Hs. split; [left|]. by eauto.
        -- right. exists m'. split; [by right|done].
      * intros [?|(m' & Hm' & Hf' & Hs')]; [by left; left|].
        apply elem_of_cons in Hm' as [->|Hm'].
        -- left. right. congruence.
        -- right. eauto.
    + split.
      * intros [?|(m' & Hm' & H')]; [by left|]. right. exists m'. split; [by right|done].
      * intros [?|(m' & Hm' & Hf' & Hs')]; [by left|].
        apply elem_of_cons in Hm' as [->|Hm']; [congruence|]. right. eauto.
    + split.
      * intros [?|(m' & Hm' & H')]; [by left|]. right. exists m'. split; [by right|done].
      * intros [?|(m' & Hm' & Hf' & Hs')]; [by left|].
        apply elem_of_cons in Hm' as [->|Hm']; [|right; by eauto].
        rewrite Hf in Hf'. by destruct Hf'.
    + split.
      * intros [?|(m' & Hm' & H')]; [by left|]. right. exists m'. split; [by right|done].
      * intros [?|(m' & Hm' & Hf' & Hs')]; [by left|].
        apply elem_of_cons in Hm' as [->|Hm']; [congruence|]. right. eauto.
Qed.

Lemma filter_all {A} (P : A → Prop) `{Hdec : !∀ x, Decision (P x)} (l : list A) :
  (∀ x, x ∈ l → P x) → filter P l = l.
Proof.
  induction l as [|x l IH]; intros Hall; [done|].
  rewrite filter_cons_True by (apply Hall; left).
  f_equal. apply IH. intros y Hy. apply Hall. by right.
Qed.

(** C7. When the lookup raises, [get_existing_files] does not: it prints
    the error and returns the empty set, the rest of the store is
    untouched, and the loader that runs next on that set keeps every
    document it loaded. *)
Theorem get_existing_files_failure_is_empty (e : exn) (st : store) :
  let st1 :=
    with_line st (lit "Error al obtener archivos existentes: " ++ exn_msg e) in
  get_existing_files (Raise e) st = (st1, Ok ∅)
  ∧ st_docs st1 = st_docs st ∧ st_dicts st1 = st_dicts st
  ∧ ∀ normalize_filename documents directory_path doc_type,
      forallb (λ d, is_str (source_of st d)) documents = true →
      ∃ st2,
        (existing_files ← get_existing_files (Raise e);
         load_new_documents normalize_filename documents directory_path
                            doc_type existing_files) st
        = (st2, Ok documents).
Proof.
  simpl. split; [reflexivity|]. split; [reflexivity|]. split; [reflexivity|].
  intros normalize_filename documents directory_path doc_type Hstr.
  pose (st1 := with_line st (lit "Error al obtener archivos existentes: "
                              ++ exn_msg e)).
  destruct (load_loop_spec normalize_filename doc_type ∅ documents [] st1 Hstr)
    as (st2 & Hrun & _).
  rewrite app_nil_l, filter_all in Hrun
    by (intros d _; apply not_elem_of_empty).
  rewrite run_bind.
  change (get_existing_files (Raise e) st) with (st1, @Ok (gset pyval) ∅).
  cbv beta iota. unfold load_new_documents. rewrite run_bind, Hrun, run_bind.
  case_bool_decide.
  - exists st2. by rewrite run_ret.
  - eexists. reflexivity.
Qed.

(** C10. A match counts towards the existing sources only when its
    metadata has both the ["filename"] and the ["source"] key: the set
    returned holds exactly the sources of such matches. A source that
    only appears in matches without ["filename"] is not in it, and a
    loaded document with that source passes the filter. *)
Theorem get_existing_files_needs_filename (matches : list scored_vector)
    (st : store) :
  ∃ existing_files : gset pyval,
    get_existing_files (Ok matches) st = (st, Ok existing_files)
    ∧ (∀ v, v ∈ existing_files
            ↔ ∃ m, m ∈ matches
                   ∧ is_Some (match_metadata m !! "filename"%string)
                   ∧ match_metadata m !! "source"%string = Some v)
    ∧ (∀ v, (∀ m, m ∈ matches →
                  match_metadata m !! "source"%string = Some v →
                  match_metadata m !! "filename"%string = None) →
            (v ∉ existing_files)
            ∧ ∀ doc, source_of st doc = v →
                     doc ∈ filter (λ d, source_of st d ∉ existing_files) [doc]).
Proof.
  exists (foldl add_existing ∅ matches).
  split; [reflexivity|].
  assert (Hiff : ∀ v, v ∈ foldl add_existing (∅ : gset pyval) matches
            ↔ ∃ m, m ∈ matches
                   ∧ is_Some (match_metadata m !! "filename"%string)
                   ∧ match_metadata m !! "source"%string = Some v).
  { intros v. rewrite elem_of_existing. split; [|by right].
    intros [H|H]; [|done]. by apply not_elem_of_empty in H. }
  split; [exact Hiff|].
  intros v Hno.
  assert (Hv : v ∉ foldl add_existing (∅ : gset pyval) matches).
  { rewrite Hiff. intros (m & Hm & Hf & Hs).
    rewrite (Hno m Hm Hs) in Hf. by destruct Hf. }
  split; [exact Hv|].
  intros doc <-. rewrite filter_cons_True by done. by left.
Qed.

(** ** The batches sent to the index *)

Lemma range_from_count step c : ∀ fuel i stop,
  c ≤ fuel →
  (∀ k, k < c → i + k * step < stop) →
  stop ≤ i + c * step →
  range_from fuel i stop step = (λ k, i + k * step) <$> seq 0 c.
Proof.
  induction c as [|c IH]; intros fuel i stop Hfuel Hlt Hge.
  - destruct fuel; simpl; [done|].
    destruct (Nat.ltb_spec i stop); [lia|done].
  - destruct fuel as [|fuel]; [lia|]. simpl.
    pose proof (Hlt 0 ltac:(lia)).
    destruct (Nat.ltb_spec i stop); [|lia].
    f_equal; [lia|].
    rewrite (IH fuel (i + step) stop); [|lia| |lia].
    + rewrite <- fmap_S_seq, <- list_fmap_compose.
      apply list_fmap_ext. intros _ k _. simpl. lia.
    + intros k Hk. specialize (Hlt (S k) ltac:(lia)). lia.
Qed.

Lemma ceil_div_bounds n d :
  0 < d → d * (ceil_div n d) < n + d ∧ n ≤ d * ceil_div n d.
Proof.
  intros Hd. unfold ceil_div.
  pose proof (Nat.div_mod_eq (n + d - 1) d).
  pose proof (Nat.mod_upper_bound (n + d - 1) d ltac:(lia)).
  lia.
Qed.

Lemma py_range_batches n :
  py_range 0 n batch_size = (λ k, k * batch_size) <$> seq 0 (ceil_div n batch_size).
Proof.
  unfold py_range.
  destruct (ceil_div_bounds n batch_size) as [Hlo Hhi]; [unfold batch_size; lia|].
  rewrite (range_from_count batch_size (ceil_div n batch_size)).
  - done.
  - unfold batch_size in *. lia.
  - intros k Hk. unfold batch_size in *. lia.
  - unfold batch_size in *. lia.
Qed.

Lemma slice_batch {A} (l : list A) i :
  slice l i (i + batch_size) = take batch_size (drop i l).
Proof. unfold slice. f_equal. lia. Qed.

Lemma concat_batches {A} c : ∀ l : list A,
  length l ≤ c * batch_size →
  concat ((λ k, take batch_size (drop (k * batch_size) l)) <$> seq 0 c) = l.
Proof.
  induction c as [|c IH]; intros l Hlen.
  - destruct l; [done|simpl in Hlen; lia].
  - simpl. rewrite <- fmap_S_seq, <- list_fmap_compose.
    transitivity (take batch_size l ++ drop batch_size l); [|apply take_drop].
    f_equal.
    etransitivity; [|apply (IH (drop batch_size l)); rewrite length_drop; lia].
    f_equal. apply list_fmap_ext. intros _ k _. simpl.
    rewrite drop_drop. f_equal.
Qed.

Section UpsertProperties.

Variable vector : Type.
Variable Index : Type.
Variable upsert : Index → list (vector_record vector) → result Index.

Abbreviation sent := (upserted vector Index upsert).

Lemma upsert_from_spec (v : list (vector_record vector)) starts :
  ∀ calls index,
  let bs := (λ i, slice v i (i + batch_size)) <$> starts in
  let run := upsert_from vector Index upsert v calls index starts in
  match upsert_raised run with
  | None => upsert_calls run = calls ++ bs ∧ sent index bs (upsert_index run)
  | Some e =>
      ∃ k b, bs !! k = Some b
             ∧ upsert_calls run = calls ++ take (S k) bs
             ∧ sent index (take k bs) (upsert_index run)
             ∧ upsert (upsert_index run) b = Raise e
  end.
Proof.
  induction starts as [|i starts IH]; intros calls index; simpl.
  - rewrite app_nil_r. split; [done|constructor].
  - destruct (upsert index (slice v i (i + batch_size))) as [index1|e] eqn:Hup.
    + specialize (IH (calls ++ [slice v i (i + batch_size)]) index1).
      simpl in IH.
      destruct (upsert_raised (upsert_from _ _ _ _ _ _ _)) as [e|].
      * destruct IH as (k & b & Hb & Hcalls & Hsent & Hfail).
        exists (S k), b. split; [done|]. split.
        { by rewrite Hcalls, <- app_assoc. }
        split; [|done]. simpl. econstructor; eauto.
      * destruct IH as [Hcalls Hsent]. split.
        { by rewrite Hcalls, <- app_assoc. }
        econstructor; eauto.
    + simpl. exists 0, (slice v i (i + batch_size)).
      split; [done|]. split; [by rewrite take_0|].
      split; [constructor|done].
Qed.

(** The batches are the consecutive runs of a hundred records. *)
Lemma batches_spec (v : list (vector_record vector)) :
  length (batches v) = ceil_div (length v) batch_size
  ∧ concat (batches v) = v
  ∧ ∀ i b, batches v !! i = Some b →
      b = slice v (batch_size * i) (min (batch_size * (i + 1)) (length v))
      ∧ 0 < length b ≤ batch_size.
Proof.
  unfold batches. rewrite py_range_batches, <- list_fmap_compose.
  pose proof (ceil_div_bounds (length v) batch_size ltac:(unfold batch_size; lia))
    as [Hlo Hhi].
  split; [by rewrite length_fmap, length_seq|]. split.
  - erewrite list_fmap_ext.
    + apply (concat_batches (ceil_div (length v) batch_size)). lia.
    + intros _ k _. simpl. apply slice_batch.
  - intros i b Hb. apply list_lookup_fmap_Some in Hb as (k & -> & Hk).
    apply lookup_seq in Hk as [-> Hi].
    unfold compose, slice. cbn beta. rewrite ?Nat.add_0_l.
    assert (i * batch_size < length v) by (unfold batch_size in *; lia).
    split.
    + replace (batch_size * i) with (i * batch_size) by lia.
      set (l := drop (i * batch_size) v).
      replace (min (batch_size * (i + 1)) (length v) - i * batch_size)
        with (min batch_size (length l))
        by (unfold l; rewrite length_drop; lia).
      replace (i * batch_size + batch_size - i * batch_size)
        with batch_size by lia.
      destruct (Nat.le_ge_cases batch_size (length l)).
      * by rewrite Nat.min_l.
      * rewrite Nat.min_r by done. by rewrite !take_ge.
    + rewrite length_take, length_drop. unfold batch_size in *. lia.
Qed.

End UpsertProperties.

(** ** The store under the other writes *)

Lemma doc_at_with_page_content st l s l' :
  doc_at (with_page_content st l s) l'
  = if decide (l = l') then mkDocument s (metadata (doc_at st l)) else doc_at st l'.
Proof.
  unfold doc_at, with_page_content. simpl. destruct (decide (l = l')) as [->|Hne].
  - apply lookup_total_insert_eq.
  - by apply lookup_total_insert_ne.
Qed.

Lemma dict_at_with_page_content st l s d :
  dict_at (with_page_content st l s) d = dict_at st d.
Proof. reflexivity. Qed.

Lemma metadata_ref_with_page_content st l s l' :
  metadata_ref (with_page_content st l s) l' = metadata_ref st l'.
Proof.
  unfold metadata_ref. rewrite doc_at_with_page_content.
  by destruct (decide (l = l')) as [->|].
Qed.

(** ** Annotating the chunks *)

Section AnnotateProperties.

Variable nfkd : pystr → pystr.
Variable uni_word uni_space : N → bool.
Variable timestamp : pystr.

Abbreviation id_of := (id_in nfkd uni_word uni_space).
Abbreviation entries_of := (entries_in nfkd uni_word uni_space timestamp).

Lemma annotate_chunk_spec random chunk st :
  well_typed_chunk st chunk = true →
  ∃ st',
    annotate_chunk nfkd uni_word uni_space timestamp random chunk st = (st', Ok ())
    ∧ (∀ l, metadata_ref st' l = metadata_ref st l)
    ∧ (∀ d, d ≠ metadata_ref st chunk → dict_at st' d = dict_at st d)
    ∧ dict_at st' (metadata_ref st chunk) = entries_of st random chunk
    ∧ (∀ l, l ≠ chunk → doc_at st' l = doc_at st l)
    ∧ page_content (doc_at st' chunk) = text_in st chunk.
Proof.
  intros [Hfn Hdt]%andb_true_iff.
  unfold annotate_chunk, get_metadata, dict_get.
  rewrite !run_bind.
  fold (metadata_of st chunk).
  fold (filename_of st chunk) (page_label_of st chunk) (doc_type_of st chunk).
  destruct (doc_type_of st chunk) as [dt|] eqn:Edt; [|done].
  destruct (filename_of st chunk) as [fn|] eqn:Efn; [|done].
  unfold lift, as_str, dict_setitem, get_page_content, set_page_content.
  rewrite !run_bind.
  eexists. split; [reflexivity|].
  rewrite !doc_at_with_item.
  split; [|split; [|split; [|split]]].
  - intros l. rewrite metadata_ref_with_page_content. unfold metadata_ref.
    by rewrite !doc_at_with_item.
  - intros d Hd. rewrite dict_at_with_page_content, !dict_at_with_item.
    unfold metadata_ref in Hd. by rewrite !decide_False by done.
  - rewrite dict_at_with_page_content, !dict_at_with_item.
    unfold metadata_ref. rewrite !decide_True by done.
    unfold entries_in, text_in, id_in. by rewrite Edt, Efn.
  - intros l Hl. rewrite doc_at_with_page_content.
    rewrite decide_False by done. by rewrite !doc_at_with_item.
  - rewrite doc_at_with_page_content, decide_True by done.
    unfold text_in. by rewrite Edt, Efn.
Qed.

(** What an iteration computes for a chunk does not depend on writes to
    other chunks and other dictionaries. *)
Lemma entries_in_stable st st1 random c :
  metadata_ref st1 c = metadata_ref st c →
  dict_at st1 (metadata_ref st c) = dict_at st (metadata_ref st c) →
  doc_at st1 c = doc_at st c →
  well_typed_chunk st1 c = well_typed_chunk st c
  ∧ id_of st1 random c = id_of st random c
  ∧ text_in st1 c = text_in st c
  ∧ entries_of st1 random c = entries_of st random c.
Proof.
  intros Href Hdict Hdoc.
  assert (Hmd : metadata_of st1 c = metadata_of st c).
  { unfold metadata_of. fold (metadata_ref st1 c) (metadata_ref st c).
    by rewrite Href. }
  unfold entries_in, text_in, id_in, well_typed_chunk, filename_of,
    page_label_of, doc_type_of.
  by rewrite Hmd, Hdoc.
Qed.

Abbreviation annotate_step randoms :=
  (λ (i : nat) (chunk : nat),
     annotate_chunk nfkd uni_word uni_space timestamp (randoms i) chunk;;
     mret (S i)).

Lemma annotate_loop_spec (randoms : nat → N) chunks : ∀ i0 st,
  NoDup (metadata_ref st <$> chunks) →
  forallb (well_typed_chunk st) chunks = true →
  ∃ st',
    for_fold (annotate_step randoms) i0 chunks st = (st', Ok (i0 + length chunks))
    ∧ (∀ l, metadata_ref st' l = metadata_ref st l)
    ∧ (∀ d, d ∉ metadata_ref st <$> chunks → dict_at st' d = dict_at st d)
    ∧ (∀ l, l ∉ chunks → doc_at st' l = doc_at st l)
    ∧ (∀ k c, chunks !! k = Some c →
         dict_at st' (metadata_ref st c) = entries_of st (randoms (i0 + k)) c
         ∧ page_content (doc_at st' c) = text_in st c).
Proof.
  induction chunks as [|c rest IH]; intros i0 st Hnd Hty.
  - exists st. simpl. rewrite Nat.add_0_r. repeat split; done.
  - simpl in Hnd, Hty. apply NoDup_cons in Hnd as [Hc Hnd].
    apply andb_true_iff in Hty as [Htc Hty].
    destruct (annotate_chunk_spec (randoms i0) c st Htc)
      as (st1 & Hrun & Href & Hdicts & Hdict & Hdocs & Hcontent).
    assert (Hmap : metadata_ref st1 <$> rest = metadata_ref st <$> rest).
    { apply list_fmap_ext. intros _ l _. apply Href. }
    assert (Hc' : c ∉ rest).
    { intros Hin. apply Hc. by apply list_elem_of_fmap_2. }
    assert (Hstable : ∀ c', c' ∈ rest →
              metadata_ref st c' ≠ metadata_ref st c ∧ c' ≠ c).
    { intros c' Hin. split.
      - intros Heq. apply Hc. rewrite <- Heq. by apply list_elem_of_fmap_2.
      - intros ->. done. }
    destruct (IH (S i0) st1) as (st' & Hrun' & Href' & Hdicts' & Hdocs' & Hper).
    { by rewrite Hmap. }
    { apply forallb_forall. intros c' Hin%list_elem_of_In.
      destruct (Hstable c' Hin) as [Hne1 Hne2].
      destruct (entries_in_stable st st1 0%N c') as (-> & _); auto.
      by apply (proj1 (forallb_forall _ _) Hty), list_elem_of_In. }
    exists st'. split; [|split; [|split; [|split]]].
    + simpl. rewrite !run_bind, Hrun. rewrite run_ret, Hrun'.
      do 2 f_equal. lia.
    + intros l. by rewrite Href', Href.
    + intros d Hd. apply not_elem_of_cons in Hd as [Hd1 Hd2].
      rewrite Hdicts' by (by rewrite Hmap). by apply Hdicts.
    + intros l Hl. apply not_elem_of_cons in Hl as [Hl1 Hl2].
      rewrite Hdocs' by done. by apply Hdocs.
    + intros k c' Hk. destruct k as [|k]; simpl in Hk.
      * injection Hk as <-. rewrite Nat.add_0_r. split.
        -- rewrite Hdicts' by (by rewrite Hmap). done.
        -- rewrite Hdocs' by done. done.
      * assert (Hin : c' ∈ rest) by (by eapply list_elem_of_lookup_2).
        destruct (Hstable c' Hin) as [Hne1 Hne2].
        destruct (Hper k c' Hk) as [Hd Hp].
        destruct (entries_in_stable st st1 (randoms (S i0 + k)) c')
          as (_ & _ & Htext & Hentries); auto.
        rewrite Href, Hentries, Htext in *.
        replace (i0 + S k) with (S i0 + k) by lia. done.
Qed.

End AnnotateProperties.

(** ** From the annotated chunks to the records *)

Lemma for_fold_keeps_state {St A S} (body : S → A → stateful St S) l :
  (∀ acc x st, (body acc x st).1 = st) →
  ∀ acc st, (for_fold body acc l st).1 = st.
Proof.
  intros Hbody. induction l as [|x l IH]; intros acc st; simpl; [done|].
  rewrite run_bind. specialize (Hbody acc x st).
  destruct (body acc x st) as [st1 [acc1|e]]; simpl in Hbody; subst st1; [apply IH|done].
Qed.

Section RecordProperties.

Variable vector : Type.

Lemma chunk_texts_loop st (text : nat → pyval) chunks : ∀ texts,
  (∀ c, c ∈ chunks → metadata_of st c !! "text"%string = Some (text c)) →
  for_fold (λ texts chunk,
              md ← get_metadata chunk;
              text ← dict_getitem md "text";
              mret (texts ++ [text])) texts chunks st
  = (st, Ok (texts ++ (text <$> chunks))).
Proof.
  induction chunks as [|c rest IH]; intros texts Htext; simpl.
  - by rewrite app_nil_r.
  - rewrite !run_bind, run_get_metadata. cbv beta iota.
    rewrite run_bind, (run_dict_getitem c "text" (text c)) by (apply Htext; left).
    cbv beta iota. rewrite run_ret.
    rewrite IH by (intros c' Hc'; apply Htext; by right).
    by rewrite <- app_assoc.
Qed.

Lemma build_vectors_keeps_store (embeddings : list vector) chunks st :
  (build_vectors vector embeddings chunks st).1 = st.
Proof.
  unfold build_vectors. rewrite run_bind.
  match goal with
  | |- context [for_fold ?body ?acc chunks st] =>
      assert (Hkeep : (for_fold body acc chunks st).1 = st);
      [|destruct (for_fold body acc chunks st) as [st1 [r|e]]; simpl in *; done]
  end.
  apply for_fold_keeps_state.
  intros [i acc] c st0. rewrite run_bind, run_get_metadata. cbv beta iota.
  rewrite run_bind. unfold dict_getitem.
  destruct (dict_at st0 _ !! "id"%string); [|done].
  rewrite run_bind. unfold lift, list_getitem.
  by destruct (embeddings !! i).
Qed.

Lemma build_vectors_loop st (id : nat → pyval) (embeddings : list vector)
    chunks : ∀ i0 vectors,
  (∀ c, c ∈ chunks → metadata_of st c !! "id"%string = Some (id c)) →
  i0 + length chunks ≤ length embeddings →
  ∃ new,
    for_fold (λ '(i, vectors_with_ids) chunk,
                md ← get_metadata chunk;
                id ← dict_getitem md "id";
                values ← lift (list_getitem embeddings i);
                m ← dict_entries md;
                mret (S i, vectors_with_ids ++ [mkRecord id values m]))
             (i0, vectors) chunks st
    = (st, Ok (i0 + length chunks, vectors ++ new))
    ∧ length new = length chunks
    ∧ ∀ k c, chunks !! k = Some c →
        ∃ e, embeddings !! (i0 + k) = Some e
             ∧ new !! k = Some (mkRecord (id c) e (metadata_of st c)).
Proof.
  induction chunks as [|c rest IH]; intros i0 vectors Hid Hlen; simpl in *.
  - exists []. rewrite app_nil_r, Nat.add_0_r. by repeat split.
  - destruct (lookup_lt_is_Some_2 embeddings i0 ltac:(lia)) as [e He].
    rewrite !run_bind, run_get_metadata. cbv beta iota.
    rewrite run_bind, (run_dict_getitem c "id" (id c)) by (apply Hid; left).
    cbv beta iota. rewrite run_bind. unfold lift at 1, list_getitem at 1.
    rewrite He. rewrite run_bind, run_dict_entries. cbv beta iota.
    rewrite run_ret.
    destruct (IH (S i0) (vectors ++ [mkRecord (id c) e (metadata_of st c)]))
      as (new & Hrun & Hnew & Hper).
    { intros c' Hc'. apply Hid. by right. }
    { lia. }
    exists (mkRecord (id c) e (metadata_of st c) :: new).
    split; [|split].
    + rewrite Hrun. rewrite <- app_assoc. do 3 f_equal. lia.
    + simpl. by rewrite Hnew.
    + intros [|k] c' Hk; simpl in Hk.
      * injection Hk as <-. exists e. by rewrite Nat.add_0_r.
      * destruct (Hper k c' Hk) as (e' & He' & Hr). exists e'.
        split; [|done]. by replace (i0 + S k) with (S i0 + k) by lia.
Qed.

End RecordProperties.

(** ** The random token *)

Lemma length_hex_fixed w : ∀ n, length (hex_fixed w n) = w.
Proof.
  induction w as [|w IH]; intros n; simpl; [done|].
  rewrite length_app, IH. simpl. lia.
Qed.

Lemma length_short_uuid random : length (short_uuid random) = 8.
Proof.
  unfold short_uuid, uuid_str.
  rewrite length_take, length_app, length_take, length_hex_fixed. lia.
Qed.

(** Two ids that end in different tokens are different. *)
Lemma chunk_id_of_token_inj a1 b1 p1 r1 a2 b2 p2 r2 :
  chunk_id_of a1 b1 p1 (short_uuid r1) = chunk_id_of a2 b2 p2 (short_uuid r2) →
  short_uuid r1 = short_uuid r2.
Proof.
  unfold chunk_id_of. rewrite !app_assoc. intros Heq.
  apply app_inj_2 in Heq as [_ Heq]; [done|].
  by rewrite !length_short_uuid.
Qed.

(** ** [add_to_pinecone] as a whole *)

Lemma same_objects st st' :
  st_docs st' = st_docs st → st_dicts st' = st_dicts st →
  (∀ l, doc_at st' l = doc_at st l) ∧ (∀ l, metadata_of st' l = metadata_of st l).
Proof.
  intros Hdocs Hdicts. unfold metadata_of, doc_at, dict_at.
  rewrite Hdocs, Hdicts. done.
Qed.

Section AddToPineconeProperties.

Variable nfkd : pystr → pystr.
Variable uni_word uni_space : N → bool.
Variable vector : Type.
Variable embed_documents : list pyval → result (list vector).
Variable Index : Type.
Variable upsert : Index → list (vector_record vector) → result Index.
Variable timestamp : pystr.
Variable randoms : nat → N.

Abbreviation sanitize := (to_ascii_id nfkd uni_word uni_space).
Abbreviation id_of := (id_in nfkd uni_word uni_space).
Abbreviation entries_of := (entries_in nfkd uni_word uni_space timestamp).
Abbreviation prepare :=
  (prepare_vectors nfkd uni_word uni_space vector embed_documents timestamp randoms).
Abbreviation run_add_to_pinecone :=
  (add_to_pinecone nfkd uni_word uni_space vector embed_documents Index upsert
                   timestamp randoms).

(** The store the first loop leaves, the call to the embedding model,
    and the records built from what it returns. *)
Lemma prepare_vectors_spec chunks st :
  NoDup (metadata_ref st <$> chunks) →
  forallb (well_typed_chunk st) chunks = true →
  ∃ st1,
    (∀ i c, chunks !! i = Some c →
       metadata_of st1 c = entries_of st (randoms i) c
       ∧ page_content (doc_at st1 c) = text_in st c)
    ∧ prepare chunks st
      = match embed_documents ((λ c, VStr (text_in st c)) <$> chunks) with
        | Ok embeddings => build_vectors vector embeddings chunks st1
        | Raise e => (st1, Raise e)
        end
    ∧ ∀ embeddings, length chunks ≤ length embeddings →
        ∃ vectors,
          build_vectors vector embeddings chunks st1 = (st1, Ok vectors)
          ∧ length vectors = length chunks
          ∧ ∀ i c, chunks !! i = Some c →
              ∃ e, embeddings !! i = Some e
                   ∧ vectors !! i
                     = Some (mkRecord (VStr (id_of st (randoms i) c)) e
                                      (entries_of st (randoms i) c)).
Proof.
  intros Hnd Hty.
  destruct (annotate_loop_spec nfkd uni_word uni_space timestamp randoms
              chunks 0 st Hnd Hty) as (st1 & Hrun & Href & _ & _ & Hper).
  assert (Hentries : ∀ i c, chunks !! i = Some c →
            metadata_of st1 c = entries_of st (randoms i) c
            ∧ page_content (doc_at st1 c) = text_in st c).
  { intros i c Hc. destruct (Hper i c Hc) as [Hd Hp]. split; [|done].
    unfold metadata_of. fold (metadata_ref st1 c). by rewrite Href. }
  exists st1. split; [exact Hentries|]. split.
  - unfold prepare_vectors, annotate_chunks.
    rewrite !run_bind, Hrun. cbv beta iota. rewrite run_ret. cbv beta iota.
    rewrite run_bind. unfold chunk_texts.
    rewrite (chunk_texts_loop st1 (λ c, VStr (text_in st c))).
    + cbv beta iota. rewrite run_bind. unfold lift. simpl.
      by destruct (embed_documents _).
    + intros c [i Hc]%list_elem_of_lookup_1.
      destruct (Hentries i c Hc) as [-> _]. unfold entries_in.
      by rewrite lookup_insert_eq.
  - intros embeddings Hlen.
    destruct (build_vectors_loop vector st1
                (λ c, default (VInt 0) (metadata_of st1 c !! "id"%string))
                embeddings chunks 0 []) as (vectors & Hbuild & Hlength & Hvec).
    { intros c [i Hc]%list_elem_of_lookup_1.
      destruct (Hentries i c Hc) as [-> _]. unfold entries_in.
      rewrite !lookup_insert_ne by done. by rewrite lookup_insert_eq. }
    { simpl. lia. }
    exists vectors. split; [|split; [done|]].
    + unfold build_vectors. rewrite run_bind, Hbuild. done.
    + intros i c Hc. destruct (Hvec i c Hc) as (e & He & Hr).
      exists e. split; [done|]. rewrite Hr.
      destruct (Hentries i c Hc) as [-> _]. unfold entries_in at 1.
      rewrite !lookup_insert_ne by done. by rewrite lookup_insert_eq.
Qed.

(** Whatever happens after the first loop, the documents and the
    dictionaries stay as that loop left them. *)
Lemma add_to_pinecone_store chunks index st :
  NoDup (metadata_ref st <$> chunks) →
  forallb (well_typed_chunk st) chunks = true →
  let st' := (run_add_to_pinecone chunks index st).1 in
  ∀ i c, chunks !! i = Some c →
    metadata_of st' c = entries_of st (randoms i) c
    ∧ page_content (doc_at st' c) = text_in st c.
Proof.
  intros Hnd Hty.
  destruct (prepare_vectors_spec chunks st Hnd Hty) as (st1 & Hentries & Hrun & _).
  assert (Hsame : st_docs (run_add_to_pinecone chunks index st).1 = st_docs st1
                  ∧ st_dicts (run_add_to_pinecone chunks index st).1 = st_dicts st1).
  { unfold add_to_pinecone. rewrite Hrun.
    destruct (embed_documents _) as [embeddings|e]; [|done].
    pose proof (build_vectors_keeps_store vector embeddings chunks st1) as Hkeep.
    destruct (build_vectors vector embeddings chunks st1) as [st2 [vectors|e]];
      simpl in Hkeep; subst st2; [|done].
    by destruct (upsert_raised _). }
  destruct Hsame as [Hdocs Hdicts].
  destruct (same_objects _ _ Hdocs Hdicts) as [Hdoc Hmd].
  simpl. intros i c Hc. rewrite Hmd, Hdoc. by apply Hentries.
Qed.

(** C3. In one run of [add_to_pinecone] over chunks that each have
    their own metadata dictionary, with text for file name and
    category, every chunk gets the id
    [sanitize(category):sanitize(filename):page_label:token], where the
    token is the first eight characters of that iteration's [uuid4];
    two chunks whose tokens differ get different ids. *)
Theorem add_to_pinecone_ids_differ_with_tokens chunks index st :
  NoDup (metadata_ref st <$> chunks) →
  forallb (well_typed_chunk st) chunks = true →
  let st' := (run_add_to_pinecone chunks index st).1 in
  (∀ i c, chunks !! i = Some c →
     metadata_of st' c !! "id"%string
     = Some (VStr (sanitize (py_str (doc_type_of st c)) ++ lit ":"
                   ++ sanitize (py_str (filename_of st c)) ++ lit ":"
                   ++ py_str (page_label_of st c) ++ lit ":"
                   ++ short_uuid (randoms i))))
  ∧ (∀ i j c1 c2, chunks !! i = Some c1 → chunks !! j = Some c2 →
       short_uuid (randoms i) ≠ short_uuid (randoms j) →
       metadata_of st' c1 !! "id"%string ≠ metadata_of st' c2 !! "id"%string).
Proof.
  intros Hnd Hty st'.
  pose proof (add_to_pinecone_store chunks index st Hnd Hty) as Hstore.
  simpl in Hstore. fold st' in Hstore.
  assert (Hid : ∀ i c, chunks !! i = Some c →
            metadata_of st' c !! "id"%string = Some (VStr (id_of st (randoms i) c))).
  { intros i c Hc. destruct (Hstore i c Hc) as [-> _]. unfold entries_in.
    rewrite !lookup_insert_ne by done. by rewrite lookup_insert_eq. }
  split; [exact Hid|].
  intros i j c1 c2 Hc1 Hc2 Htok. rewrite (Hid i c1 Hc1), (Hid j c2 Hc2).
  intros [= Heq]. by apply chunk_id_of_token_inj in Heq.
Qed.

(** C4. Under the same conditions, the composite text of a chunk is
    ["Tipo: {category}. Archivo: {filename}. Página: {page}. {content}"]
    with the content the chunk had when the run started; it is what the
    chunk's ["text"] entry and its [page_content] hold afterwards, the
    composites of all chunks, in order, are what the embedding model is
    called on, and when it returns a vector for each, the record built
    for a chunk holds that chunk's vector and its composite as
    ["text"]. *)
Theorem add_to_pinecone_composite_text chunks index st :
  NoDup (metadata_ref st <$> chunks) →
  forallb (well_typed_chunk st) chunks = true →
  let st' := (run_add_to_pinecone chunks index st).1 in
  let composite c :=
    lit "Tipo: " ++ py_str (doc_type_of st c)
    ++ lit ". Archivo: " ++ py_str (filename_of st c)
    ++ lit ". P" ++ [a_acute] ++ lit "gina: " ++ py_str (page_label_of st c)
    ++ lit ". " ++ page_content (doc_at st c) in
  (∀ c, c ∈ chunks →
     metadata_of st' c !! "text"%string = Some (VStr (composite c))
     ∧ page_content (doc_at st' c) = composite c)
  ∧ (∃ st1,
       prepare chunks st
       = match embed_documents ((λ c, VStr (composite c)) <$> chunks) with
         | Ok embeddings => build_vectors vector embeddings chunks st1
         | Raise e => (st1, Raise e)
         end)
  ∧ (∀ embeddings,
       embed_documents ((λ c, VStr (composite c)) <$> chunks) = Ok embeddings →
       length chunks ≤ length embeddings →
       ∃ st1 vectors,
         prepare chunks st = (st1, Ok vectors)
         ∧ length vectors = length chunks
         ∧ ∀ i c, chunks !! i = Some c →
             ∃ r, vectors !! i = Some r
                  ∧ Some (rec_values r) = embeddings !! i
                  ∧ rec_metadata r !! "text"%string = Some (VStr (composite c))).
Proof.
  intros Hnd Hty st' composite.
  pose proof (add_to_pinecone_store chunks index st Hnd Hty) as Hstore.
  simpl in Hstore. fold st' in Hstore.
  destruct (prepare_vectors_spec chunks st Hnd Hty) as (st1 & Hentries & Hrun & Hbuild).
  change (λ c, VStr (text_in st c)) with (λ c, VStr (composite c)) in Hrun.
  split; [|split].
  - intros c [i Hc]%list_elem_of_lookup_1.
    destruct (Hstore i c Hc) as [-> ->]. unfold entries_in.
    by rewrite lookup_insert_eq.
  - by exists st1.
  - intros embeddings Hembed Hlen. rewrite Hembed in Hrun.
    destruct (Hbuild embeddings Hlen) as (vectors & Hb & Hlength & Hvec).
    exists st1, vectors. split; [by rewrite Hrun|]. split; [done|].
    intros i c Hc. destruct (Hvec i c Hc) as (e & He & Hr).
    eexists. split; [exact Hr|]. simpl. split; [done|].
    unfold entries_in. by rewrite lookup_insert_eq.
Qed.

(** C5. Once the [N] records are prepared, [add_to_pinecone] cuts them
    into [ceil(N/100)] batches, batch [i] being the records [100*i] to
    [min(100*(i+1), N) - 1], none empty and none longer than 100, which
    together are the [N] records in order. It sends them one by one:
    when no call fails, the calls are exactly these batches; when one
    fails, the calls are the batches up to and including that one, each
    sent once, and the index is left as the batches before it made it. *)
Theorem add_to_pinecone_batches chunks index st st1 vectors :
  prepare chunks st = (st1, Ok vectors) →
  let run := (run_add_to_pinecone chunks index st).2 in
  let bs := batches vectors in
  length bs = ceil_div (length vectors) 100
  ∧ (∀ i b, bs !! i = Some b →
       b = slice vectors (100 * i) (min (100 * (i + 1)) (length vectors))
       ∧ 0 < length b ≤ 100)
  ∧ concat bs = vectors
  ∧ match upsert_raised run with
    | None =>
        upsert_calls run = bs
        ∧ upserted vector Index upsert index bs (upsert_index run)
    | Some e =>
        ∃ k b, bs !! k = Some b
               ∧ upsert_calls run = take (S k) bs
               ∧ upserted vector Index upsert index (take k bs) (upsert_index run)
               ∧ upsert (upsert_index run) b = Raise e
    end.
Proof.
  intros Hprep run bs.
  destruct (batches_spec vector vectors) as (Hlen & Hconcat & Hper).
  split; [exact Hlen|]. split; [exact Hper|]. split; [exact Hconcat|].
  assert (Hrun : run = upsert_batches vector Index upsert vectors index).
  { unfold run, add_to_pinecone. rewrite Hprep.
    by destruct (upsert_raised _). }
  rewrite Hrun. unfold upsert_batches.
  pose proof (upsert_from_spec vector Index upsert vectors
                (py_range 0 (length vectors) batch_size) [] index) as Hspec.
  simpl in Hspec. exact Hspec.
Qed.

End AddToPineconeProperties.

(** ** Chunking *)

Lemma doc_at_with_new_dict st m l : doc_at (with_new_dict st m) l = doc_at st l.
Proof. reflexivity. Qed.

Lemma dict_at_with_new_dict st m d :
  dict_at (with_new_dict st m) d
  = if decide (next_loc st = d) then m else dict_at st d.
Proof.
  unfold dict_at, with_new_dict. simpl. destruct (decide _) as [->|Hne].
  - apply lookup_total_insert_eq.
  - by apply lookup_total_insert_ne.
Qed.

Lemma doc_at_with_new_document st s d l :
  doc_at (with_new_document st s d) l
  = if decide (next_loc st = l) then mkDocument s d else doc_at st l.
Proof.
  unfold doc_at, with_new_document. simpl. destruct (decide _) as [->|Hne].
  - apply lookup_total_insert_eq.
  - by apply lookup_total_insert_ne.
Qed.

Lemma dict_at_with_new_document st s d l :
  dict_at (with_new_document st s d) l = dict_at st l.
Proof. reflexivity. Qed.

Lemma doc_at_with_metadata st l d l' :
  doc_at (with_metadata st l d) l'
  = if decide (l = l') then mkDocument (page_content (doc_at st l)) d
    else doc_at st l'.
Proof.
  unfold doc_at, with_metadata. simpl. destruct (decide _) as [->|Hne].
  - apply lookup_total_insert_eq.
  - by apply lookup_total_insert_ne.
Qed.

Lemma dict_at_with_metadata st l d l' :
  dict_at (with_metadata st l d) l' = dict_at st l'.
Proof. reflexivity. Qed.

(** The loop of [create_documents]: the new documents sit at new
    addresses and nothing older is touched. *)
Lemma create_loop_spec pieces : ∀ (documents : list nat) st,
  ∃ st' new,
    for_fold (λ documents piece,
                md ← new_dict ∅;
                d ← new_document piece md;
                mret (documents ++ [d])) documents pieces st
    = (st', Ok (documents ++ new))
    ∧ next_loc st ≤ next_loc st'
    ∧ (∀ l, l < next_loc st → doc_at st' l = doc_at st l)
    ∧ (∀ l, l < next_loc st → dict_at st' l = dict_at st l)
    ∧ (∀ c, c ∈ new → next_loc st ≤ c < next_loc st')
    ∧ NoDup new.
Proof.
  induction pieces as [|piece pieces IH]; intros acc st.
  - exists st, []. simpl. rewrite app_nil_r.
    split; [done|]. split; [done|]. split; [done|]. split; [done|].
    split; [|constructor]. intros c Hc. by apply not_elem_of_nil in Hc.
  - simpl. rewrite !run_bind. unfold new_dict at 1. cbv beta iota.
    rewrite run_bind. unfold new_document at 1. cbv beta iota. rewrite run_ret.
    set (st1 := with_new_document (with_new_dict st ∅) piece (next_loc st)).
    change (next_loc (with_new_dict st ∅)) with (S (next_loc st)).
    destruct (IH (acc ++ [S (next_loc st)]) st1)
      as (st' & new & Hrun & Hnext & Hdocs & Hdicts & Hnew & Hnd).
    change (next_loc st1) with (S (S (next_loc st))) in *.
    exists st', (S (next_loc st) :: new).
    split; [by rewrite Hrun, <- app_assoc|].
    split; [lia|]. split; [|split; [|split]].
    + intros l Hl. rewrite Hdocs by lia. unfold st1.
      rewrite doc_at_with_new_document. simpl.
      rewrite decide_False by lia. done.
    + intros l Hl. rewrite Hdicts by lia. unfold st1.
      rewrite dict_at_with_new_document, dict_at_with_new_dict.
      rewrite decide_False by lia. done.
    + intros c [->|Hc]%elem_of_cons; [lia|]. specialize (Hnew c Hc). lia.
    + apply NoDup_cons. split; [|done].
      intros Hc. specialize (Hnew _ Hc). lia.
Qed.

(** The loop that gives each chunk its copy of [doc]'s metadata. *)
Lemma copy_loop_spec doc chunks : ∀ st,
  NoDup chunks →
  ∃ st',
    for_each (λ chunk,
                md ← get_metadata doc;
                md' ← dict_copy md;
                set_metadata chunk md') chunks st
    = (st', Ok ())
    ∧ next_loc st ≤ next_loc st'
    ∧ (∀ l, l ∉ chunks → doc_at st' l = doc_at st l)
    ∧ (∀ l, l < next_loc st → dict_at st' l = dict_at st l)
    ∧ (∀ c, c ∈ chunks → next_loc st ≤ metadata_ref st' c < next_loc st')
    ∧ NoDup (metadata_ref st' <$> chunks)
    ∧ (doc ∉ chunks → metadata_ref st doc < next_loc st →
       ∀ c, c ∈ chunks → metadata_of st' c = metadata_of st doc).
Proof.
  induction chunks as [|c rest IH]; intros st Hnd.
  - exists st. simpl.
    split; [done|]. split; [done|]. split; [done|]. split; [done|].
    split; [|split; [constructor|]].
    + intros c Hc. by apply not_elem_of_nil in Hc.
    + intros _ _ c Hc. by apply not_elem_of_nil in Hc.
  - apply NoDup_cons in Hnd as [Hc Hnd].
    unfold for_each. simpl. rewrite !run_bind, run_get_metadata. cbv beta iota.
    rewrite run_bind. unfold dict_copy at 1. rewrite run_bind.
    unfold dict_entries at 1, new_dict at 1. cbv beta iota.
    unfold set_metadata at 1. cbv beta iota.
    fold (metadata_of st doc).
    set (st1 := with_metadata (with_new_dict st (metadata_of st doc)) c (next_loc st)).
    destruct (IH st1 Hnd)
      as (st' & Hrun & Hnext & Hdocs & Hdicts & Hrefs & Hndrefs & Hcopy).
    unfold for_each in Hrun.
    change (next_loc st1) with (S (next_loc st)) in *.
    assert (Hc1 : metadata_ref st1 c = next_loc st).
    { unfold metadata_ref, st1. rewrite doc_at_with_metadata.
      by rewrite decide_True. }
    assert (Hc' : metadata_ref st' c = next_loc st).
    { unfold metadata_ref. rewrite Hdocs by done. exact Hc1. }
    exists st'. split; [exact Hrun|]. split; [lia|].
    split; [|split; [|split; [|split]]].
    + intros l [Hl1 Hl2]%not_elem_of_cons. rewrite Hdocs by done.
      unfold st1. rewrite doc_at_with_metadata, decide_False by done. done.
    + intros l Hl. rewrite Hdicts by lia. unfold st1.
      rewrite dict_at_with_metadata, dict_at_with_new_dict.
      by rewrite decide_False by lia.
    + intros c' [->|Hin]%elem_of_cons; [lia|].
      specialize (Hrefs c' Hin). lia.
    + simpl. apply NoDup_cons. split; [|done].
      rewrite Hc'. intros (c' & Heq & Hin)%list_elem_of_fmap.
      specialize (Hrefs c' Hin). lia.
    + intros [Hd1 Hd2]%not_elem_of_cons Href.
      assert (Hdoc1 : metadata_of st1 doc = metadata_of st doc
                      ∧ metadata_ref st1 doc = metadata_ref st doc).
      { unfold metadata_of, metadata_ref, st1.
        rewrite doc_at_with_metadata, decide_False by done.
        rewrite doc_at_with_new_dict, dict_at_with_metadata, dict_at_with_new_dict.
        unfold metadata_ref in Href. by rewrite decide_False by lia. }
      destruct Hdoc1 as [Hmd1 Href1].
      intros c' [->|Hin]%elem_of_cons.
      * unfold metadata_of. fold (metadata_ref st' c). rewrite Hc'.
        rewrite Hdicts by lia. unfold st1.
        rewrite dict_at_with_metadata, dict_at_with_new_dict.
        by rewrite decide_True.
      * rewrite (Hcopy Hd2) by (rewrite ?Href1; (lia || done)). done.
Qed.

Lemma below_stable st st1 n :
  (∀ l, l < n → doc_at st1 l = doc_at st l ∧ dict_at st1 l = dict_at st l) →
  ∀ c, c < n → metadata_ref st c < n →
    metadata_ref st1 c = metadata_ref st c ∧ metadata_of st1 c = metadata_of st c.
Proof.
  intros Hsame c Hc Href. unfold metadata_of, metadata_ref in *.
  destruct (Hsame c Hc) as [-> _]. split; [done|].
  by destruct (Hsame _ Href) as [_ ->].
Qed.

Section ChunkerProperties.

Variable split_text : pystr → result (list pystr).

Lemma split_document_spec chunks doc st st' out :
  split_document split_text chunks doc st = (st', Ok out) →
  ∃ new,
    out = chunks ++ new
    ∧ next_loc st ≤ next_loc st'
    ∧ (∀ l, l < next_loc st →
         doc_at st' l = doc_at st l ∧ dict_at st' l = dict_at st l)
    ∧ (∀ c, c ∈ new →
         next_loc st ≤ c < next_loc st'
         ∧ next_loc st ≤ metadata_ref st' c < next_loc st')
    ∧ NoDup new
    ∧ NoDup (metadata_ref st' <$> new)
    ∧ (doc < next_loc st → metadata_ref st doc < next_loc st →
       ∀ c, c ∈ new → metadata_of st' c = metadata_of st doc).
Proof.
  unfold split_document. rewrite run_bind. unfold get_page_content at 1.
  cbv beta iota. rewrite run_bind. unfold create_documents at 1.
  rewrite run_bind. unfold lift at 1.
  destruct (split_text _) as [pieces|e]; [|done].
  destruct (create_loop_spec pieces [] st)
    as (st1 & new & Hrun1 & Hnext1 & Hdocs1 & Hdicts1 & Hnew1 & Hnd1).
  change ([] ++ new) with new in Hrun1. rewrite Hrun1. cbv beta iota.
  destruct (copy_loop_spec doc new st1 Hnd1)
    as (st2 & Hrun2 & Hnext2 & Hdocs2 & Hdicts2 & Hrefs2 & Hndrefs2 & Hcopy2).
  rewrite run_bind, Hrun2, run_ret. intros [= <- <-].
  exists new. split; [done|]. split; [lia|].
  assert (Hbelow : ∀ l, l < next_loc st →
            doc_at st2 l = doc_at st l ∧ dict_at st2 l = dict_at st l).
  { intros l Hl. split.
    - rewrite Hdocs2; [by apply Hdocs1|].
      intros Hin. specialize (Hnew1 l Hin). lia.
    - rewrite Hdicts2 by lia. by apply Hdicts1. }
  split; [exact Hbelow|]. split; [|split; [done|split; [done|]]].
  - intros c Hc. specialize (Hnew1 c Hc). specialize (Hrefs2 c Hc). lia.
  - intros Hdoc Href c Hc.
    assert (Hdoc1 : doc_at st1 doc = doc_at st doc) by (by apply Hdocs1).
    rewrite Hcopy2; [| |by unfold metadata_ref; rewrite Hdoc1; unfold metadata_ref in Href; lia|done].
    + unfold metadata_of. rewrite Hdoc1. by apply Hdicts1.
    + intros Hin. specialize (Hnew1 doc Hin). lia.
Qed.

Lemma split_loop_spec documents : ∀ chunks st st' out,
  for_fold (split_document split_text) chunks documents st = (st', Ok out) →
  (∀ c, c ∈ chunks → c < next_loc st ∧ metadata_ref st c < next_loc st) →
  NoDup chunks →
  NoDup (metadata_ref st <$> chunks) →
  ∃ groups,
    out = chunks ++ concat groups
    ∧ next_loc st ≤ next_loc st'
    ∧ (∀ l, l < next_loc st →
         doc_at st' l = doc_at st l ∧ dict_at st' l = dict_at st l)
    ∧ (∀ c, c ∈ out → c < next_loc st' ∧ metadata_ref st' c < next_loc st')
    ∧ NoDup out
    ∧ NoDup (metadata_ref st' <$> out)
    ∧ Forall2 (λ d g, d < next_loc st → metadata_ref st d < next_loc st →
                      ∀ c, c ∈ g → metadata_of st' c = metadata_of st d)
              documents groups.
Proof.
  induction documents as [|doc rest IH]; intros chunks st st' out Hrun Hin Hnd Hndr.
  - simpl in Hrun. injection Hrun as <- <-. exists [].
    simpl. rewrite app_nil_r.
    split; [done|]. split; [done|]. split; [done|]. split; [exact Hin|].
    split; [done|]. split; [done|]. constructor.
  - simpl in Hrun. rewrite run_bind in Hrun.
    destruct (split_document split_text chunks doc st) as [st1 [out1|e]] eqn:Hstep;
      [|done].
    destruct (split_document_spec _ _ _ _ _ Hstep)
      as (new & -> & Hnext1 & Hbelow1 & Hnew1 & Hndnew & Hndrnew & Hcopy1).
    assert (Hold : ∀ c, c ∈ chunks →
              metadata_ref st1 c = metadata_ref st c
              ∧ metadata_of st1 c = metadata_of st c).
    { intros c Hc. destruct (Hin c Hc). by apply (below_stable st st1 (next_loc st)). }
    destruct (IH (chunks ++ new) st1 st' out Hrun)
      as (groups & -> & Hnext & Hbelow & Hout & Hndout & Hndrout & Hgroups).
    { intros c [Hc|Hc]%elem_of_app.
      - destruct (Hin c Hc), (Hold c Hc) as [-> _]. lia.
      - specialize (Hnew1 c Hc). lia. }
    { apply NoDup_app. split; [done|]. split; [|done].
      intros c Hc Hc'. destruct (Hin c Hc). specialize (Hnew1 c Hc'). lia. }
    { rewrite fmap_app. apply NoDup_app. split; [|split; [|done]].
      - erewrite list_fmap_ext; [exact Hndr|]. intros i c Hc.
        apply Hold. by eapply list_elem_of_lookup_2.
      - intros r (c & Hr1 & Hc)%list_elem_of_fmap (c' & Hr2 & Hc')%list_elem_of_fmap.
        destruct (Hin c Hc), (Hold c Hc) as [Hr _]. specialize (Hnew1 c' Hc'). lia. }
    exists (new :: groups). simpl. split; [by rewrite app_assoc|].
    split; [lia|]. split; [|split; [done|split; [done|split; [done|]]]].
    + intros l Hl. destruct (Hbelow l ltac:(lia)) as [-> ->]. by apply Hbelow1.
    + assert (Hstable : ∀ d, d < next_loc st → metadata_ref st d < next_loc st →
                metadata_ref st1 d = metadata_ref st d
                ∧ metadata_of st1 d = metadata_of st d).
      { intros d. by apply (below_stable st st1 (next_loc st)). }
      constructor.
      * intros Hd Hr c Hc. rewrite <- (Hcopy1 Hd Hr c Hc). specialize (Hnew1 c Hc).
        apply (below_stable st1 st' (next_loc st1) Hbelow); lia.
      * eapply Forall2_impl; [exact Hgroups|]. simpl.
        intros d g Hg Hd Hr c Hc.
        destruct (Hstable d Hd Hr) as [Hr1 Hm1].
        rewrite <- Hm1. apply Hg; [lia|rewrite Hr1; lia|done].
Qed.


(** C6. Any two different chunks [split_documents] returns are
    different objects with different metadata dictionaries, so setting
    an entry of one chunk's metadata changes that chunk's dictionary
    and leaves the other's as it was. The chunks come in one group per
    document, and the dictionary of each chunk of a group holds the
    entries of that document's metadata (for a document that was in
    the store when the call started). *)
Theorem split_documents_metadata_isolated documents st st' chunks :
  split_documents split_text documents st = (st', Ok chunks) →
  (∀ i j c1 c2, i ≠ j → chunks !! i = Some c1 → chunks !! j = Some c2 →
     c1 ≠ c2
     ∧ metadata_ref st' c1 ≠ metadata_ref st' c2
     ∧ ∀ k v,
         let st'' := (dict_setitem (metadata_ref st' c1) k v st').1 in
         metadata_of st'' c1 = <[k := v]> (metadata_of st' c1)
         ∧ metadata_of st'' c2 = metadata_of st' c2)
  ∧ ∃ groups,
      chunks = concat groups
      ∧ Forall2 (λ d g, d < next_loc st → metadata_ref st d < next_loc st →
                        ∀ c, c ∈ g → metadata_of st' c = metadata_of st d)
                documents groups.
Proof.
  unfold split_documents. rewrite run_bind.
  destruct (for_fold _ _ _ _) as [st1 [out|e]] eqn:Hloop; [|done].
  rewrite run_bind. unfold print at 1. cbv beta iota. rewrite run_ret.
  intros [= <- <-].
  destruct (split_loop_spec documents [] st st1 out Hloop)
    as (groups & Hout & _ & _ & _ & Hnd & Hndr & Hgroups).
  { intros c Hc. by apply not_elem_of_nil in Hc. }
  { constructor. }
  { constructor. }
  simpl in Hout. split.
  - intros i j c1 c2 Hij Hc1 Hc2.
    assert (Hrefs : metadata_ref st1 c1 ≠ metadata_ref st1 c2).
    { intros Heq. apply Hij.
      eapply (NoDup_lookup _ i j); [exact Hndr| |].
      - by rewrite list_lookup_fmap, Hc1.
      - by rewrite list_lookup_fmap, Hc2, Heq. }
    split; [by intros ->|]. split; [exact Hrefs|].
    intros k v. simpl. unfold metadata_of.
    rewrite !doc_at_with_item, !dict_at_with_item.
    change (doc_at (with_line st1 _) ?l) with (doc_at st1 l).
    change (dict_at (with_line st1 _) ?l) with (dict_at st1 l).
    fold (metadata_ref st1 c1) (metadata_ref st1 c2).
    unfold metadata_ref at 1 3.
    change (doc_at (with_line st1 _) ?l) with (doc_at st1 l).
    fold (metadata_ref st1 c1).
    by rewrite decide_True, decide_False.
  - exists groups. split; [done|]. exact Hgroups.
Qed.

End ChunkerProperties.

(** ** The chat page *)

Lemma lstrip_blank uni_space s :
  forallb (is_space uni_space) s = true → lstrip uni_space s = [].
Proof.
  induction s as [|c s IH]; simpl; [done|].
  intros [Hc Hs]%andb_true_iff. rewrite Hc. by apply IH.
Qed.

Lemma strip_blank uni_space s :
  forallb (is_space uni_space) s = true → strip uni_space s = [].
Proof. intros Hs. unfold strip, rstrip. by rewrite (lstrip_blank _ s Hs). Qed.

Ltac run_app :=
  repeat first
    [ rewrite run_bind
    | rewrite run_ret
    | progress unfold emit, set_selected_sources, get_selected_sources,
        get_chat_history, append_chat_history
    | progress cbv beta iota ].

Section AppProperties.

Variable uni_space : N → bool.
Variable Chain : Type.
Variable create_conversation_chain : list pystr → result Chain.
Variable chain_invoke :
  Chain → pystr → list (pystr * pystr) → list pystr → result response_data.
Variable path_exists : pyval → bool.
Variable read_file : pyval → result pystr.
Variable listdir : pystr → list pystr.
Variable isdir : pystr → bool.
Variable lower : pystr → pystr.

(** C8. A question that is empty or all white space is turned down with
    a warning: [handle_question] returns after that single call, so no
    chain is built or invoked, and the chat history and the source
    filter are what they were. *)
Theorem handle_question_blank question (s : session) :
  forallb (is_space uni_space) question = true →
  let s' := with_event s (Warning (lit "Por favor, ingresa una pregunta v"
                                   ++ [a_acute] ++ lit "lida.")) in
  handle_question uni_space Chain create_conversation_chain chain_invoke
                  path_exists read_file question s = (s', Ok ())
  ∧ chat_history s' = chat_history s
  ∧ selected_sources s' = selected_sources s
  ∧ ui s' = ui s ++ [Warning (lit "Por favor, ingresa una pregunta v"
                              ++ [a_acute] ++ lit "lida.")].
Proof.
  intros Hblank. simpl. unfold handle_question.
  rewrite bool_decide_eq_true_2 by (by apply strip_blank).
  done.
Qed.

Lemma selected_in_folder (folder : pystr) selected : ∀ selected_docs : list pystr,
  foldl (λ selected_docs doc,
           let full_path := path_join (lit "data") [folder; doc] in
           let full_path := replace_char backslash [slash] full_path in
           selected_docs ++ [full_path]) selected_docs selected
  = selected_docs
    ++ ((λ doc, replace_char backslash [slash]
                  (path_join (lit "data") [folder; doc])) <$> selected).
Proof.
  induction selected as [|doc selected IH]; intros acc; simpl.
  - by rewrite app_nil_r.
  - rewrite IH. by rewrite <- app_assoc.
Qed.

Lemma select_loop_spec multiselect docs : ∀ selected_docs (s : session),
  ∃ s',
    for_fold (select_in_folder multiselect) selected_docs docs s
    = (s', Ok (selected_docs ++ selected_paths multiselect docs))
    ∧ chat_history s' = chat_history s
    ∧ selected_sources s' = selected_sources s.
Proof.
  induction docs as [|[folder files] docs IH]; intros acc s.
  - exists s. simpl. by rewrite app_nil_r.
  - rewrite for_fold_cons. unfold select_in_folder at 1.
    unfold selected_paths. cbn [flat_map]. fold (selected_paths multiselect docs).
    rewrite run_bind. unfold emit at 1. cbv beta iota.
    rewrite run_bind. unfold emit at 1. cbv beta iota.
    rewrite run_ret, selected_in_folder.
    match goal with
    | |- context [for_fold _ ?acc' docs ?s1] =>
        destruct (IH acc' s1) as (s' & Hrun & Hhist & Hsrc)
    end.
    exists s'. rewrite Hrun, <- app_assoc. done.
Qed.

End AppProperties.

Lemma selected_paths_none docs : selected_paths (λ _ _, []) docs = [].
Proof. induction docs as [|[folder files] docs IH]; [done|exact IH]. Qed.

(** C9. After [build_sidebar] the source filter is never empty: it is
    [["todos"]] when the checkbox is ticked or when no document is picked,
    and otherwise the non-empty list of the picked documents' paths. In
    particular it is [["todos"]] with the checkbox ticked, and with
    every multiselect emptied. *)
Theorem build_sidebar_sources_never_empty path_exists listdir isdir lower
    select_all multiselect (s : session) :
  let docs := get_documents path_exists listdir isdir lower in
  let after select_all multiselect :=
    selected_sources
      (build_sidebar path_exists listdir isdir lower select_all multiselect s).1 in
  after select_all multiselect ≠ []
  ∧ after select_all multiselect
    = (if select_all || bool_decide (selected_paths multiselect docs = [])
       then [lit "todos"] else selected_paths multiselect docs)
  ∧ after true multiselect = [lit "todos"]
  ∧ after false (λ _ _, []) = [lit "todos"].
Proof.
  intros docs after.
  assert (Hafter : ∀ select_all multiselect,
            after select_all multiselect
            = (if select_all || bool_decide (selected_paths multiselect docs = [])
               then [lit "todos"] else selected_paths multiselect docs)).
  { intros sa ms. unfold after, build_sidebar. destruct sa.
    - run_app. reflexivity.
    - rewrite run_bind. unfold emit at 1. cbv beta iota.
      rewrite run_bind. unfold emit at 1. cbv beta iota.
      rewrite run_bind. unfold emit at 1. cbv beta iota.
      rewrite run_bind. cbn [negb].
      match goal with
      | |- context [for_fold _ [] _ ?s1] =>
          destruct (select_loop_spec ms (get_documents path_exists listdir isdir lower)
                      [] s1) as (s' & Hrun & _ & _)
      end.
      rewrite Hrun. cbv beta iota. rewrite app_nil_l. fold docs.
      cbn [orb]. by destruct (bool_decide (selected_paths ms docs = [])). }
  split; [|split; [apply Hafter|split]].
  - rewrite Hafter. destruct select_all; simpl; [done|].
    case_bool_decide; done.
  - by rewrite Hafter.
  - rewrite Hafter. cbn [orb].
    by rewrite bool_decide_eq_true_2 by apply selected_paths_none.
Qed.

(** * The properties on the small run *)

Lemma nfkd_char_sample_ascii c : is_ascii c = true → nfkd_char_sample c = [c].
Proof.
  unfold nfkd_char_sample, is_ascii. intros Hc%N.ltb_lt.
  repeat match goal with
    | |- context [N.eqb c ?k] => destruct (N.eqb_spec c k); [lia|]
    end.
  reflexivity.
Qed.

Lemma nfkd_sample_ascii s : forallb is_ascii s = true → nfkd_sample s = s.
Proof.
  unfold nfkd_sample. induction s as [|c s IH]; [done|].
  intros [Hc Hs]%andb_true_iff. cbn [flat_map].
  by rewrite (IH Hs), (nfkd_char_sample_ascii c Hc).
Qed.

Lemma to_ascii_id_idempotent_ascii_witness :
  let sanitize := to_ascii_id nfkd_sample uni_word_sample uni_space_sample in
  let s := lit "C" ++ [243%N] ++ lit "digo (Penal)  [v2].pdf" in
  sanitize (sanitize s) = sanitize s
  ∧ Forall (λ c, is_space uni_space_sample c = false
                 ∧ is_bracket c = false
                 ∧ is_ascii c = true
                 ∧ id_char c = true) (sanitize s).
Proof.
  exact (to_ascii_id_idempotent_ascii nfkd_sample uni_word_sample uni_space_sample
           nfkd_sample_ascii (lit "C" ++ [243%N] ++ lit "digo (Penal)  [v2].pdf")).
Defined.

Example to_ascii_id_sample :
  to_ascii_id nfkd_sample uni_word_sample uni_space_sample
    (lit "C" ++ [243%N] ++ lit "digo (Penal)  [v2].pdf")
  = lit "Codigo_Penal_v2pdf".
Proof. vm_compute. reflexivity. Qed.

Lemma load_new_documents_set_difference_witness :
  ∃ st',
    load_new_documents (λ name, name) [1; 2; 3] (lit "data/03_leyes") (lit "ley")
                       sample_existing loaded_store
    = (st', Ok (filter (λ d, source_of loaded_store d ∉ sample_existing) [1; 2; 3]))
    ∧ (∀ d, doc_at st' d = doc_at loaded_store d)
    ∧ (∀ d, source_of st' d = source_of loaded_store d).
Proof.
  apply (load_new_documents_set_difference (λ name, name) (lit "ley")
           sample_existing [1; 2; 3] (lit "data/03_leyes") loaded_store).
  vm_compute. reflexivity.
Defined.

Example load_new_documents_sample : sample_load.2 = Ok [1; 2].
Proof. vm_compute. reflexivity. Qed.

Lemma get_existing_files_failure_is_empty_witness :
  ∃ st2,
    (existing_files ← get_existing_files (Raise (Exn "PineconeException" (lit "timeout")));
     load_new_documents (λ name, name) [1; 2; 3] (lit "data/03_leyes") (lit "ley")
                        existing_files) loaded_store
    = (st2, Ok [1; 2; 3]).
Proof.
  apply (get_existing_files_failure_is_empty
           (Exn "PineconeException" (lit "timeout")) loaded_store).
  vm_compute. reflexivity.
Defined.

Lemma get_existing_files_needs_filename_witness :
  ∃ existing_files : gset pyval,
    get_existing_files (Ok sample_matches) loaded_store
    = (loaded_store, Ok existing_files)
    ∧ VStr (lit "data/03_leyes/Ley 2.pdf") ∈ existing_files
    ∧ (VStr (lit "data/03_leyes/Ley 1.pdf") ∉ existing_files)
    ∧ 1 ∈ filter (λ d, source_of loaded_store d ∉ existing_files) [1].
Proof.
  destruct (get_existing_files_needs_filename sample_matches loaded_store)
    as (existing_files & Hrun & Hiff & Hno).
  exists existing_files. split; [exact Hrun|]. split.
  - apply Hiff. eexists. split; [left|]. split; [|reflexivity]. by eexists.
  - destruct (Hno (VStr (lit "data/03_leyes/Ley 1.pdf"))) as [Hnot Hdoc].
    + intros m Hm Hsrc. apply elem_of_cons in Hm as [->|Hm]; [by vm_compute in Hsrc|].
      apply list_elem_of_singleton in Hm as ->. reflexivity.
    + split; [exact Hnot|]. apply Hdoc. vm_compute. reflexivity.
Defined.

Example split_documents_sample : sample_split.2 = Ok sample_chunks.
Proof. vm_compute. reflexivity. Qed.

Lemma split_documents_metadata_isolated_witness :
  (21 ≠ 23
   ∧ metadata_ref sample_store 21 ≠ metadata_ref sample_store 23
   ∧ ∀ k v,
       let st'' := (dict_setitem (metadata_ref sample_store 21) k v sample_store).1 in
       metadata_of st'' 21 = <[k := v]> (metadata_of sample_store 21)
       ∧ metadata_of st'' 23 = metadata_of sample_store 23)
  ∧ ∃ groups,
      sample_chunks = concat groups
      ∧ Forall2 (λ d g, d < next_loc sample_load.1 →
                        metadata_ref sample_load.1 d < next_loc sample_load.1 →
                        ∀ c, c ∈ g → metadata_of sample_store c
                                     = metadata_of sample_load.1 d)
                [1; 2] groups.
Proof.
  destruct (split_documents_metadata_isolated sample_split_text [1; 2]
              sample_load.1 sample_store sample_chunks) as [Hiso Hcopy].
  - vm_compute. reflexivity.
  - split; [|exact Hcopy].
    apply (Hiso 0 1); [lia|reflexivity|reflexivity].
Defined.

Lemma sample_chunks_own_metadata : NoDup (metadata_ref sample_store <$> sample_chunks).
Proof. compute_done. Qed.

Lemma sample_chunks_well_typed :
  forallb (well_typed_chunk sample_store) sample_chunks = true.
Proof. vm_compute. reflexivity. Qed.

Lemma add_to_pinecone_ids_differ_with_tokens_witness :
  let st' := (sample_add_to_pinecone distinct_randoms).1 in
  metadata_of st' 21 !! "id"%string = Some (VStr (lit "ley:Ley_1pdf:1:00000000"))
  ∧ metadata_of st' 23 !! "id"%string = Some (VStr (lit "ley:Ley_1pdf:1:00000001"))
  ∧ metadata_of st' 21 !! "id"%string ≠ metadata_of st' 23 !! "id"%string.
Proof.
  destruct (add_to_pinecone_ids_differ_with_tokens
              nfkd_sample uni_word_sample uni_space_sample nat sample_embed
              (list (list (vector_record nat))) sample_upsert sample_timestamp
              distinct_randoms sample_chunks [] sample_store
              sample_chunks_own_metadata sample_chunks_well_typed) as [Hform Hdiff].
  unfold sample_add_to_pinecone. cbv zeta. split; [|split].
  - rewrite (Hform 0 21 eq_refl). vm_compute. reflexivity.
  - rewrite (Hform 1 23 eq_refl). vm_compute. reflexivity.
  - apply (Hdiff 0 1 21 23 eq_refl eq_refl). vm_compute. discriminate.
Defined.

(** Two chunks of the same page whose [uuid4] draws agree on their first
    32 bits: different chunks, different dictionaries, different draws,
    one id. *)
Lemma add_to_pinecone_same_id_counterexample :
  let st' := (sample_add_to_pinecone colliding_randoms).1 in
  21 ≠ 23
  ∧ metadata_ref st' 21 ≠ metadata_ref st' 23
  ∧ colliding_randoms 0 ≠ colliding_randoms 1
  ∧ doc_type_of sample_store 21 = doc_type_of sample_store 23
  ∧ filename_of sample_store 21 = filename_of sample_store 23
  ∧ page_label_of sample_store 21 = page_label_of sample_store 23
  ∧ metadata_of st' 21 !! "id"%string = Some (VStr (lit "ley:Ley_1pdf:1:00000000"))
  ∧ metadata_of st' 23 !! "id"%string = Some (VStr (lit "ley:Ley_1pdf:1:00000000")).
Proof. vm_compute. repeat split; (done || discriminate). Qed.

Lemma add_to_pinecone_composite_text_witness :
  let st' := (sample_add_to_pinecone distinct_randoms).1 in
  let composite := lit "Tipo: ley. Archivo: Ley 1.pdf. P" ++ [a_acute]
                   ++ lit "gina: 1. Art" in
  metadata_of st' 21 !! "text"%string = Some (VStr composite)
  ∧ page_content (doc_at st' 21) = composite.
Proof.
  destruct (add_to_pinecone_composite_text
              nfkd_sample uni_word_sample uni_space_sample nat sample_embed
              (list (list (vector_record nat))) sample_upsert sample_timestamp
              distinct_randoms sample_chunks [] sample_store
              sample_chunks_own_metadata sample_chunks_well_typed) as [Htext _].
  destruct (Htext 21 ltac:(left)) as [Hmd Hcontent].
  unfold sample_add_to_pinecone. cbv zeta. split.
  - rewrite Hmd. vm_compute. reflexivity.
  - rewrite Hcontent. vm_compute. reflexivity.
Defined.

(** The text stored for a chunk is not the composite in the
    specification's words: its labels are Spanish. *)
Lemma add_to_pinecone_text_labels_counterexample :
  let st' := (sample_add_to_pinecone distinct_randoms).1 in
  metadata_of st' 21 !! "text"%string
  ≠ Some (VStr (spec_composite_text (doc_type_of sample_store 21)
                                    (filename_of sample_store 21)
                                    (page_label_of sample_store 21)
                                    (page_content (doc_at sample_store 21))))
  ∧ page_content (doc_at st' 21)
    ≠ spec_composite_text (doc_type_of sample_store 21)
                          (filename_of sample_store 21)
                          (page_label_of sample_store 21)
                          (page_content (doc_at sample_store 21)).
Proof. vm_compute. split; discriminate. Qed.

Lemma add_to_pinecone_batches_witness :
  let run := (sample_add_to_pinecone distinct_randoms).2 in
  let bs := batches sample_vectors in
  length bs = ceil_div (length sample_vectors) 100
  ∧ (∀ i b, bs !! i = Some b →
       b = slice sample_vectors (100 * i) (min (100 * (i + 1)) (length sample_vectors))
       ∧ 0 < length b ≤ 100)
  ∧ concat bs = sample_vectors
  ∧ match upsert_raised run with
    | None =>
        upsert_calls run = bs
        ∧ upserted nat _ sample_upsert [] bs (upsert_index run)
    | Some e =>
        ∃ k b, bs !! k = Some b
               ∧ upsert_calls run = take (S k) bs
               ∧ upserted nat _ sample_upsert [] (take k bs) (upsert_index run)
               ∧ sample_upsert (upsert_index run) b = Raise e
    end.
Proof.
  apply (add_to_pinecone_batches
           nfkd_sample uni_word_sample uni_space_sample nat sample_embed
           (list (list (vector_record nat))) sample_upsert sample_timestamp
           distinct_randoms sample_chunks [] sample_store
           sample_prepare.1 sample_vectors).
  vm_compute. reflexivity.
Defined.

Example upsert_batches_sample :
  let run := upsert_batches nat _ sample_upsert many_vectors [] in
  length <$> upsert_calls run = [100; 100; 50]
  ∧ upsert_raised run = None
  ∧ concat (upsert_index run) = many_vectors.
Proof. vm_compute. repeat split. Qed.

Example upsert_batches_failure_sample :
  let run := upsert_batches nat _ failing_upsert many_vectors [] in
  length <$> upsert_calls run = [100; 100]
  ∧ upsert_raised run = Some (Exn "PineconeException" (lit "unavailable"))
  ∧ upsert_index run = [take 100 many_vectors].
Proof. vm_compute. repeat split. Qed.

Lemma handle_question_blank_witness :
  let s' := with_event sample_session
              (Warning (lit "Por favor, ingresa una pregunta v"
                        ++ [a_acute] ++ lit "lida.")) in
  sample_handle_question (lit "  " ++ [9%N; 160%N]) = (s', Ok ())
  ∧ chat_history s' = chat_history sample_session
  ∧ selected_sources s' = selected_sources sample_session
  ∧ ui s' = ui sample_session
            ++ [Warning (lit "Por favor, ingresa una pregunta v"
                         ++ [a_acute] ++ lit "lida.")].
Proof.
  apply (handle_question_blank uni_space_sample () sample_chain sample_invoke
           (λ _, false) (λ _, Ok []) (lit "  " ++ [9%N; 160%N]) sample_session).
  vm_compute. reflexivity.
Defined.

Example handle_question_sample :
  let s' := (sample_handle_question (lit "Que dice el Art. 1?")).1 in
  chat_history s' = [(lit "user", lit "Que dice el Art. 1?"); (lit "bot", lit "Respuesta")]
  ∧ ui s' = [Spinner (lit "Analizando tu consulta...");
             CreateChain [lit "todos"];
             Invoke (lit "Que dice el Art. 1?") [] [lit "todos"];
             Subheader ([128218%N; 32%N] ++ lit "Fuentes utilizadas:")].
Proof. vm_compute. split; reflexivity. Qed.

Example build_sidebar_sample :
  selected_sources (sample_build_sidebar false (λ _ files, files)).1
  = [lit "data/03_leyes/Ley 1.pdf"; lit "data/03_leyes/Ley 2.PDF"]
  ∧ selected_sources (sample_build_sidebar false (λ _ _, [])).1 = [lit "todos"]
  ∧ selected_sources (sample_build_sidebar true (λ _ files, files)).1 = [lit "todos"].
Proof. vm_compute. repeat split. Qed.

(** * Further properties *)

(** ** Paths *)





(** ** The sanitizer and the ids *)

(** X2. A string made of letters, digits, underscores and hyphens is
    returned as it is, provided NFKD leaves ASCII strings alone. *)
Theorem to_ascii_id_fixed_points nfkd uni_word uni_space s :
  (∀ t, forallb is_ascii t = true → nfkd t = t) →
  forallb id_char s = true →
  to_ascii_id nfkd uni_word uni_space s = s.
Proof.
  intros Hnfkd Hs.
  assert (Hall : Forall (λ c, id_char c = true) s).
  { apply Forall_forall. intros c Hc%list_elem_of_In.
    by apply (proj1 (forallb_forall _ _) Hs). }
  unfold to_ascii_id. rewrite Hnfkd.
  - by apply substitutions_fixed.
  - apply forallb_forall. intros c Hc%list_elem_of_In.
    apply id_char_is_ascii. by eapply Forall_forall in Hall.
Qed.

Lemma id_char_not_colon c : id_char c = true → c ≠ colon.
Proof.
  unfold id_char, ascii_alnum, underscore, hyphen, colon. intros Hc ->.
  by vm_compute in Hc.
Qed.

Lemma split_at_colon a1 : ∀ a2 r1 r2,
  Forall (λ c, c ≠ colon) a1 → Forall (λ c, c ≠ colon) a2 →
  a1 ++ colon :: r1 = a2 ++ colon :: r2 → a1 = a2 ∧ r1 = r2.
Proof.
  induction a1 as [|c a1 IH]; intros [|c2 a2] r1 r2 H1 H2 Heq; simpl in Heq.
  - by injection Heq as ->.
  - injection Heq as <- _. by apply Forall_cons in H2 as [? _].
  - injection Heq as -> _. by apply Forall_cons in H1 as [? _].
  - injection Heq as -> Heq.
    apply Forall_cons in H1 as [_ H1]. apply Forall_cons in H2 as [_ H2].
    destruct (IH a2 r1 r2 H1 H2 Heq) as [-> ->]. done.
Qed.

(** X3. An id can be taken apart again: two ids built by
    [add_to_pinecone] are equal exactly when the sanitized category, the
    sanitized file name, the page label as text and the token are equal
    pairwise (the sanitized parts never contain a colon, and the token
    has a fixed length). *)
Theorem chunk_id_components nfkd uni_word uni_space
    (doc_type1 source1 doc_type2 source2 : pystr) (page1 page2 : pyval)
    (random1 random2 : N) :
  let sanitize := to_ascii_id nfkd uni_word uni_space in
  chunk_id_of (sanitize doc_type1) (sanitize source1) page1 (short_uuid random1)
  = chunk_id_of (sanitize doc_type2) (sanitize source2) page2 (short_uuid random2)
  ↔ sanitize doc_type1 = sanitize doc_type2
    ∧ sanitize source1 = sanitize source2
    ∧ py_str page1 = py_str page2
    ∧ short_uuid random1 = short_uuid random2.
Proof.
  intros sanitize. split.
  - assert (Hclean : ∀ s, Forall (λ c, c ≠ colon) (sanitize s)).
    { intros s. eapply Forall_impl; [apply to_ascii_id_chars|].
      apply id_char_not_colon. }
    unfold chunk_id_of. change (lit ":") with [colon]. simpl.
    intros Heq.
    apply split_at_colon in Heq as [Ha Heq]; [|apply Hclean..].
    apply split_at_colon in Heq as [Hb Heq]; [|apply Hclean..].
    change (py_str page1 ++ colon :: short_uuid random1)
      with (py_str page1 ++ [colon] ++ short_uuid random1) in Heq.
    change (py_str page2 ++ colon :: short_uuid random2)
      with (py_str page2 ++ [colon] ++ short_uuid random2) in Heq.
    rewrite !app_assoc in Heq.
    apply app_inj_2 in Heq as [Hp Ht]; [|by rewrite !length_short_uuid].
    apply app_inj_tail in Hp as [Hp _]. done.
  - intros (Ha & Hb & Hp & Ht). unfold chunk_id_of. by rewrite Ha, Hb, Hp, Ht.
Qed.

(** ** The token and the random draw *)

Lemma take_hex_fixed w k : ∀ n,
  take w (hex_fixed (w + k) n) = hex_fixed w (n / 16 ^ N.of_nat k)%N.
Proof.
  induction k as [|k IH]; intros n.
  - rewrite Nat.add_0_r, take_ge by (by rewrite length_hex_fixed).
    simpl. by rewrite N.div_1_r.
  - rewrite Nat.add_succ_r. simpl hex_fixed.
    rewrite take_app_le by (rewrite length_hex_fixed; lia).
    rewrite IH. f_equal.
    rewrite Nat2N.inj_succ, N.pow_succ_r', N.Div0.div_div by lia. done.
Qed.

Lemma hex_digit_inj d1 d2 :
  (d1 < 16)%N → (d2 < 16)%N → hex_digit d1 = hex_digit d2 → d1 = d2.
Proof.
  unfold hex_digit. intros H1 H2.
  destruct (N.ltb_spec d1 10), (N.ltb_spec d2 10); lia.
Qed.

Lemma hex_fixed_mod w : ∀ n, hex_fixed w n = hex_fixed w (n mod 16 ^ N.of_nat w)%N.
Proof.
  induction w as [|w IH]; intros n; simpl hex_fixed; [done|].
  rewrite Nat2N.inj_succ, N.pow_succ_r' by lia.
  rewrite (IH (n / 16)%N), (IH ((n mod (16 * 16 ^ N.of_nat w)) / 16)%N).
  assert (H16 : (16 ^ N.of_nat w ≠ 0)%N) by (apply N.pow_nonzero; lia).
  f_equal.
  - f_equal. rewrite N.Div0.mod_mul_r, N.mul_comm, N.div_add by lia.
    rewrite (N.div_small (n mod 16) 16) by (apply N.mod_upper_bound; lia).
    rewrite N.add_0_l. by rewrite N.Div0.mod_mod.
  - do 2 f_equal. rewrite N.Div0.mod_mul_r.
    rewrite N.mul_comm, N.Div0.mod_add. by rewrite N.Div0.mod_mod.
Qed.

Lemma hex_fixed_inj w : ∀ n1 n2,
  (n1 < 16 ^ N.of_nat w)%N → (n2 < 16 ^ N.of_nat w)%N →
  hex_fixed w n1 = hex_fixed w n2 → n1 = n2.
Proof.
  induction w as [|w IH]; intros n1 n2 H1 H2 Heq.
  - simpl in H1, H2. lia.
  - simpl hex_fixed in Heq.
    rewrite Nat2N.inj_succ, N.pow_succ_r' in H1, H2 by lia.
    apply app_inj_tail in Heq as [Hhigh Hlow].
    apply hex_digit_inj in Hlow; [|apply N.mod_upper_bound; lia..].
    apply IH in Hhigh; [|apply N.Div0.div_lt_upper_bound; lia..].
    rewrite (N.div_mod n1 16), (N.div_mod n2 16) by lia.
    by rewrite Hhigh, Hlow.
Qed.

Lemma uuid4_int_high random :
  N.shiftr (uuid4_int random) 96 = N.shiftr random 96.
Proof.
  apply N.bits_inj. intros n. rewrite !N.shiftr_spec by lia.
  unfold uuid4_int.
  assert (Hclear : ∀ c k, (N.log2 c < 20)%N → (k <= 76)%N →
            N.testbit (N.shiftl c k) (n + 96) = false).
  { intros c k Hc Hk. rewrite N.shiftl_spec_high by lia.
    apply N.bits_above_log2. lia. }
  rewrite N.lor_spec, N.ldiff_spec, N.lor_spec, N.ldiff_spec.
  rewrite !Hclear by (vm_compute; done || lia).
  simpl. by rewrite !andb_true_r, !orb_false_r.
Qed.

(** X4. The token is the first 32 bits of the draw, written as eight
    lowercase hexadecimal digits; the version and variant bits that
    [uuid4] sets lie further down. Two draws give the same token exactly
    when they agree on those 32 bits. *)
Theorem short_uuid_top_bits (random1 random2 : N) :
  short_uuid random1 = hex_fixed 8 (random1 / 2 ^ 96)%N
  ∧ Forall (λ c, is_hex_digit c = true) (short_uuid random1)
  ∧ (short_uuid random1 = short_uuid random2
     ↔ ((random1 / 2 ^ 96) mod 2 ^ 32 = (random2 / 2 ^ 96) mod 2 ^ 32)%N).
Proof.
  assert (Hform : ∀ r, short_uuid r = hex_fixed 8 (r / 2 ^ 96)%N).
  { intros r. unfold short_uuid, uuid_str.
    rewrite take_app_le by (rewrite length_take, length_hex_fixed; lia).
    rewrite take_take. change (8 `min` 8) with 8.
    rewrite (take_hex_fixed 8 24).
    change (16 ^ N.of_nat 24)%N with (2 ^ 96)%N.
    rewrite <- !N.shiftr_div_pow2. by rewrite uuid4_int_high. }
  split; [apply Hform|]. split.
  - rewrite Hform. generalize (random1 / 2 ^ 96)%N. generalize 8.
    intros w. induction w as [|w IH]; intros n; simpl; [constructor|].
    apply Forall_app. split; [apply IH|]. constructor; [|constructor].
    pose proof (N.mod_upper_bound n 16 ltac:(lia)) as Hd.
    unfold is_hex_digit, hex_digit.
    generalize dependent (n mod 16)%N. intros d Hd.
    destruct (N.ltb_spec d 10); char_cases.
  - rewrite !Hform.
    rewrite (hex_fixed_mod 8 (random1 / 2 ^ 96)), (hex_fixed_mod 8 (random2 / 2 ^ 96)).
    change (16 ^ N.of_nat 8)%N with (2 ^ 32)%N. split.
    + apply hex_fixed_inj; change (16 ^ N.of_nat 8)%N with (2 ^ 32)%N;
        apply N.mod_upper_bound; lia.
    + by intros ->.
Qed.

(** ** More on the deduplication filter *)

Section LoaderExtras.

Variable normalize_filename : pystr → pystr.
Variables (doc_type : pystr) (existing_files : gset pyval).

Abbreviation tag := (tagged normalize_filename doc_type).
Abbreviation load_invariant :=
  (loading normalize_filename doc_type existing_files).
Abbreviation load_step := (load_new_document normalize_filename doc_type existing_files).

Lemma tagged_source m : tag m !! "source"%string = m !! "source"%string.
Proof. unfold tagged. by rewrite !lookup_insert_ne. Qed.

Lemma tagged_idempotent m : tag (tag m) = tag m.
Proof.
  unfold tagged at 1. rewrite tagged_source. unfold tagged.
  apply map_eq. intros k.
  destruct (decide (k = "doc_type"%string)) as [->|Hdt];
    [by rewrite !lookup_insert_eq|].
  rewrite !(lookup_insert_ne _ "doc_type"%string) by done.
  destruct (decide (k = "filename"%string)) as [->|Hfn];
    [by rewrite !lookup_insert_eq|].
  by rewrite !lookup_insert_ne by done.
Qed.

(** One iteration, exactly. *)
Lemma load_new_document_run new_documents doc st :
  load_step new_documents doc st
  = if decide (source_of st doc ∉ existing_files) then
      match source_of st doc with
      | VStr _ =>
          (with_item
             (with_item st (metadata_ref st doc) "filename"
                (VStr (normalize_filename (basename (py_str (source_of st doc))))))
             (metadata_ref st doc) "doc_type" (VStr doc_type),
           Ok (new_documents ++ [doc]))
      | VInt _ => (st, type_error "expected str")
      end
    else (st, Ok new_documents).
Proof.
  unfold load_new_document, get_metadata, dict_get.
  rewrite !run_bind. fold (metadata_of st doc). fold (source_of st doc).
  destruct (decide (source_of st doc ∉ existing_files)) as [Hnew|Hold].
  - rewrite bool_decide_eq_true_2 by done.
    destruct (source_of st doc) as [path|]; [|done].
    rewrite !run_bind. unfold lift, as_str, dict_setitem. by rewrite !run_bind, run_ret.
  - by rewrite bool_decide_eq_false_2 by done.
Qed.

Lemma load_invariant_source st0 st d :
  load_invariant st0 st → source_of st d = source_of st0 d.
Proof.
  intros (Hdocs & _ & _ & Hdicts). unfold source_of, metadata_of.
  rewrite Hdocs. destruct (Hdicts (metadata (doc_at st0 d))) as [->|[-> _]]; [done|].
  by rewrite tagged_source.
Qed.

Lemma load_loop_tags st0 documents : ∀ new_documents st,
  load_invariant st0 st →
  (∀ d, d ∈ new_documents → metadata_of st d = tag (metadata_of st0 d)) →
  forallb (λ d, is_str (source_of st0 d)) documents = true →
  ∃ st',
    for_fold load_step new_documents documents st
    = (st', Ok (new_documents
                ++ filter (λ d, source_of st0 d ∉ existing_files) documents))
    ∧ load_invariant st0 st'
    ∧ ∀ d, d ∈ new_documents
              ++ filter (λ d, source_of st0 d ∉ existing_files) documents →
           metadata_of st' d = tag (metadata_of st0 d).
Proof.
  induction documents as [|doc documents IH]; intros acc st Hinv Hacc Hstr.
  - exists st. simpl. rewrite app_nil_r. done.
  - simpl in Hstr. apply andb_true_iff in Hstr as [Hdoc Hrest].
    rewrite for_fold_cons, load_new_document_run.
    rewrite (load_invariant_source st0 st doc Hinv).
    rewrite filter_cons.
    destruct (decide (source_of st0 doc ∉ existing_files)) as [Hnew|Hold].
    + destruct (source_of st0 doc) as [path|] eqn:Hsrc; [|done].
      set (st1 := with_item (with_item st _ _ _) _ _ _).
      pose proof Hinv as (Hdocs & Hnext & Hout & Hdicts).
      assert (Href : metadata_ref st doc = metadata_ref st0 doc).
      { unfold metadata_ref. by rewrite Hdocs. }
      assert (Hnew1 : dict_at st1 (metadata_ref st0 doc)
                      = tag (dict_at st0 (metadata_ref st0 doc))).
      { unfold st1. rewrite !dict_at_with_item, Href, !decide_True by done.
        assert (Hpath : default (VStr []) (dict_at st0 (metadata_ref st0 doc)
                                           !! "source"%string) = VStr path)
          by exact Hsrc.
        destruct (Hdicts (metadata_ref st0 doc)) as [->|[-> _]].
        - unfold tagged. by rewrite Hpath.
        - symmetry. etransitivity; [symmetry; apply tagged_idempotent|].
          unfold tagged at 1. by rewrite tagged_source, Hpath. }
      assert (Hother : ∀ r, r ≠ metadata_ref st0 doc → dict_at st1 r = dict_at st r).
      { intros r Hr. unfold st1. rewrite !dict_at_with_item, Href.
        by rewrite !decide_False by done. }
      assert (Hinv1 : load_invariant st0 st1).
      { split; [|split; [|split]]; [exact Hdocs|exact Hnext|exact Hout|].
        intros r. destruct (decide (r = metadata_ref st0 doc)) as [->|Hr].
        - right. split; [exact Hnew1|].
          change (source_of st0 doc ∉ existing_files). by rewrite Hsrc.
        - rewrite (Hother r Hr). apply Hdicts. }
      assert (Hmd1 : ∀ d, metadata_of st d = tag (metadata_of st0 d) →
                metadata_of st1 d = tag (metadata_of st0 d)).
      { intros d Hd. unfold metadata_of in *.
        change (doc_at st1 d) with (doc_at st d). rewrite Hdocs in *.
        destruct (decide (metadata (doc_at st0 d) = metadata_ref st0 doc)) as [->|Hr].
        - exact Hnew1.
        - by rewrite (Hother _ Hr). }
      destruct (IH (acc ++ [doc]) st1 Hinv1) as (st' & Hrun & Hinv' & Htags).
      { intros d [Hd| ->%list_elem_of_singleton]%elem_of_app.
        - by apply Hmd1, Hacc.
        - unfold metadata_of. change (doc_at st1 doc) with (doc_at st doc).
          rewrite Hdocs. exact Hnew1. }
      { exact Hrest. }
      exists st'. rewrite Hrun, <- app_assoc in *. done.
    + destruct (IH acc st Hinv Hacc Hrest) as (st' & Hrun & Hinv' & Htags).
      exists st'. by rewrite Hrun.
Qed.

Lemma load_invariant_refl st : load_invariant st st.
Proof. repeat split; auto. Qed.

(** X5. Every document [load_new_documents] returns carries afterwards
    ["filename"] = [normalize_filename(basename(source))] and
    ["doc_type"] = the folder's category; no other entry of any
    dictionary changes, and the metadata of a document whose source is
    in the set is left exactly as it was. *)
Theorem load_new_documents_tags documents directory_path st :
  forallb (λ d, is_str (source_of st d)) documents = true →
  ∃ st' new_documents,
    load_new_documents normalize_filename documents directory_path
                       doc_type existing_files st
    = (st', Ok new_documents)
    ∧ (∀ d, d ∈ new_documents →
         metadata_of st' d !! "filename"%string
         = Some (VStr (normalize_filename (basename (py_str (source_of st d)))))
         ∧ metadata_of st' d !! "doc_type"%string = Some (VStr doc_type))
    ∧ (∀ d k, k ≠ "filename"%string → k ≠ "doc_type"%string →
         metadata_of st' d !! k = metadata_of st d !! k)
    ∧ (∀ d, source_of st d ∈ existing_files →
         metadata_of st' d = metadata_of st d).
Proof.
  intros Hstr.
  destruct (load_loop_tags st documents [] st (load_invariant_refl st))
    as (st1 & Hrun & (Hdocs & _ & _ & Hdicts) & Htags); [|done|].
  { intros d Hd. by apply not_elem_of_nil in Hd. }
  simpl in Hrun, Htags.
  set (kept := filter (λ d, source_of st d ∉ existing_files) documents) in *.
  assert (Hfinal : ∃ st',
            load_new_documents normalize_filename documents directory_path
                               doc_type existing_files st = (st', Ok kept)
            ∧ (∀ l, doc_at st' l = doc_at st1 l)
            ∧ (∀ r, dict_at st' r = dict_at st1 r)).
  { unfold load_new_documents. rewrite run_bind, Hrun, run_bind.
    case_bool_decide.
    - exists st1. by rewrite run_ret.
    - eexists. split; [reflexivity|]. done. }
  destruct Hfinal as (st' & Hload & Hdocs' & Hdicts').
  assert (Hmd : ∀ d, metadata_of st' d = metadata_of st1 d).
  { intros d. unfold metadata_of. by rewrite Hdocs', Hdicts'. }
  exists st', kept. split; [exact Hload|]. split; [|split].
  - intros d Hd. rewrite Hmd, (Htags d Hd). unfold tagged. split.
    + rewrite lookup_insert_ne by done. by rewrite lookup_insert_eq.
    + by rewrite lookup_insert_eq.
  - intros d k Hfn Hdt. rewrite Hmd. unfold metadata_of. rewrite Hdocs.
    destruct (Hdicts (metadata (doc_at st d))) as [->|[-> _]]; [done|].
    unfold tagged. by rewrite !lookup_insert_ne.
  - intros d Hd. rewrite Hmd. unfold metadata_of. rewrite Hdocs.
    destruct (Hdicts (metadata (doc_at st d))) as [->|[_ Hnot]]; [done|].
    by destruct Hnot.
Qed.

Lemma load_loop_all_indexed documents st :
  (∀ d, d ∈ documents → source_of st d ∈ existing_files) →
  for_fold load_step [] documents st = (st, Ok []).
Proof.
  induction documents as [|doc documents IH]; intros Hall; [done|].
  rewrite for_fold_cons, load_new_document_run.
  rewrite decide_False by (intros Hnot; apply Hnot, Hall; left).
  apply IH. intros d Hd. apply Hall. by right.
Qed.

(** X6. When the source of every loaded document is already in the
    set, [load_new_documents] returns the empty list, prints nothing and
    leaves the store as it was. *)
Theorem load_new_documents_all_indexed documents directory_path st :
  (∀ d, d ∈ documents → source_of st d ∈ existing_files) →
  load_new_documents normalize_filename documents directory_path
                     doc_type existing_files st
  = (st, Ok []).
Proof.
  intros Hall. unfold load_new_documents.
  rewrite run_bind, (load_loop_all_indexed documents st Hall), run_bind.
  by rewrite bool_decide_eq_true_2.
Qed.

(** X7. If some loaded document is new and its source is not text,
    [load_new_documents] raises a [TypeError] (from [os.path.basename]). *)
Theorem load_new_documents_type_error documents directory_path st :
  (∃ d, d ∈ documents
        ∧ (source_of st d ∉ existing_files)
        ∧ is_str (source_of st d) = false) →
  ∃ st' e,
    load_new_documents normalize_filename documents directory_path
                       doc_type existing_files st
    = (st', Raise e)
    ∧ exn_type e = "TypeError"%string.
Proof.
  intros Hbad.
  assert (Hloop : ∀ acc st1,
            (∀ d, source_of st1 d = source_of st d) →
            ∃ st' e, for_fold load_step acc documents st1 = (st', Raise e)
                     ∧ exn_type e = "TypeError"%string).
  { induction documents as [|doc documents IH]; intros acc st1 Hsrc.
    - destruct Hbad as (d & Hd & _). by apply not_elem_of_nil in Hd.
    - rewrite for_fold_cons, load_new_document_run, Hsrc.
      destruct (decide (source_of st doc ∉ existing_files)) as [Hnew|Hold].
      + destruct (source_of st doc) as [path|z] eqn:Hdoc.
        * apply IH.
          -- destruct Hbad as (d & [->|Hd]%elem_of_cons & Hn & Hs); [|by eauto].
             by rewrite Hdoc in Hs.
          -- intros d. rewrite <- Hsrc. unfold source_of.
             by rewrite !metadata_of_with_item_other_key.
        * eexists _, _. split; [reflexivity|done].
      + apply IH; [|exact Hsrc].
        destruct Hbad as (d & [->|Hd]%elem_of_cons & Hn & Hs); [done|by eauto]. }
  destruct (Hloop [] st ltac:(done)) as (st' & e & Hrun & He).
  exists st', e. unfold load_new_documents. by rewrite run_bind, Hrun.
Qed.


End LoaderExtras.

(** ** More on [add_to_pinecone] *)

Section AddToPineconeExtras.

Variable nfkd : pystr → pystr.
Variable uni_word uni_space : N → bool.
Variable vector : Type.
Variable embed_documents : list pyval → result (list vector).
Variable Index : Type.
Variable upsert : Index → list (vector_record vector) → result Index.
Variable timestamp : pystr.
Variable randoms : nat → N.

Abbreviation id_of := (id_in nfkd uni_word uni_space).
Abbreviation entries_of := (entries_in nfkd uni_word uni_space timestamp).
Abbreviation prepare :=
  (prepare_vectors nfkd uni_word uni_space vector embed_documents timestamp randoms).
Abbreviation run_add_to_pinecone :=
  (add_to_pinecone nfkd uni_word uni_space vector embed_documents Index upsert
                   timestamp randoms).

(** X8. [add_to_pinecone] only adds to a chunk's metadata: afterwards
    ["created_at"] is the run's timestamp, the same for every chunk,
    ["original_filename"] is the file name as it was before sanitizing,
    and every entry other than ["id"], ["created_at"],
    ["original_filename"] and ["text"] is what it was. *)
Theorem add_to_pinecone_keeps_entries chunks index st :
  NoDup (metadata_ref st <$> chunks) →
  forallb (well_typed_chunk st) chunks = true →
  let st' := (run_add_to_pinecone chunks index st).1 in
  ∀ c, c ∈ chunks →
    metadata_of st' c !! "created_at"%string = Some (VStr timestamp)
    ∧ metadata_of st' c !! "original_filename"%string = Some (filename_of st c)
    ∧ ∀ k, k ≠ "id"%string → k ≠ "created_at"%string →
           k ≠ "original_filename"%string → k ≠ "text"%string →
           metadata_of st' c !! k = metadata_of st c !! k.
Proof.
  intros Hnd Hty st' c [i Hc]%list_elem_of_lookup_1.
  destruct (add_to_pinecone_store nfkd uni_word uni_space vector embed_documents
              Index upsert timestamp randoms chunks index st Hnd Hty i c Hc)
    as [Hmd _].
  fold st' in Hmd. rewrite Hmd. unfold entries_in. split; [|split].
  - rewrite lookup_insert_ne by done. rewrite lookup_insert_ne by done.
    by rewrite lookup_insert_eq.
  - rewrite lookup_insert_ne by done. by rewrite lookup_insert_eq.
  - intros k H1 H2 H3 H4. by rewrite !lookup_insert_ne.
Qed.

(** X9. Record [i] pairs chunk [i] with embedding [i]: when the model
    returns at least one vector per chunk, the records are as many as the
    chunks, and the [i]-th holds the [i]-th chunk's id, the [i]-th
    vector and that chunk's metadata as the run left it, whose ["id"]
    is the record's id. Vectors beyond the last chunk are not used. *)
Theorem add_to_pinecone_records_aligned chunks index st embeddings :
  NoDup (metadata_ref st <$> chunks) →
  forallb (well_typed_chunk st) chunks = true →
  embed_documents ((λ c, VStr (text_in st c)) <$> chunks) = Ok embeddings →
  length chunks ≤ length embeddings →
  let st' := (run_add_to_pinecone chunks index st).1 in
  ∃ st1 vectors,
    prepare chunks st = (st1, Ok vectors)
    ∧ length vectors = length chunks
    ∧ ∀ i c, chunks !! i = Some c →
        ∃ e, embeddings !! i = Some e
             ∧ vectors !! i
               = Some (mkRecord (VStr (id_of st (randoms i) c)) e (metadata_of st' c))
             ∧ metadata_of st' c !! "id"%string = Some (VStr (id_of st (randoms i) c)).
Proof.
  intros Hnd Hty Hembed Hlen st'.
  pose proof (add_to_pinecone_store nfkd uni_word uni_space vector embed_documents
                Index upsert timestamp randoms chunks index st Hnd Hty) as Hstore.
  simpl in Hstore. fold st' in Hstore.
  destruct (prepare_vectors_spec nfkd uni_word uni_space vector embed_documents
              timestamp randoms chunks st Hnd Hty) as (st1 & _ & Hrun & Hbuild).
  rewrite Hembed in Hrun.
  destruct (Hbuild embeddings Hlen) as (vectors & Hb & Hlength & Hvec).
  exists st1, vectors. split; [by rewrite Hrun|]. split; [done|].
  intros i c Hc. destruct (Hvec i c Hc) as (e & He & Hr).
  destruct (Hstore i c Hc) as [Hmd _].
  exists e. split; [done|]. rewrite Hmd. split; [done|].
  unfold entries_in. rewrite !lookup_insert_ne by done. by rewrite lookup_insert_eq.
Qed.

Lemma build_vectors_short st (id : nat → pyval) (embeddings : list vector)
    chunks : ∀ i0 vectors,
  (∀ c, c ∈ chunks → metadata_of st c !! "id"%string = Some (id c)) →
  i0 ≤ length embeddings < i0 + length chunks →
  ∃ e,
    for_fold (λ '(i, vectors_with_ids) chunk,
                md ← get_metadata chunk;
                id ← dict_getitem md "id";
                values ← lift (list_getitem embeddings i);
                m ← dict_entries md;
                mret (S i, vectors_with_ids ++ [mkRecord id values m]))
             (i0, vectors) chunks st
    = (st, Raise e)
    ∧ exn_type e = "IndexError"%string.
Proof.
  induction chunks as [|c rest IH]; intros i0 vectors Hid Hlen; simpl in Hlen.
  - lia.
  - rewrite for_fold_cons.
    rewrite !run_bind, run_get_metadata. cbv beta iota.
    rewrite run_bind, (run_dict_getitem c "id" (id c)) by (apply Hid; left).
    cbv beta iota. rewrite run_bind. unfold lift at 1, list_getitem at 1.
    destruct (embeddings !! i0) as [e|] eqn:He.
    + rewrite run_bind, run_dict_entries. cbv beta iota. rewrite run_ret.
      apply lookup_lt_Some in He.
      apply IH; [|lia]. intros c' Hc'. apply Hid. by right.
    + eexists. split; [reflexivity|done].
Qed.

(** X10. When the embedding model fails, or returns fewer vectors than
    there are chunks (an [IndexError]), [add_to_pinecone] raises without
    a single call to the index; the chunks have been rewritten all the
    same, their [page_content] being the composite text. *)
Theorem add_to_pinecone_embedding_failure chunks index st :
  NoDup (metadata_ref st <$> chunks) →
  forallb (well_typed_chunk st) chunks = true →
  let texts := (λ c, VStr (text_in st c)) <$> chunks in
  let result := run_add_to_pinecone chunks index st in
  (∀ e, embed_documents texts = Raise e →
        result.2 = mkRun [] index (Some e))
  ∧ (∀ embeddings, embed_documents texts = Ok embeddings →
        length embeddings < length chunks →
        ∃ e, result.2 = mkRun [] index (Some e)
             ∧ exn_type e = "IndexError"%string)
  ∧ ∀ c, c ∈ chunks → page_content (doc_at result.1 c) = text_in st c.
Proof.
  intros Hnd Hty texts result.
  pose proof (add_to_pinecone_store nfkd uni_word uni_space vector embed_documents
                Index upsert timestamp randoms chunks index st Hnd Hty) as Hstore.
  destruct (prepare_vectors_spec nfkd uni_word uni_space vector embed_documents
              timestamp randoms chunks st Hnd Hty) as (st1 & Hentries & Hrun & _).
  fold texts in Hrun. split; [|split].
  - intros e He. unfold result, add_to_pinecone. by rewrite Hrun, He.
  - intros embeddings He Hlen. unfold result, add_to_pinecone. rewrite Hrun, He.
    unfold build_vectors. rewrite run_bind.
    destruct (build_vectors_short st1
                (λ c, default (VInt 0) (metadata_of st1 c !! "id"%string))
                embeddings chunks 0 []) as (e & Hraise & Htype).
    { intros c [i Hc]%list_elem_of_lookup_1.
      destruct (Hentries i c Hc) as [-> _]. unfold entries_in.
      rewrite !lookup_insert_ne by done. by rewrite lookup_insert_eq. }
    { simpl. lia. }
    rewrite Hraise. by exists e.
  - intros c [i Hc]%list_elem_of_lookup_1. by destruct (Hstore i c Hc).
Qed.

(** Annotating a chunk writes neither ["filename"] nor ["doc_type"]. *)
Lemma annotate_chunk_keeps_types random chunk st :
  well_typed_chunk st chunk = true →
  ∃ st',
    annotate_chunk nfkd uni_word uni_space timestamp random chunk st = (st', Ok ())
    ∧ ∀ c, well_typed_chunk st' c = well_typed_chunk st c.
Proof.
  intros Hty.
  destruct (annotate_chunk_spec nfkd uni_word uni_space timestamp random chunk st Hty)
    as (st' & Hrun & Href & Hdicts & Hdict & _).
  exists st'. split; [exact Hrun|]. intros c.
  assert (Hkeys : ∀ k, k ≠ "id"%string → k ≠ "created_at"%string →
            k ≠ "original_filename"%string → k ≠ "text"%string →
            metadata_of st' c !! k = metadata_of st c !! k).
  { intros k H1 H2 H3 H4. unfold metadata_of.
    fold (metadata_ref st' c) (metadata_ref st c). rewrite Href.
    destruct (decide (metadata_ref st c = metadata_ref st chunk)) as [Heq|Hne].
    - rewrite Heq, Hdict. unfold entries_in. by rewrite !lookup_insert_ne.
    - by rewrite Hdicts. }
  unfold well_typed_chunk, filename_of, doc_type_of. by rewrite !Hkeys.
Qed.

Lemma annotate_chunk_type_error random chunk st :
  well_typed_chunk st chunk = false →
  ∃ e,
    annotate_chunk nfkd uni_word uni_space timestamp random chunk st = (st, Raise e)
    ∧ exn_type e = "TypeError"%string.
Proof.
  intros Hty. unfold annotate_chunk, get_metadata, dict_get.
  rewrite !run_bind.
  fold (metadata_of st chunk).
  fold (filename_of st chunk) (page_label_of st chunk) (doc_type_of st chunk).
  unfold well_typed_chunk in Hty.
  destruct (doc_type_of st chunk) as [dt|z].
  - destruct (filename_of st chunk) as [fn|z]; [done|].
    unfold lift, as_str. rewrite !run_bind. eexists. split; [reflexivity|done].
  - unfold lift, as_str. eexists. split; [reflexivity|done].
Qed.

(** X11. If the file name or the category of some chunk is not text,
    [add_to_pinecone] raises a [TypeError] while annotating, before the
    embedding model or the index is called. *)
Theorem add_to_pinecone_type_error chunks index st :
  (∃ c, c ∈ chunks ∧ well_typed_chunk st c = false) →
  ∃ e,
    (run_add_to_pinecone chunks index st).2 = mkRun [] index (Some e)
    ∧ exn_type e = "TypeError"%string.
Proof.
  intros Hbad.
  assert (Hloop : ∀ i0 st1,
            (∀ c, well_typed_chunk st1 c = well_typed_chunk st c) →
            ∃ st' e,
              for_fold (λ i chunk,
                          annotate_chunk nfkd uni_word uni_space timestamp
                                         (randoms i) chunk;;
                          mret (S i)) i0 chunks st1
              = (st', Raise e)
              ∧ exn_type e = "TypeError"%string).
  { induction chunks as [|c rest IH]; intros i0 st1 Hsame.
    - destruct Hbad as (c & Hc & _). by apply not_elem_of_nil in Hc.
    - rewrite for_fold_cons, run_bind.
      destruct (well_typed_chunk st c) eqn:Hc.
      + destruct (annotate_chunk_keeps_types (randoms i0) c st1)
          as (st2 & Hrun & Hsame2); [by rewrite Hsame|].
        rewrite Hrun, run_ret. apply IH.
        * destruct Hbad as (c' & [->|Hin]%elem_of_cons & Hc'); [congruence|by eauto].
        * intros c'. by rewrite Hsame2.
      + destruct (annotate_chunk_type_error (randoms i0) c st1)
          as (e & Hrun & He); [by rewrite Hsame|].
        rewrite Hrun. by eexists _, _. }
  destruct (Hloop 0 st ltac:(done)) as (st' & e & Hrun & He).
  exists e. split; [|exact He].
  unfold add_to_pinecone, prepare_vectors, annotate_chunks.
  by rewrite !run_bind, Hrun.
Qed.


End AddToPineconeExtras.

(** ** More on [split_documents] *)

Section ChunkerExtras.

Variable split_text : pystr → result (list pystr).

(** The loop of [create_documents] makes one document per piece, in
    order, and prints nothing. *)
Lemma create_loop_contents pieces : ∀ (documents : list nat) st,
  ∃ st' new,
    for_fold (λ documents piece,
                md ← new_dict ∅;
                d ← new_document piece md;
                mret (documents ++ [d])) documents pieces st
    = (st', Ok (documents ++ new))
    ∧ next_loc st ≤ next_loc st'
    ∧ (∀ l, l < next_loc st → doc_at st' l = doc_at st l)
    ∧ (∀ c, c ∈ new → c < next_loc st')
    ∧ (λ c, page_content (doc_at st' c)) <$> new = pieces
    ∧ stdout st' = stdout st.
Proof.
  induction pieces as [|piece pieces IH]; intros acc st.
  - exists st, []. simpl. rewrite app_nil_r.
    split; [done|]. split; [done|]. split; [done|].
    split; [|done]. intros c Hc. by apply not_elem_of_nil in Hc.
  - simpl. rewrite !run_bind. unfold new_dict at 1. cbv beta iota.
    rewrite run_bind. unfold new_document at 1. cbv beta iota. rewrite run_ret.
    set (st1 := with_new_document (with_new_dict st ∅) piece (next_loc st)).
    change (next_loc (with_new_dict st ∅)) with (S (next_loc st)).
    destruct (IH (acc ++ [S (next_loc st)]) st1)
      as (st' & new & Hrun & Hnext & Hdocs & Hnew & Hcontents & Hout).
    change (next_loc st1) with (S (S (next_loc st))) in *.
    exists st', (S (next_loc st) :: new).
    split; [by rewrite Hrun, <- app_assoc|].
    split; [lia|]. split; [|split; [|split]].
    + intros l Hl. rewrite Hdocs by lia. unfold st1.
      rewrite doc_at_with_new_document. simpl.
      rewrite decide_False by lia. done.
    + intros c [->|Hc]%elem_of_cons; [lia|by apply Hnew].
    + rewrite fmap_cons, Hcontents. f_equal.
      rewrite Hdocs by lia. unfold st1. rewrite doc_at_with_new_document. simpl.
      by rewrite decide_True.
    + by rewrite Hout.
Qed.

(** The loop that copies the metadata always finishes; it changes no
    [page_content] and prints nothing. *)
Lemma copy_loop_contents doc chunks : ∀ st,
  ∃ st',
    for_each (λ chunk,
                md ← get_metadata doc;
                md' ← dict_copy md;
                set_metadata chunk md') chunks st
    = (st', Ok ())
    ∧ next_loc st ≤ next_loc st'
    ∧ (∀ l, page_content (doc_at st' l) = page_content (doc_at st l))
    ∧ stdout st' = stdout st.
Proof.
  induction chunks as [|c rest IH]; intros st.
  - by exists st.
  - unfold for_each. simpl. rewrite !run_bind, run_get_metadata. cbv beta iota.
    rewrite run_bind. unfold dict_copy at 1. rewrite run_bind.
    unfold dict_entries at 1, new_dict at 1. cbv beta iota.
    unfold set_metadata at 1. cbv beta iota.
    fold (metadata_of st doc).
    set (st1 := with_metadata (with_new_dict st (metadata_of st doc)) c (next_loc st)).
    destruct (IH st1) as (st' & Hrun & Hnext & Hcontents & Hout).
    unfold for_each in Hrun. exists st'. split; [exact Hrun|].
    change (next_loc st1) with (S (next_loc st)) in Hnext.
    split; [lia|]. split; [|by rewrite Hout].
    intros l. rewrite Hcontents. unfold st1. rewrite doc_at_with_metadata.
    destruct (decide (c = l)) as [->|]; [|by rewrite doc_at_with_new_dict].
    by rewrite doc_at_with_new_dict.
Qed.

Lemma split_document_raise chunks doc st e :
  split_text (page_content (doc_at st doc)) = Raise e →
  split_document split_text chunks doc st = (st, Raise e).
Proof.
  intros Hsplit. unfold split_document. rewrite run_bind. unfold get_page_content at 1.
  cbv beta iota. rewrite run_bind. unfold create_documents at 1.
  rewrite run_bind. unfold lift at 1. by rewrite Hsplit.
Qed.

Lemma split_document_pieces chunks doc st pieces :
  split_text (page_content (doc_at st doc)) = Ok pieces →
  ∃ st' new,
    split_document split_text chunks doc st = (st', Ok (chunks ++ new))
    ∧ next_loc st ≤ next_loc st'
    ∧ (∀ l, l < next_loc st →
         page_content (doc_at st' l) = page_content (doc_at st l))
    ∧ (∀ c, c ∈ new → c < next_loc st')
    ∧ (λ c, page_content (doc_at st' c)) <$> new = pieces
    ∧ stdout st' = stdout st.
Proof.
  intros Hsplit. unfold split_document. rewrite run_bind. unfold get_page_content at 1.
  cbv beta iota. rewrite run_bind. unfold create_documents at 1.
  rewrite run_bind. unfold lift at 1. rewrite Hsplit.
  destruct (create_loop_contents pieces [] st)
    as (st1 & new & Hrun1 & Hnext1 & Hdocs1 & Hnew1 & Hcontents1 & Hout1).
  change ([] ++ new) with new in Hrun1. rewrite Hrun1. cbv beta iota.
  destruct (copy_loop_contents doc new st1)
    as (st2 & Hrun2 & Hnext2 & Hcontents2 & Hout2).
  rewrite run_bind, Hrun2, run_ret.
  exists st2, new. split; [done|]. split; [lia|]. split; [|split; [|split]].
  - intros l Hl. by rewrite Hcontents2, Hdocs1.
  - intros c Hc. specialize (Hnew1 c Hc). lia.
  - rewrite <- Hcontents1. apply list_fmap_ext. intros i c Hc. apply Hcontents2.
  - by rewrite Hout2.
Qed.

Lemma split_loop_contents st0 documents : ∀ chunks st,
  (∀ d, d ∈ documents → d < next_loc st0) →
  next_loc st0 ≤ next_loc st →
  (∀ l, l < next_loc st0 →
     page_content (doc_at st l) = page_content (doc_at st0 l)) →
  (∀ c, c ∈ chunks → c < next_loc st) →
  match for_fold (split_document split_text) chunks documents st with
  | (st', Ok out) =>
      ∃ pieces,
        Forall2 (λ d ps, split_text (page_content (doc_at st0 d)) = Ok ps)
                documents pieces
        ∧ (λ c, page_content (doc_at st' c)) <$> out
          = ((λ c, page_content (doc_at st c)) <$> chunks) ++ concat pieces
        ∧ stdout st' = stdout st
  | (st', Raise e) =>
      (∃ d, d ∈ documents ∧ split_text (page_content (doc_at st0 d)) = Raise e)
      ∧ stdout st' = stdout st
  end.
Proof.
  induction documents as [|doc rest IH]; intros chunks st Hin Hnext Hsame Hchunks.
  - simpl. exists []. split; [constructor|]. simpl. by rewrite app_nil_r.
  - rewrite for_fold_cons.
    assert (Hdoc : page_content (doc_at st doc) = page_content (doc_at st0 doc)).
    { apply Hsame, Hin. left. }
    destruct (split_text (page_content (doc_at st0 doc))) as [pieces|e] eqn:Hsplit.
    + rewrite <- Hdoc in Hsplit.
      destruct (split_document_pieces chunks doc st pieces Hsplit)
        as (st1 & new & Hrun & Hnext1 & Hsame1 & Hnew & Hcontents & Hout).
      rewrite Hrun.
      specialize (IH (chunks ++ new) st1).
      destruct (for_fold _ _ rest st1) as [st' [out|e]].
      * destruct IH as (groups & Hgroups & Hcont & Hout').
        { intros d Hd. apply Hin. by right. }
        { lia. }
        { intros l Hl. rewrite Hsame1 by lia. by apply Hsame. }
        { intros c [Hc|Hc]%elem_of_app; [|by apply Hnew].
          specialize (Hchunks c Hc). lia. }
        exists (pieces :: groups). split; [|split].
        -- constructor; [by rewrite <- Hdoc|exact Hgroups].
        -- rewrite Hcont, fmap_app, Hcontents. simpl. rewrite <- app_assoc.
           f_equal. apply list_fmap_ext. intros i c Hc.
           apply Hsame1, Hchunks. by eapply list_elem_of_lookup_2.
        -- by rewrite Hout'.
      * destruct IH as [(d & Hd & Hraise) Hout'].
        { intros d Hd. apply Hin. by right. }
        { lia. }
        { intros l Hl. rewrite Hsame1 by lia. by apply Hsame. }
        { intros c [Hc|Hc]%elem_of_app; [|by apply Hnew].
          specialize (Hchunks c Hc). lia. }
        split; [|by rewrite Hout'].
        exists d. split; [by right|done].
    + rewrite <- Hdoc in Hsplit. rewrite (split_document_raise _ _ _ _ Hsplit).
      split; [|done]. exists doc. split; [left|by rewrite <- Hdoc].
Qed.

(** X13. When [split_documents] returns, the chunker has answered for
    every document, and the chunks hold its pieces: those of the first
    document in the chunker's order, then those of the second, and so
    on. The documents given are untouched, and the one line printed
    carries the number of chunks. *)
Theorem split_documents_pieces documents st st' chunks :
  (∀ d, d ∈ documents → d < next_loc st) →
  split_documents split_text documents st = (st', Ok chunks) →
  ∃ pieces,
    Forall2 (λ d ps, split_text (page_content (doc_at st d)) = Ok ps)
            documents pieces
    ∧ (λ c, page_content (doc_at st' c)) <$> chunks = concat pieces
    ∧ (∀ l, l < next_loc st →
         doc_at st' l = doc_at st l ∧ dict_at st' l = dict_at st l)
    ∧ stdout st'
      = stdout st ++ [lit "Total de chunks generados: "
                      ++ str_of_nat (length (concat pieces))].
Proof.
  intros Hin. unfold split_documents. rewrite run_bind.
  pose proof (split_loop_contents st documents [] st Hin) as Hloop.
  destruct (for_fold _ _ _ _) as [st1 [out|e]] eqn:Hrun; [|done].
  rewrite run_bind. unfold print at 1. cbv beta iota. rewrite run_ret.
  intros [= <- <-].
  destruct Hloop as (pieces & Hpieces & Hcontents & Hout); [lia|done| |].
  { intros c Hc. by apply not_elem_of_nil in Hc. }
  destruct (split_loop_spec split_text documents [] st st1 out Hrun)
    as (_ & _ & _ & Hbelow & _).
  { intros c Hc. by apply not_elem_of_nil in Hc. }
  { constructor. }
  { constructor. }
  simpl in Hcontents.
  exists pieces. split; [exact Hpieces|]. split; [exact Hcontents|].
  split; [exact Hbelow|]. simpl. rewrite Hout. do 3 f_equal.
  by rewrite <- Hcontents, length_fmap.
Qed.

(** X14. A failure of the chunker is not caught: if it raises on the
    text of some document, [split_documents] raises an error the chunker
    raised, and the line with the total is never printed. *)
Theorem split_documents_chunker_failure documents st :
  (∀ d, d ∈ documents → d < next_loc st) →
  (∃ d e, d ∈ documents ∧ split_text (page_content (doc_at st d)) = Raise e) →
  ∃ st' e,
    split_documents split_text documents st = (st', Raise e)
    ∧ (∃ d, d ∈ documents ∧ split_text (page_content (doc_at st d)) = Raise e)
    ∧ stdout st' = stdout st.
Proof.
  intros Hin (d & e & Hd & Hraise). unfold split_documents. rewrite run_bind.
  pose proof (split_loop_contents st documents [] st Hin) as Hloop.
  destruct (for_fold _ _ _ _) as [st1 [out|e1]].
  - destruct Hloop as (pieces & Hpieces & _); [lia|done| |].
    { intros c Hc. by apply not_elem_of_nil in Hc. }
    apply list_elem_of_lookup_1 in Hd as [i Hi].
    destruct (Forall2_lookup_l _ _ _ _ _ Hpieces Hi) as (ps & _ & Hok).
    congruence.
  - destruct Hloop as [Hwho Hout]; [lia|done| |].
    { intros c Hc. by apply not_elem_of_nil in Hc. }
    by exists st1, e1.
Qed.

End ChunkerExtras.

(** ** From the loader to the index *)

Section Pipeline.

Variable normalize_filename : pystr → pystr.
Variable split_text : pystr → result (list pystr).
Variables (doc_type : pystr) (existing_files : gset pyval).


End Pipeline.

(** ** The lookup and the loader *)

Section Lookup.

Variable normalize_filename : pystr → pystr.
Variable doc_type : pystr.



End Lookup.

(** ** More on the chat page *)

Section AppExtras.

Variable uni_space : N → bool.
Variable Chain : Type.
Variable create_conversation_chain : list pystr → result Chain.
Variable chain_invoke :
  Chain → pystr → list (pystr * pystr) → list pystr → result response_data.
Variable path_exists : pyval → bool.
Variable read_file : pyval → result pystr.

Abbreviation ask :=
  (handle_question uni_space Chain create_conversation_chain chain_invoke
                   path_exists read_file).

Lemma page_only_emit e : page_only (emit e).
Proof. by intros s. Qed.

Lemma page_only_lift {A} (r : result A) : page_only (lift r).
Proof. by intros s. Qed.

Lemma page_only_ret {A} (a : A) : page_only (mret a).
Proof. by intros s. Qed.

Lemma page_only_bind {A B} (c : app A) (f : A → app B) :
  page_only c → (∀ a, page_only (f a)) → page_only (c ≫= f).
Proof.
  intros Hc Hf s. rewrite run_bind. specialize (Hc s).
  destruct (c s) as [s1 [a|e]]; simpl in Hc; [|exact Hc].
  destruct Hc as [<- <-]. apply Hf.
Qed.

Lemma page_only_for_fold {A S} (body : S → A → app S) l :
  (∀ acc x, page_only (body acc x)) → ∀ acc, page_only (for_fold body acc l).
Proof.
  intros Hbody. induction l as [|x l IH]; intros acc.
  - apply page_only_ret.
  - apply page_only_bind; [apply Hbody|apply IH].
Qed.

(** Showing a source writes to the page only. *)
Lemma show_source_keeps idx fuente :
  page_only (show_source path_exists read_file idx fuente).
Proof.
  unfold show_source.
  apply page_only_bind; [apply page_only_lift|intros source].
  apply page_only_bind; [apply page_only_emit|intros _].
  apply page_only_bind; [apply page_only_emit|intros _].
  apply page_only_bind; [apply page_only_lift|intros fp].
  apply page_only_bind; [|intros _; apply page_only_ret].
  destruct (path_exists fp); [|apply page_only_emit].
  apply page_only_bind; [apply page_only_lift|intros pdf_bytes].
  apply page_only_emit.
Qed.

Lemma show_loop_keeps sources idx :
  page_only (for_fold (show_source path_exists read_file) idx sources).
Proof. apply page_only_for_fold. intros acc x. apply show_source_keeps. Qed.

(** A source without ["source"] or without ["file_path"] stops the loop. *)
Lemma show_loop_raises sources : ∀ idx (s : session),
  (∃ fuente, fuente ∈ sources
             ∧ (source_metadata fuente !! "source"%string = None
                ∨ source_metadata fuente !! "file_path"%string = None)) →
  ∃ e, (for_fold (show_source path_exists read_file) idx sources s).2 = Raise e.
Proof.
  induction sources as [|fuente sources IH]; intros idx s (bad & Hin & Hbad).
  - by apply not_elem_of_nil in Hin.
  - rewrite for_fold_cons.
    destruct (show_source _ _ idx fuente s) as [s1 [idx1|e]] eqn:Hstep;
      [|by exists e].
    apply IH. exists bad. split; [|exact Hbad].
    apply elem_of_cons in Hin as [->|Hin]; [|done]. exfalso.
    revert Hstep. unfold show_source. rewrite run_bind. unfold lift at 1.
    destruct Hbad as [-> | Hpath]; [done|].
    destruct (source_metadata fuente !! "source"%string) as [source|]; [|done].
    run_app. unfold lift at 1. by rewrite Hpath.
Qed.

(** X16. A question that is not blank, answered by the service, is
    recorded: the chain is built over the active filter and invoked with
    the history as it was before the question, and afterwards the
    history ends with the question and the answer, in that order, the
    filter being what it was. This holds also when showing the sources
    raises, which it does as soon as a source has no ["source"] or no
    ["file_path"] entry. *)
Theorem handle_question_records_exchange question (s : session) chain data :
  strip uni_space question ≠ [] →
  create_conversation_chain (selected_sources s) = Ok chain →
  chain_invoke chain question (chat_history s) (selected_sources s) = Ok data →
  let r := ask question s in
  chat_history r.1
  = chat_history s ++ [(lit "user", question); (lit "bot", response data)]
  ∧ selected_sources r.1 = selected_sources s
  ∧ ((∃ fuente, fuente ∈ context data
                ∧ (source_metadata fuente !! "source"%string = None
                   ∨ source_metadata fuente !! "file_path"%string = None)) →
     ∃ e, r.2 = Raise e).
Proof.
  intros Hq Hchain Hinvoke. cbv zeta.
  destruct (ask question s) as [s' res] eqn:Hrun. simpl. revert Hrun.
  unfold handle_question. rewrite bool_decide_eq_false_2 by done.
  run_app. unfold lift at 1. cbn [selected_sources chat_history with_event].
  rewrite Hchain. run_app. unfold lift at 1.
  cbn [selected_sources chat_history with_event]. rewrite Hinvoke. run_app.
  match goal with
  | |- context [for_fold _ 0 (context data) ?s1] =>
      pose proof (show_loop_keeps (context data) 0 s1) as Hkeep;
      pose proof (show_loop_raises (context data) 0 s1) as Hraise;
      destruct (for_fold _ 0 (context data) s1) as [s2 [n|e]]
  end; simpl in Hkeep, Hraise; destruct Hkeep as [Hh Hs].
  - run_app. intros [= <- <-]. rewrite Hh, Hs, <- app_assoc.
    split; [done|]. split; [done|].
    intros Hbad. destruct (Hraise Hbad) as [e He]. done.
  - intros [= <- <-]. rewrite Hh, Hs, <- app_assoc.
    split; [done|]. split; [done|]. by exists e.
Qed.

(** X17. When building the chain or invoking it fails, [handle_question]
    raises that error and the question is not recorded: the history and
    the filter are what they were. *)
Theorem handle_question_service_failure question (s : session) e :
  strip uni_space question ≠ [] →
  create_conversation_chain (selected_sources s) = Raise e
  ∨ (∃ chain, create_conversation_chain (selected_sources s) = Ok chain
              ∧ chain_invoke chain question (chat_history s) (selected_sources s)
                = Raise e) →
  let r := ask question s in
  r.2 = Raise e
  ∧ chat_history r.1 = chat_history s
  ∧ selected_sources r.1 = selected_sources s.
Proof.
  intros Hq Hfail. cbv zeta.
  destruct (ask question s) as [s' res] eqn:Hrun. simpl. revert Hrun.
  unfold handle_question. rewrite bool_decide_eq_false_2 by done.
  run_app. unfold lift at 1. cbn [selected_sources chat_history with_event].
  destruct Hfail as [Hchain|(chain & Hchain & Hinvoke)]; rewrite Hchain.
  - by intros [= <- <-].
  - run_app. unfold lift at 1.
    cbn [selected_sources chat_history with_event]. rewrite Hinvoke.
    by intros [= <- <-].
Qed.

End AppExtras.

Section AppFiles.

Variable path_exists : pyval → bool.
Variable listdir : pystr → list pystr.
Variable isdir : pystr → bool.
Variable lower : pystr → pystr.

Lemma odict_set_keys {V} (d : list (pystr * V)) k v :
  (odict_set d k v).*1 = if decide (k ∈ d.*1) then d.*1 else d.*1 ++ [k].
Proof.
  induction d as [|[k' v'] d IH].
  - destruct (decide (k ∈ ([] : list (pystr * V)).*1)) as [Hin|_]; [|done].
    by apply not_elem_of_nil in Hin.
  - cbn [odict_set]. case_bool_decide as Hk.
    + subst k'. destruct (decide (k ∈ ((k, v') :: d).*1)) as [_|Hin]; [reflexivity|].
      destruct Hin. left.
    + rewrite !fmap_cons, IH. cbn [fst].
      destruct (decide (k ∈ d.*1)) as [Hin|Hin];
        destruct (decide (k ∈ k' :: d.*1)) as [Hin'|Hin']; try done.
      * destruct Hin'. by right.
      * apply elem_of_cons in Hin' as [->|Hin']; done.
Qed.

Lemma elem_of_odict_set {V} (d : list (pystr * V)) k v k' v' :
  (k', v') ∈ odict_set d k v → (k', v') = (k, v) ∨ (k', v') ∈ d.
Proof.
  induction d as [|[k1 v1] d IH]; simpl.
  - intros ->%list_elem_of_singleton. by left.
  - case_bool_decide.
    + intros [->|Hin]%elem_of_cons; [by left|]. right. by right.
    + intros [->|Hin]%elem_of_cons; [right; left|].
      destruct (IH Hin) as [->|Hd]; [by left|]. right. by right.
Qed.

(** X18. The folders [get_documents] lists are the entries of [data]
    that are directories, each once, and the files of a folder are the
    entries of that directory whose name, in lower case, ends with
    [.pdf]; nothing is listed when [data] does not exist. *)
Theorem get_documents_folders :
  let docs := get_documents path_exists listdir isdir lower in
  let pdf_files folder :=
    filter (λ f, endswith (lower f) (lit ".pdf") = true)
           (listdir (path_join (lit "data") [folder])) in
  NoDup docs.*1
  ∧ (∀ folder, folder ∈ docs.*1
               ↔ path_exists (VStr (lit "data")) = true
                 ∧ folder ∈ listdir (lit "data")
                 ∧ isdir (path_join (lit "data") [folder]) = true)
  ∧ (∀ folder files, (folder, files) ∈ docs → files = pdf_files folder)
  ∧ ∀ folder files f, (folder, files) ∈ docs → f ∈ files →
      endswith (lower f) (lit ".pdf") = true.
Proof.
  intros docs pdf_files.
  set (step := λ (docs : list (pystr * list pystr)) folder,
                 if isdir (path_join (lit "data") [folder])
                 then odict_set docs folder (pdf_files folder) else docs).
  assert (Hloop : ∀ folders acc,
            NoDup acc.*1 →
            (∀ folder files, (folder, files) ∈ acc → files = pdf_files folder) →
            NoDup (foldl step acc folders).*1
            ∧ (∀ folder, folder ∈ (foldl step acc folders).*1
                         ↔ folder ∈ acc.*1
                           ∨ (folder ∈ folders
                              ∧ isdir (path_join (lit "data") [folder]) = true))
            ∧ ∀ folder files, (folder, files) ∈ foldl step acc folders →
                files = pdf_files folder).
  { induction folders as [|x folders IH]; intros acc Hnd Hfiles.
    - simpl. split; [done|]. split; [|done]. intros folder. split; [by left|].
      intros [Hin|[Hin _]]; [done|]. by apply not_elem_of_nil in Hin.
    - simpl. destruct (IH (step acc x)) as (Hnd' & Hkeys' & Hfiles').
      + unfold step. destruct (isdir _); [|done]. rewrite odict_set_keys.
        destruct (decide (x ∈ acc.*1)); [done|].
        apply NoDup_app. split; [done|]. split; [|apply NoDup_singleton].
        intros y Hy ->%list_elem_of_singleton. done.
      + unfold step. destruct (isdir _); [|done].
        intros folder files [[= -> ->]|Hin]%elem_of_odict_set; [done|by apply Hfiles].
      + split; [done|]. split; [|done]. intros folder. rewrite Hkeys'.
        unfold step. destruct (isdir (path_join (lit "data") [x])) eqn:Hdir.
        * rewrite odict_set_keys. destruct (decide (x ∈ acc.*1)) as [Hx|Hx].
          -- split.
             ++ intros [Hin|[Hin Hd]]; [by left|]. right. split; [by right|done].
             ++ intros [Hin|[[->|Hin]%elem_of_cons Hd]]; [by left|by left|].
                right. done.
          -- rewrite elem_of_app, list_elem_of_singleton. split.
             ++ intros [[Hin| ->]|[Hin Hd]]; [by left| |].
                ** right. split; [left|done].
                ** right. split; [by right|done].
             ++ intros [Hin|[[->|Hin]%elem_of_cons Hd]].
                ** left. by left.
                ** left. by right.
                ** right. done.
        * split.
          -- intros [Hin|[Hin Hd]]; [by left|]. right. split; [by right|done].
          -- intros [Hin|[[->|Hin]%elem_of_cons Hd]]; [by left|congruence|].
             right. done. }
  assert (Hdocs : NoDup docs.*1
            ∧ (∀ folder, folder ∈ docs.*1
                         ↔ path_exists (VStr (lit "data")) = true
                           ∧ folder ∈ listdir (lit "data")
                           ∧ isdir (path_join (lit "data") [folder]) = true)
            ∧ ∀ folder files, (folder, files) ∈ docs → files = pdf_files folder).
  { unfold docs, get_documents. destruct (path_exists (VStr (lit "data"))).
    - destruct (Hloop (listdir (lit "data")) []) as (Hnd & Hkeys & Hfiles).
      + constructor.
      + intros folder files Hin. by apply not_elem_of_nil in Hin.
      + split; [exact Hnd|]. split; [|exact Hfiles]. intros folder.
        unfold step, pdf_files in Hkeys. rewrite Hkeys. split.
        * intros [Hin|[Hin Hd]]; [by apply not_elem_of_nil in Hin|done].
        * intros (_ & Hin & Hd). right. done.
    - split; [constructor|]. split.
      + intros folder. split; [intros Hin; by apply not_elem_of_nil in Hin|].
        by intros [? _].
      + intros folder files Hin. by apply not_elem_of_nil in Hin. }
  destruct Hdocs as (Hnd & Hkeys & Hfiles).
  split; [exact Hnd|]. split; [exact Hkeys|]. split; [exact Hfiles|].
  intros folder files f Hin Hf. rewrite (Hfiles folder files Hin) in Hf.
  unfold pdf_files in Hf. by apply list_elem_of_filter in Hf as [Hf _].
Qed.

Lemma replace_char_removes old new s :
  old ∉ new → old ∉ replace_char old new s.
Proof.
  intros Hnew. unfold replace_char. induction s as [|c s IH]; simpl.
  - apply not_elem_of_nil.
  - rewrite elem_of_app. intros [Hc|Hs]; [|by apply IH].
    destruct (N.eqb_spec c old) as [->|Hne]; [done|].
    apply list_elem_of_singleton in Hc. by subst.
Qed.

(** X19. Whatever is picked in the sidebar, no path of the source
    filter [build_sidebar] leaves contains a backslash. *)
Theorem build_sidebar_forward_slashes select_all multiselect (s : session) path :
  path ∈ selected_sources
           (build_sidebar path_exists listdir isdir lower select_all multiselect s).1 →
  backslash ∉ path.
Proof.
  set (docs := get_documents path_exists listdir isdir lower).
  assert (Hpaths : ∀ p, p ∈ selected_paths multiselect docs → backslash ∉ p).
  { intros p. unfold selected_paths. generalize docs. intros l.
    induction l as [|[folder files] l IH]; simpl.
    - intros Hin. by apply not_elem_of_nil in Hin.
    - rewrite elem_of_app. intros [Hin|Hin]; [|by apply IH].
      apply list_elem_of_fmap in Hin as (doc & -> & _).
      apply replace_char_removes. intros Hin%list_elem_of_singleton. done. }
  assert (Htodos : backslash ∉ lit "todos") by compute_done.
  unfold build_sidebar. destruct select_all.
  - run_app. simpl. intros ->%list_elem_of_singleton. exact Htodos.
  - rewrite run_bind. unfold emit at 1. cbv beta iota.
    rewrite run_bind. unfold emit at 1. cbv beta iota.
    rewrite run_bind. unfold emit at 1. cbv beta iota.
    rewrite run_bind. cbn [negb].
    match goal with
    | |- context [for_fold _ [] _ ?s1] =>
        destruct (select_loop_spec multiselect docs [] s1) as (s' & Hrun & _ & _)
    end.
    fold docs. rewrite Hrun. cbv beta iota. rewrite app_nil_l. cbn [orb].
    case_bool_decide.
    + simpl. intros ->%list_elem_of_singleton. exact Htodos.
    + simpl. apply Hpaths.
Qed.

End AppFiles.

(** ** [setup] *)

(** X20. After a [setup] that returns, the four keys of the session are
    set: what was there is kept, a missing history starts empty and a
    missing filter is [["todos"]]. Running [setup] again then changes
    nothing but the page, whatever [load_pinecone] and the memory's
    constructor would do: they are not called a second time. *)
Theorem setup_once {Vectorstore Memory : Type} load_pinecone new_memory css
    (s s1 : raw_session Vectorstore Memory) :
  setup Vectorstore Memory load_pinecone new_memory css s = (s1, Ok ()) →
  (∃ v, raw_vectorstore s1 = Some v
        ∧ (raw_vectorstore s = None → load_pinecone = Ok v)
        ∧ ∀ v0, raw_vectorstore s = Some v0 → v = v0)
  ∧ raw_chat_history s1 = Some (default [] (raw_chat_history s))
  ∧ (∃ m, raw_memory s1 = Some m
          ∧ (raw_memory s = None → new_memory MEMORY_K = Ok m)
          ∧ ∀ m0, raw_memory s = Some m0 → m = m0)
  ∧ raw_selected_sources s1 = Some (default todos (raw_selected_sources s))
  ∧ ∀ load_pinecone' new_memory',
      setup Vectorstore Memory load_pinecone' new_memory' css s1
      = (mkRaw (raw_vectorstore s1) (raw_chat_history s1) (raw_memory s1)
               (raw_selected_sources s1)
               (raw_page s1 ++ [SetPageConfig (lit "ISOChat") scales;
                                WriteHtml css;
                                Header (lit "Chat con normas ISO " ++ scales)]),
         Ok ()).
Proof.
  destruct s as [vs h m src pg]. unfold setup.
  rewrite !run_bind. unfold page_emit at 1 2 3. cbv beta iota.
  rewrite run_bind. unfold read_session at 1. cbv beta iota. cbn [raw_vectorstore].
  destruct vs as [v0|], load_pinecone as [v|e], h as [h0|], m as [m0|],
    (new_memory MEMORY_K) as [m1|e1] eqn:Hm, src as [src0|];
    simpl; intros [= <-]; simpl.
  all: split; [eexists; split; [reflexivity|]; split; [done|];
               intros ? [= <-]; reflexivity|].
  all: split; [reflexivity|].
  all: split; [eexists; split; [reflexivity|]; split; [done|];
               intros ? [= <-]; reflexivity|].
  all: split; [reflexivity|].
  all: intros load' mem'; unfold page_emit, read_session; rewrite !run_bind; cbn;
    by rewrite <- !app_assoc.
Qed.

(** ** The script: [clear_database], [ensure_index_exists], [main] *)

Section ScriptProperties.

Variable normalize_filename : pystr → pystr.
Variable split_text : pystr → result (list pystr).
Variable nfkd : pystr → pystr.
Variable uni_word uni_space : N → bool.
Variable vector : Type.
Variable embed_documents : list pyval → result (list vector).
Variable Cloud : Type.
Variable new_client : option pystr → result ().
Variable list_indexes : Cloud → result (list pystr).
Variable delete_all : Cloud → option pystr → result Cloud.
Variable create_index :
  Cloud → option pystr → nat → pystr → pystr → pystr → result Cloud.
Variable query : Cloud → option pystr → result (list scored_vector).
Variable upsert :
  option pystr → Cloud → list (vector_record vector) → result Cloud.
Variable getenv : pystr → option pystr.
Variable path_exists : pystr → bool.
Variable loader : pystr → py (list nat).
Variable timestamp : pystr.
Variable randoms : nat → N.

Abbreviation clear := (clear_database Cloud list_indexes delete_all).
Abbreviation ensure := (ensure_index_exists Cloud list_indexes create_index getenv).
Abbreviation load_dir := (load_directory normalize_filename Cloud path_exists loader).
Abbreviation run_ingest :=
  (ingest normalize_filename split_text nfkd uni_word uni_space vector
          embed_documents Cloud upsert path_exists loader timestamp randoms).
Abbreviation run_main :=
  (main normalize_filename split_text nfkd uni_word uni_space vector
        embed_documents Cloud new_client list_indexes delete_all create_index
        query upsert getenv path_exists loader timestamp randoms).
Abbreviation error_line e := (lit "Error al vaciar la base de datos: " ++ exn_msg e).

Lemma clear_database_run index_name (w : world Cloud) :
  clear index_name w
  = match list_indexes (w_cloud w) with
    | Ok names =>
        if name_in index_name names then
          match delete_all (w_cloud w) index_name with
          | Ok pc' =>
              (mkWorld (with_line (w_store w)
                          ([205%N] ++ lit "ndice " ++ str_of_env index_name
                           ++ lit " vaciado correctamente"))
                       pc' (w_sleeps w ++ [5]), Ok ())
          | Raise e =>
              (mkWorld (with_line (w_store w) (error_line e))
                       (w_cloud w) (w_sleeps w), Ok ())
          end
        else (w, Ok ())
    | Raise e =>
        (mkWorld (with_line (w_store w) (error_line e)) (w_cloud w) (w_sleeps w),
         Ok ())
    end.
Proof.
  destruct w as [st pc sl]. unfold clear_database, clear_database_try.
  rewrite run_bind. unfold the_cloud at 1. cbv beta iota.
  rewrite run_bind. unfold lift at 1. cbn [w_cloud].
  destruct (list_indexes pc) as [names|e]; [|reflexivity].
  destruct (name_in index_name names); [|reflexivity].
  rewrite run_bind. unfold lift at 1.
  destruct (delete_all pc index_name); reflexivity.
Qed.

(** X21. [clear_database] never raises. An index that is not listed is
    left alone and nothing is printed; a listed one is emptied, which
    is reported and followed by a wait of five seconds; when listing or
    emptying fails, the error is printed and the service is left as it
    was, without a wait. *)
Theorem clear_database_never_raises index_name (w : world Cloud) :
  let r := clear index_name w in
  r.2 = Ok ()
  ∧ (∀ names, list_indexes (w_cloud w) = Ok names →
       name_in index_name names = false → r.1 = w)
  ∧ (∀ names pc', list_indexes (w_cloud w) = Ok names →
       name_in index_name names = true →
       delete_all (w_cloud w) index_name = Ok pc' →
       r.1 = mkWorld (with_line (w_store w)
                        ([205%N] ++ lit "ndice " ++ str_of_env index_name
                         ++ lit " vaciado correctamente"))
                     pc' (w_sleeps w ++ [5]))
  ∧ (∀ e, list_indexes (w_cloud w) = Raise e
          ∨ (∃ names, list_indexes (w_cloud w) = Ok names
                      ∧ name_in index_name names = true
                      ∧ delete_all (w_cloud w) index_name = Raise e) →
       r.1 = mkWorld (with_line (w_store w) (error_line e))
                     (w_cloud w) (w_sleeps w)).
Proof.
  cbv zeta. rewrite clear_database_run.
  destruct (list_indexes (w_cloud w)) as [names|e].
  - destruct (name_in index_name names) eqn:Hin.
    + destruct (delete_all (w_cloud w) index_name) as [pc'|e].
      * split; [done|]. split; [intros ? [= <-]; congruence|].
        split; [by intros ?? [= <-] _ [= <-]|].
        intros e [?|(? & _ & _ & ?)]; done.
      * split; [done|]. split; [intros ? [= <-]; congruence|].
        split; [done|].
        intros e' [?|(? & _ & _ & [= <-])]; done.
    + split; [done|]. split; [done|].
      split; [intros ?? [= <-]; congruence|].
      intros e [?|(? & [= <-] & ? & _)]; [done|congruence].
  - split; [done|]. split; [done|]. split; [done|].
    intros e' [[= <-]|(? & ? & _)]; done.
Qed.

Lemma ensure_index_exists_listed index_name (w : world Cloud) names :
  list_indexes (w_cloud w) = Ok names →
  name_in index_name names = true →
  ensure index_name w = (w, Ok ()).
Proof.
  intros Hlist Hin. unfold ensure_index_exists.
  rewrite run_bind. unfold the_cloud at 1. cbv beta iota.
  rewrite run_bind. unfold lift at 1. by rewrite Hlist, Hin.
Qed.

(** X22. [ensure_index_exists] does nothing when the index is listed.
    When it is not, one index is asked for, of dimension 3072 with the
    cosine metric, in the cloud and region of the environment or else in
    [aws] and [us-east-1]; the script then waits sixty seconds. A
    creation that fails is raised, and then there is no wait. *)
Theorem ensure_index_exists_creates_if_missing index_name (w : world Cloud) names :
  list_indexes (w_cloud w) = Ok names →
  if name_in index_name names then ensure index_name w = (w, Ok ())
  else
    ensure index_name w
    = match create_index (w_cloud w) index_name 3072 (lit "cosine")
              (default (lit "aws") (getenv (lit "PINECONE_CLOUD")))
              (default (lit "us-east-1") (getenv (lit "PINECONE_REGION"))) with
      | Ok pc' => (mkWorld (w_store w) pc' (w_sleeps w ++ [60]), Ok ())
      | Raise e => (w, Raise e)
      end.
Proof.
  intros Hlist. destruct (name_in index_name names) eqn:Hin.
  - by apply (ensure_index_exists_listed index_name w names).
  - unfold ensure_index_exists.
    rewrite run_bind. unfold the_cloud at 1. cbv beta iota.
    rewrite run_bind. unfold lift at 1. rewrite Hlist, Hin. cbn [negb].
    rewrite run_bind. unfold lift at 1.
    by destruct (create_index _ _ _ _ _ _).
Qed.

(** X23. If the service lists an index once it has created it,
    [ensure_index_exists] is idempotent: calling it twice in a row does
    what calling it once does. *)
Theorem ensure_index_exists_idempotent index_name (w : world Cloud) :
  (∀ pc pc' dimension metric cloud region,
     create_index pc index_name dimension metric cloud region = Ok pc' →
     ∃ names, list_indexes pc' = Ok names ∧ name_in index_name names = true) →
  (ensure index_name;; ensure index_name) w = ensure index_name w.
Proof.
  intros Hlisted. rewrite run_bind.
  destruct (list_indexes (w_cloud w)) as [names|e] eqn:Hlist.
  - destruct (name_in index_name names) eqn:Hin.
    + by rewrite !(ensure_index_exists_listed index_name w names).
    + assert (Hrun : ∀ w0 : world Cloud, w_cloud w0 = w_cloud w →
                ensure index_name w0
                = match create_index (w_cloud w) index_name 3072 (lit "cosine")
                          (default (lit "aws") (getenv (lit "PINECONE_CLOUD")))
                          (default (lit "us-east-1")
                                   (getenv (lit "PINECONE_REGION"))) with
                  | Ok pc' => (mkWorld (w_store w0) pc' (w_sleeps w0 ++ [60]), Ok ())
                  | Raise e => (w0, Raise e)
                  end).
      { intros w0 Hw0. unfold ensure_index_exists.
        rewrite run_bind. unfold the_cloud at 1. cbv beta iota.
        rewrite run_bind. unfold lift at 1. rewrite Hw0, Hlist, Hin. cbn [negb].
        rewrite run_bind. unfold lift at 1.
        by destruct (create_index _ _ _ _ _ _). }
      rewrite (Hrun w eq_refl).
      destruct (create_index _ _ _ _ _ _) as [pc'|e] eqn:Hcreate; [|done].
      destruct (Hlisted _ _ _ _ _ _ Hcreate) as (names' & Hlist' & Hin').
      by apply (ensure_index_exists_listed index_name _ names').
  - assert (Hrun : ensure index_name w = (w, Raise e)).
    { unfold ensure_index_exists.
      rewrite run_bind. unfold the_cloud at 1. cbv beta iota.
      rewrite run_bind. unfold lift at 1. by rewrite Hlist. }
    by rewrite Hrun.
Qed.

Lemma load_directories_nothing_new (existing_files : gset pyval) items :
  (∀ dir st, ∃ st' documents,
     loader dir st = (st', Ok documents)
     ∧ ∀ d, d ∈ documents → source_of st' d ∈ existing_files) →
  ∀ w : world Cloud,
    ∃ w', for_fold (load_dir existing_files) [] items w = (w', Ok [])
          ∧ w_cloud w' = w_cloud w ∧ w_sleeps w' = w_sleeps w.
Proof.
  intros Hloader. induction items as [|[subdir doc_type] items IH]; intros w.
  - by exists w.
  - rewrite for_fold_cons. unfold load_directory at 1.
    destruct (path_exists _).
    + rewrite run_bind. unfold on_store at 1.
      destruct (Hloader (path_join ROOT_DATA_PATH [subdir]) (w_store w))
        as (st' & documents & Hload & Hsrc).
      rewrite Hload. cbn [fst snd]. rewrite run_bind. unfold on_store at 1.
      cbn [w_store w_cloud w_sleeps]. unfold load_new_documents.
      rewrite run_bind.
      rewrite (load_loop_all_indexed normalize_filename doc_type existing_files
                 documents st' Hsrc).
      rewrite bool_decide_eq_true_2 by done.
      repeat first [rewrite run_bind | rewrite run_ret | progress cbv beta iota].
      cbn [fst snd app]. rewrite run_ret. cbv beta iota.
      change ([] ++ [] : list nat) with ([] : list nat).
      destruct (IH (mkWorld st' (w_cloud w) (w_sleeps w))) as (w' & Hrun & Hc & Hs).
      exists w'. by rewrite Hrun.
    + rewrite run_ret. apply IH.
Qed.

(** X24. A run of [main] without [--reset] that finds the index, whose
    lookup answers, and in which every document the loader returns has
    its source among those the lookup found, says that there is nothing
    new and ends: the service is left as it was, and there is no wait. *)
Theorem main_nothing_new (w : world Cloud) names matches :
  new_client (getenv (lit "PINECONE_API_KEY")) = Ok () →
  list_indexes (w_cloud w) = Ok names →
  name_in (getenv (lit "PINECONE_INDEX_NAME")) names = true →
  query (w_cloud w) (getenv (lit "PINECONE_INDEX_NAME")) = Ok matches →
  (∀ dir st, ∃ st' documents,
     loader dir st = (st', Ok documents)
     ∧ ∀ d, d ∈ documents → source_of st' d ∈ foldl add_existing ∅ matches) →
  ∃ w',
    run_main false w = (w', Ok ())
    ∧ w_cloud w' = w_cloud w
    ∧ w_sleeps w' = w_sleeps w
    ∧ last (stdout (w_store w'))
      = Some (lit "No se encontraron nuevos documentos para procesar.").
Proof.
  intros Hclient Hlist Hin Hquery Hloader. unfold main.
  rewrite run_bind. unfold lift at 1. rewrite Hclient. cbv beta iota.
  rewrite run_bind, run_ret. rewrite run_bind.
  rewrite (ensure_index_exists_listed _ w names Hlist Hin). cbn [negb].
  rewrite !run_bind. unfold the_cloud at 1. cbv beta iota.
  unfold on_store at 1. rewrite Hquery.
  unfold get_existing_files at 1 2, get_existing_files_try. rewrite !run_ret.
  cbn [fst snd]. unfold ingest. rewrite run_bind.
  destruct (load_directories_nothing_new (foldl add_existing ∅ matches)
              DOCUMENT_TYPES Hloader
              (mkWorld (w_store w) (w_cloud w) (w_sleeps w)))
    as (w1 & Hrun & Hc & Hs).
  rewrite Hrun, bool_decide_eq_true_2 by done.
  eexists. split; [reflexivity|]. cbn [w_cloud w_sleeps w_store fst snd].
  split; [exact Hc|]. split; [exact Hs|]. apply last_snoc.
Qed.

Lemma clear_database_returns index_name (w : world Cloud) :
  clear index_name w = ((clear index_name w).1, Ok ()).
Proof.
  rewrite clear_database_run.
  destruct (list_indexes (w_cloud w)) as [names|e]; [|done].
  destruct (name_in index_name names); [|done].
  by destruct (delete_all (w_cloud w) index_name).
Qed.

(** X25. With [--reset], the lookup of the indexed sources is skipped:
    once [clear_database] is over, whether it emptied the index or
    failed to, and the index is found, [main] loads, chunks and stores
    with the empty set, so that every loaded document counts as new. *)
Theorem main_reset_ingests_everything (w : world Cloud) names :
  let index_name := getenv (lit "PINECONE_INDEX_NAME") in
  let w1 := (clear index_name w).1 in
  new_client (getenv (lit "PINECONE_API_KEY")) = Ok () →
  list_indexes (w_cloud w1) = Ok names →
  name_in index_name names = true →
  run_main true w = run_ingest ∅ index_name w1.
Proof.
  intros index_name w1 Hclient Hlist Hin. unfold main.
  rewrite run_bind. unfold lift at 1. rewrite Hclient. cbv beta iota.
  rewrite run_bind. fold index_name. rewrite clear_database_returns. fold w1.
  rewrite run_bind.
  rewrite (ensure_index_exists_listed _ w1 names Hlist Hin). cbn [negb].
  by rewrite run_bind, run_ret.
Qed.

(** X26. Without [--reset], when the lookup of the indexed sources
    fails, [main] prints the error and goes on as with [--reset] on an
    index left as it is: it loads, chunks and stores with the empty
    set. *)
Theorem main_lookup_failure_ingests_everything (w : world Cloud) names e :
  let index_name := getenv (lit "PINECONE_INDEX_NAME") in
  new_client (getenv (lit "PINECONE_API_KEY")) = Ok () →
  list_indexes (w_cloud w) = Ok names →
  name_in index_name names = true →
  query (w_cloud w) index_name = Raise e →
  run_main false w
  = run_ingest ∅ index_name
      (mkWorld (with_line (w_store w)
                  (lit "Error al obtener archivos existentes: " ++ exn_msg e))
               (w_cloud w) (w_sleeps w)).
Proof.
  cbv zeta. intros Hclient Hlist Hin Hquery. unfold main.
  rewrite run_bind. unfold lift at 1. rewrite Hclient. cbv beta iota.
  rewrite run_bind, run_ret. rewrite run_bind.
  rewrite (ensure_index_exists_listed _ w names Hlist Hin). cbn [negb].
  rewrite !run_bind. unfold the_cloud at 1. cbv beta iota.
  unfold on_store at 1. rewrite Hquery.
  unfold get_existing_files at 1 2, get_existing_files_try.
  by rewrite !run_bind.
Qed.

End ScriptProperties.

(** * The further properties on the small run *)


Lemma to_ascii_id_fixed_points_witness :
  to_ascii_id nfkd_sample uni_word_sample uni_space_sample (lit "Ley_1-2024")
  = lit "Ley_1-2024".
Proof.
  apply (to_ascii_id_fixed_points nfkd_sample uni_word_sample uni_space_sample
           (lit "Ley_1-2024") nfkd_sample_ascii).
  vm_compute. reflexivity.
Defined.

Lemma load_new_documents_tags_witness :
  ∃ st' new_documents,
    load_new_documents (λ name, name) [1; 2; 3] (lit "data/03_leyes") (lit "ley")
                       sample_existing loaded_store
    = (st', Ok new_documents)
    ∧ (∀ d, d ∈ new_documents →
         metadata_of st' d !! "filename"%string
         = Some (VStr (basename (py_str (source_of loaded_store d))))
         ∧ metadata_of st' d !! "doc_type"%string = Some (VStr (lit "ley")))
    ∧ (∀ d k, k ≠ "filename"%string → k ≠ "doc_type"%string →
         metadata_of st' d !! k = metadata_of loaded_store d !! k)
    ∧ (∀ d, source_of loaded_store d ∈ sample_existing →
         metadata_of st' d = metadata_of loaded_store d).
Proof.
  apply (load_new_documents_tags (λ name, name) (lit "ley") sample_existing
           [1; 2; 3] (lit "data/03_leyes") loaded_store).
  vm_compute. reflexivity.
Defined.

Lemma load_new_documents_all_indexed_witness :
  load_new_documents (λ name, name) [3] (lit "data/03_leyes") (lit "ley")
                     sample_existing loaded_store
  = (loaded_store, Ok []).
Proof.
  apply (load_new_documents_all_indexed (λ name, name) (lit "ley") sample_existing
           [3] (lit "data/03_leyes") loaded_store).
  intros d ->%list_elem_of_singleton. unfold sample_existing.
  apply elem_of_singleton. vm_compute. reflexivity.
Defined.

Lemma load_new_documents_type_error_witness :
  ∃ st' e,
    load_new_documents (λ name, name) [1] (lit "data/03_leyes") (lit "ley")
                       sample_existing untyped_store
    = (st', Raise e)
    ∧ exn_type e = "TypeError"%string.
Proof.
  apply (load_new_documents_type_error (λ name, name) (lit "ley") sample_existing
           [1] (lit "data/03_leyes") untyped_store).
  exists 1. split; [left|]. split; [|vm_compute; reflexivity].
  unfold sample_existing. rewrite not_elem_of_singleton. vm_compute. discriminate.
Defined.

Lemma add_to_pinecone_keeps_entries_witness :
  let st' := (sample_add_to_pinecone distinct_randoms).1 in
  metadata_of st' 21 !! "created_at"%string = Some (VStr sample_timestamp)
  ∧ metadata_of st' 21 !! "original_filename"%string
    = Some (filename_of sample_store 21)
  ∧ ∀ k, k ≠ "id"%string → k ≠ "created_at"%string →
         k ≠ "original_filename"%string → k ≠ "text"%string →
         metadata_of st' 21 !! k = metadata_of sample_store 21 !! k.
Proof.
  apply (add_to_pinecone_keeps_entries
           nfkd_sample uni_word_sample uni_space_sample nat sample_embed
           (list (list (vector_record nat))) sample_upsert sample_timestamp
           distinct_randoms sample_chunks [] sample_store
           sample_chunks_own_metadata sample_chunks_well_typed 21).
  left.
Defined.

Lemma add_to_pinecone_records_aligned_witness :
  let st' := (sample_add_to_pinecone distinct_randoms).1 in
  let embeddings :=
    (λ v, length (py_str v))
      <$> ((λ c, VStr (text_in sample_store c)) <$> sample_chunks) in
  ∃ st1 vectors,
    sample_prepare = (st1, Ok vectors)
    ∧ length vectors = length sample_chunks
    ∧ ∀ i c, sample_chunks !! i = Some c →
        ∃ e, embeddings !! i = Some e
             ∧ vectors !! i
               = Some (mkRecord
                         (VStr (id_in nfkd_sample uni_word_sample uni_space_sample
                                      sample_store (distinct_randoms i) c))
                         e (metadata_of st' c))
             ∧ metadata_of st' c !! "id"%string
               = Some (VStr (id_in nfkd_sample uni_word_sample uni_space_sample
                                   sample_store (distinct_randoms i) c)).
Proof.
  apply (add_to_pinecone_records_aligned
           nfkd_sample uni_word_sample uni_space_sample nat sample_embed
           (list (list (vector_record nat))) sample_upsert sample_timestamp
           distinct_randoms sample_chunks [] sample_store _
           sample_chunks_own_metadata sample_chunks_well_typed eq_refl).
  vm_compute. lia.
Defined.

Lemma add_to_pinecone_embedding_failure_witness :
  let result :=
    add_to_pinecone nfkd_sample uni_word_sample uni_space_sample nat failing_embed
                    (list (list (vector_record nat))) sample_upsert
                    sample_timestamp distinct_randoms sample_chunks [] sample_store in
  result.2 = mkRun [] [] (Some (Exn "APIConnectionError" (lit "unreachable")))
  ∧ page_content (doc_at result.1 21) = text_in sample_store 21.
Proof.
  destruct (add_to_pinecone_embedding_failure
              nfkd_sample uni_word_sample uni_space_sample nat failing_embed
              (list (list (vector_record nat))) sample_upsert sample_timestamp
              distinct_randoms sample_chunks [] sample_store
              sample_chunks_own_metadata sample_chunks_well_typed)
    as (Hraise & _ & Hcontent).
  split; [by apply Hraise|]. apply Hcontent. left.
Defined.

Lemma add_to_pinecone_type_error_witness :
  ∃ e,
    (add_to_pinecone nfkd_sample uni_word_sample uni_space_sample nat sample_embed
                     (list (list (vector_record nat))) sample_upsert
                     sample_timestamp distinct_randoms [1] [] untyped_store).2
    = mkRun [] [] (Some e)
    ∧ exn_type e = "TypeError"%string.
Proof.
  apply (add_to_pinecone_type_error
           nfkd_sample uni_word_sample uni_space_sample nat sample_embed
           (list (list (vector_record nat))) sample_upsert sample_timestamp
           distinct_randoms [1] [] untyped_store).
  exists 1. split; [left|]. vm_compute. reflexivity.
Defined.


Lemma split_documents_pieces_witness :
  ∃ pieces,
    Forall2 (λ d ps, sample_split_text (page_content (doc_at sample_load.1 d)) = Ok ps)
            [1; 2] pieces
    ∧ (λ c, page_content (doc_at sample_store c)) <$> sample_chunks = concat pieces
    ∧ (∀ l, l < next_loc sample_load.1 →
         doc_at sample_store l = doc_at sample_load.1 l
         ∧ dict_at sample_store l = dict_at sample_load.1 l)
    ∧ stdout sample_store
      = stdout sample_load.1 ++ [lit "Total de chunks generados: "
                                 ++ str_of_nat (length (concat pieces))].
Proof.
  apply (split_documents_pieces sample_split_text [1; 2] sample_load.1
           sample_store sample_chunks).
  - apply Forall_forall. compute_done.
  - vm_compute. reflexivity.
Defined.

Lemma split_documents_chunker_failure_witness :
  ∃ st' e,
    split_documents failing_split_text [1; 2] sample_load.1 = (st', Raise e)
    ∧ (∃ d, d ∈ [1; 2]
            ∧ failing_split_text (page_content (doc_at sample_load.1 d)) = Raise e)
    ∧ stdout st' = stdout sample_load.1.
Proof.
  apply (split_documents_chunker_failure failing_split_text [1; 2] sample_load.1).
  - apply Forall_forall. compute_done.
  - exists 1, (Exn "APIConnectionError" (lit "unreachable")). split; [left|reflexivity].
Defined.



Lemma handle_question_records_exchange_witness :
  let question := lit "Que dice el Art. 1?" in
  let r := handle_question uni_space_sample () sample_chain sample_invoke_cited
                           (λ _, false) (λ _, Ok []) question sample_session in
  chat_history r.1
  = chat_history sample_session ++ [(lit "user", question); (lit "bot", lit "Respuesta")]
  ∧ selected_sources r.1 = selected_sources sample_session
  ∧ ∃ e, r.2 = Raise e.
Proof.
  destruct (handle_question_records_exchange uni_space_sample () sample_chain
              sample_invoke_cited (λ _, false) (λ _, Ok [])
              (lit "Que dice el Art. 1?") sample_session ()
              (mkResponse (lit "Respuesta")
                 [mkSource (lit "Art. 1")
                           (page_metadata "data/03_leyes/Ley 1.pdf" "1" 0)]))
    as (Hhistory & Hsources & Hraise).
  - vm_compute. discriminate.
  - reflexivity.
  - reflexivity.
  - split; [exact Hhistory|]. split; [exact Hsources|]. apply Hraise.
    eexists. split; [left|]. right. vm_compute. reflexivity.
Defined.

Lemma handle_question_service_failure_witness :
  let r := handle_question uni_space_sample () failing_chain sample_invoke
                           (λ _, false) (λ _, Ok [])
                           (lit "Que dice el Art. 1?") sample_session in
  r.2 = Raise (Exn "AuthenticationError" (lit "no key"))
  ∧ chat_history r.1 = chat_history sample_session
  ∧ selected_sources r.1 = selected_sources sample_session.
Proof.
  apply (handle_question_service_failure uni_space_sample () failing_chain
           sample_invoke (λ _, false) (λ _, Ok [])
           (lit "Que dice el Art. 1?") sample_session).
  - vm_compute. discriminate.
  - left. reflexivity.
Defined.

Lemma build_sidebar_forward_slashes_witness :
  backslash ∉ lit "data/03_leyes/sub/Ley 3.pdf".
Proof.
  apply (build_sidebar_forward_slashes (λ _, true) sample_listdir (λ _, true)
           ascii_lower false (λ _ _, [lit "sub\Ley 3.pdf"]) sample_session).
  compute_done.
Defined.

Lemma setup_once_witness :
  raw_chat_history sample_setup.1 = Some [(lit "user", lit "Hola")]
  ∧ raw_selected_sources sample_setup.1 = Some todos
  ∧ ∀ load_pinecone' new_memory',
      (setup () () load_pinecone' new_memory' (lit "<style></style>")
             sample_setup.1).2 = Ok ().
Proof.
  destruct (setup_once (Ok ()) (λ _, Ok ()) (lit "<style></style>")
              sample_raw sample_setup.1) as (_ & Hhistory & _ & Hsources & Hagain).
  - vm_compute. reflexivity.
  - split; [exact Hhistory|]. split; [exact Hsources|].
    intros load' mem'. by rewrite Hagain.
Defined.

Lemma ensure_index_exists_creates_if_missing_witness :
  sample_ensure_index_exists (Some (lit "codigos")) sample_world
  = (mkWorld (w_store sample_world)
             (w_cloud sample_world ++ [(lit "codigos", [])]) [60], Ok ()).
Proof.
  exact (ensure_index_exists_creates_if_missing sample_cloud sample_list_indexes
           sample_create_index sample_getenv (Some (lit "codigos")) sample_world
           [lit "leyes"] eq_refl).
Defined.

Lemma sample_create_index_listed name :
  ∀ pc pc' dimension metric cloud region,
    sample_create_index pc (Some name) dimension metric cloud region = Ok pc' →
    ∃ names, sample_list_indexes pc' = Ok names
             ∧ name_in (Some name) names = true.
Proof.
  intros pc pc' dimension metric cloud region [= <-].
  eexists. split; [reflexivity|]. simpl. apply bool_decide_eq_true.
  rewrite fmap_app, elem_of_app. right. left.
Qed.

Lemma ensure_index_exists_idempotent_witness :
  (sample_ensure_index_exists (Some (lit "codigos"));;
   sample_ensure_index_exists (Some (lit "codigos"))) sample_world
  = sample_ensure_index_exists (Some (lit "codigos")) sample_world.
Proof.
  apply (ensure_index_exists_idempotent sample_cloud sample_list_indexes
           sample_create_index sample_getenv (Some (lit "codigos")) sample_world).
  apply sample_create_index_listed.
Defined.

Lemma sample_loader_indexed dir st :
  ∃ st' documents,
    sample_loader dir st = (st', Ok documents)
    ∧ ∀ d, d ∈ documents →
        source_of st' d ∈ foldl add_existing (∅ : gset pyval) sample_matches.
Proof.
  eexists _, _. split; [reflexivity|].
  intros d ->%list_elem_of_singleton. apply elem_of_existing. right.
  eexists. split; [left|]. split; [by eexists|].
  unfold source_of, metadata_of.
  rewrite doc_at_with_new_document.
  change (next_loc (with_new_dict st _)) with (S (next_loc st)).
  rewrite decide_True by done. cbn [metadata].
  rewrite dict_at_with_new_document, dict_at_with_new_dict, decide_True by done.
  reflexivity.
Qed.

Lemma main_nothing_new_witness :
  ∃ w',
    sample_main sample_query false = (w', Ok ())
    ∧ w_cloud w' = w_cloud sample_world
    ∧ w_sleeps w' = w_sleeps sample_world
    ∧ last (stdout (w_store w'))
      = Some (lit "No se encontraron nuevos documentos para procesar.").
Proof.
  apply (main_nothing_new (λ name, name) sample_split_text nfkd_sample
           uni_word_sample uni_space_sample nat sample_embed sample_cloud
           (λ _, Ok ()) sample_list_indexes sample_delete_all sample_create_index
           sample_query sample_cloud_upsert sample_getenv sample_path_exists
           sample_loader sample_timestamp distinct_randoms sample_world
           [lit "leyes"] sample_matches).
  - reflexivity.
  - reflexivity.
  - vm_compute. reflexivity.
  - vm_compute. reflexivity.
  - exact sample_loader_indexed.
Defined.

Lemma main_reset_ingests_everything_witness :
  sample_main sample_query true
  = sample_ingest ∅ (Some (lit "leyes")) (sample_clear_database (Some (lit "leyes"))).1.
Proof.
  apply (main_reset_ingests_everything (λ name, name) sample_split_text nfkd_sample
           uni_word_sample uni_space_sample nat sample_embed sample_cloud
           (λ _, Ok ()) sample_list_indexes sample_delete_all sample_create_index
           sample_query sample_cloud_upsert sample_getenv sample_path_exists
           sample_loader sample_timestamp distinct_randoms sample_world
           [lit "leyes"]).
  - reflexivity.
  - vm_compute. reflexivity.
  - vm_compute. reflexivity.
Defined.

Lemma main_lookup_failure_ingests_everything_witness :
  sample_main failing_query false
  = sample_ingest ∅ (Some (lit "leyes"))
      (mkWorld (with_line (w_store sample_world)
                  (lit "Error al obtener archivos existentes: timeout"))
               (w_cloud sample_world) (w_sleeps sample_world)).
Proof.
  apply (main_lookup_failure_ingests_everything (λ name, name) sample_split_text
           nfkd_sample uni_word_sample uni_space_sample nat sample_embed
           sample_cloud (λ _, Ok ()) sample_list_indexes sample_delete_all
           sample_create_index failing_query sample_cloud_upsert sample_getenv
           sample_path_exists sample_loader sample_timestamp distinct_randoms
           sample_world [lit "leyes"]
           (Exn "PineconeException" (lit "timeout"))).
  - reflexivity.
  - reflexivity.
  - vm_compute. reflexivity.
  - reflexivity.
Defined.

Example main_reset_sample :
  let w' := (sample_main sample_query true).1 in
  (sample_main sample_query true).2 = Ok ()
  ∧ w_sleeps w' = [5]
  ∧ length <$> (w_cloud w').*2 = [2]
  ∧ stdout (w_store w')
    = [[205%N] ++ lit "ndice leyes vaciado correctamente";
       lit "Encontrados 1 documentos nuevos en data/03_leyes";
       lit "Total de chunks generados: 2";
       lit "Documentos a" ++ [241%N] ++ lit "adidos a Pinecone exitosamente"].
Proof. vm_compute. repeat split. Qed.
